(** * HydroChrono wave excitation: a shallow embedding of [src/wave_types.cpp]

    The C++ type [double] is modelled by the real numbers [R] (exact
    arithmetic, no rounding, no NaN or infinities); comparisons of doubles
    become the decision procedures [Rle_dec], [Rlt_dec] and [Req_dec_T].
    Indices are [nat] where the source uses a loop counter and [Z] where the
    source uses a signed [int] that it decrements.  A read outside a vector and
    a C++ [throw] both end the run: they are the two kinds of [failure] of the
    [result] monad below. *)

From Stdlib Require Import Reals Lra Lia ZArith List Bool Sorted.
From Stdlib Require Ascii String.
Import ListNotations.
Open Scope R_scope.

(** * Part I: the embedding *)

(** ** Results of fallible code *)

Inductive failure : Type :=
| BadIndex (i : Z)      (* operator[] / front() / back() outside the container *)
| WindowError           (* throw of wave_types.cpp:596, lag outside the window *)
| BracketError          (* throw of wave_types.cpp:587, lag outside its bracket *)
| HelperError.          (* get_lower_index gave up *)

Inductive result (A : Type) : Type :=
| Ok (a : A)
| Err (e : failure).
Arguments Ok {A} a.
Arguments Err {A} e.

Definition bind {A B : Type} (c : result A) (k : A -> result B) : result B :=
  match c with
  | Ok a => k a
  | Err e => Err e
  end.

Notation "x <- c ;; k" := (bind c (fun x => k))
  (at level 61, c at next level, right associativity).

Definition is_ok {A : Type} (r : result A) : Prop := exists a, r = Ok a.
Definition is_err {A : Type} (r : result A) : Prop := exists e, r = Err e.

(** ** Vectors: [std::vector<double>] and [Eigen::VectorXd] as [list R] *)

Definition vget_nat {A : Type} (v : list A) (i : nat) : result A :=
  match nth_error v i with
  | Some x => Ok x
  | None => Err (BadIndex (Z.of_nat i))
  end.

Definition vget {A : Type} (v : list A) (i : Z) : result A :=
  if (i <? 0)%Z then Err (BadIndex i) else
  match nth_error v (Z.to_nat i) with
  | Some x => Ok x
  | None => Err (BadIndex i)
  end.

Fixpoint upd {A : Type} (v : list A) (i : nat) (x : A) : list A :=
  match v, i with
  | [], _ => []
  | _ :: t, O => x :: t
  | h :: t, S j => h :: upd t j x
  end.

Definition vset {A : Type} (v : list A) (i : nat) (x : A) : result (list A) :=
  if (i <? length v)%nat then Ok (upd v i x) else Err (BadIndex (Z.of_nat i)).

(** [for (i = 0; i < n; i++) body], the state threaded through the body. *)
Fixpoint for_from {St : Type} (start n : nat) (body : nat -> St -> result St) (s : St)
  : result St :=
  match n with
  | O => Ok s
  | S m => s' <- body start s ;; for_from (S start) m body s'
  end.

Definition for_loop {St : Type} (n : nat) (body : nat -> St -> result St) (s : St)
  : result St := for_from 0 n body s.

(** [Eigen::VectorXd::LinSpaced(size, low, high)]: [size] equally spaced
    values from [low] to [high]; a vector of size 1 holds [high]. *)
Definition LinSpaced (size : Z) (low high : R) : list R :=
  if (size =? 1)%Z then [high]
  else map (fun i => low + INR i * ((high - low) / (IZR size - 1)))
           (seq 0 (Z.to_nat size)).

(** [static_cast<int>(x)]: truncation toward zero. *)
Definition trunc_int (x : R) : Z :=
  if Rle_dec 0 x then Int_part x else (- Int_part (- x))%Z.

(** [floor(x)] and [ceil(x)] of <cmath>, as integers. *)
Definition floorZ (x : R) : Z := Int_part x.
Definition ceilZ (x : R) : Z := (- Int_part (- x))%Z.

(** Comparisons of doubles, as booleans. *)
Definition Rleb (a b : R) : bool := if Rle_dec a b then true else false.
Definition Rltb (a b : R) : bool := if Rlt_dec a b then true else false.
Definition Reqb (a b : R) : bool := if Req_dec_T a b then true else false.

(** [v.resize(n)] of std::vector<double>: the prefix is kept, new slots are 0. *)
Definition resize (v : list R) (n : nat) : list R :=
  firstn n v ++ repeat 0 (n - length v).

(** [size_t] is 64 bits wide and [int] 32: [size() - 2] is computed modulo
    2^64 and then stored into an [int]. *)
Definition size_t_wrap (z : Z) : Z := (z mod 2 ^ 64)%Z.
Definition to_int (z : Z) : Z := ((z + 2 ^ 31) mod 2 ^ 32 - 2 ^ 31)%Z.

(** ** NoWave *)

Module NoWave.

Definition GetForceAtTime (num_bodies_ : nat) (t : R) : result (list R) :=
  let dof := (num_bodies_ * 6)%nat in
  for_loop dof (fun i f => vset f i 0) (repeat 0 dof).

End NoWave.

(** ** RegularWave *)

Module RegularWave.

(** [HydroData::RegularWaveInfo]: the tensors are indexed
    [(dof, mode, frequency bin)]. *)
Record RegularWaveInfo : Type := {
  freq_list : list R;
  excitation_mag_matrix : list (list (list R));
  excitation_phase_matrix : list (list (list R))
}.

Record t : Type := {
  num_bodies_ : nat;
  regular_wave_amplitude_ : R;
  regular_wave_omega_ : R;
  wave_info_ : list RegularWaveInfo;
  excitation_force_mag_ : list R;
  excitation_force_phase_ : list R;
  force_ : list R
}.

Definition tensor_get (T : list (list (list R))) (i j k : Z) : result R :=
  row <- vget T i ;;
  col <- vget row j ;;
  vget col k.

Definition GetOmegaDelta (w : t) : result R :=
  info <- vget_nat (wave_info_ w) 0 ;;
  omega_max <- vget (freq_list info) (Z.of_nat (length (freq_list info)) - 1) ;;
  let num_freqs := INR (length (freq_list info)) in
  Ok (omega_max / num_freqs).

Definition GetExcitationMagInterp (w : t) (b i j : Z) (freq_index_des : R)
  : result R :=
  let freq_interp_val := freq_index_des - IZR (floorZ freq_index_des) in
  info <- vget (wave_info_ w) b ;;
  excitationMagFloor <-
    tensor_get (excitation_mag_matrix info) i j (floorZ freq_index_des) ;;
  excitationMagCeil <-
    tensor_get (excitation_mag_matrix info) i j (floorZ freq_index_des + 1) ;;
  Ok (freq_interp_val * (excitationMagCeil - excitationMagFloor)
      + excitationMagFloor).

Definition GetExcitationPhaseInterp (w : t) (b i j : Z) (freq_index_des : R)
  : result R :=
  let freq_interp_val := freq_index_des - IZR (floorZ freq_index_des) in
  info <- vget (wave_info_ w) b ;;
  excitationPhaseFloor <-
    tensor_get (excitation_phase_matrix info) i j (floorZ freq_index_des) ;;
  excitationPhaseCeil <-
    tensor_get (excitation_phase_matrix info) i j (floorZ freq_index_des + 1) ;;
  Ok (freq_interp_val * (excitationPhaseCeil - excitationPhaseFloor)
      + excitationPhaseFloor).

Definition Initialize (w : t) : result t :=
  let total_dofs := (6 * num_bodies_ w)%nat in
  let mag0 := resize (excitation_force_mag_ w) total_dofs in
  let phase0 := resize (excitation_force_phase_ w) total_dofs in
  let force0 := resize (force_ w) total_dofs in
  wave_omega_delta <- GetOmegaDelta w ;;
  let freq_index_des := regular_wave_omega_ w / wave_omega_delta - 1 in
  mp <- for_loop (num_bodies_ w) (fun b mp0 =>
          for_loop 6 (fun rowEx (mp1 : list R * list R) =>
            let body_offset := (6 * b)%nat in
            m <- GetExcitationMagInterp w (Z.of_nat b) (Z.of_nat rowEx) 0
                   freq_index_des ;;
            mag <- vset (fst mp1) (body_offset + rowEx) m ;;
            p <- GetExcitationPhaseInterp w (Z.of_nat b) (Z.of_nat rowEx) 0
                   freq_index_des ;;
            phase <- vset (snd mp1) (body_offset + rowEx) p ;;
            Ok (mag, phase)) mp0) (mag0, phase0) ;;
  Ok {| num_bodies_ := num_bodies_ w;
        regular_wave_amplitude_ := regular_wave_amplitude_ w;
        regular_wave_omega_ := regular_wave_omega_ w;
        wave_info_ := wave_info_ w;
        excitation_force_mag_ := fst mp;
        excitation_force_phase_ := snd mp;
        force_ := force0 |}.

(** wave_types.cpp:50-62.  The magnitude is read at [body_offset + rowEx],
    the phase at [rowEx]. *)
Definition GetForceAtTime (w : t) (time : R) : result (list R) :=
  let dof := (num_bodies_ w * 6)%nat in
  for_loop (num_bodies_ w) (fun b f0 =>
    let body_offset := (6 * b)%nat in
    for_loop 6 (fun rowEx f =>
      m <- vget_nat (excitation_force_mag_ w) (body_offset + rowEx) ;;
      p <- vget_nat (excitation_force_phase_ w) rowEx ;;
      vset f (body_offset + rowEx)
           (m * regular_wave_amplitude_ w * cos (regular_wave_omega_ w * time + p)))
      f0) (repeat 0 dof).

End RegularWave.

(** ** Dispersion relation: [ComputeWaveNumbers] *)

(** The [while] loop of wave_types.cpp:104-113; [fuel] is
    [max_iterations - iterations], the loop's own bound. *)
Fixpoint newton_while (fuel : nat) (omega water_depth g tolerance : R)
  (k error : R) : R :=
  match fuel with
  | O => k
  | S fuel' =>
    if Rgt_dec error tolerance then
      let tanh_kh := tanh (k * water_depth) in
      let f := omega * omega - g * k * tanh_kh in
      let df := -2.0 * g * tanh_kh
                - g * k * water_depth * (1.0 - tanh_kh * tanh_kh) in
      let delta_k := f / df in
      newton_while fuel' omega water_depth g tolerance (k - delta_k) (Rabs delta_k)
    else k
  end.

Definition ComputeWaveNumbers (omegas : list R) (water_depth g tolerance : R)
  (max_iterations : Z) : list R :=
  map (fun omega =>
         let k := omega * omega / g in
         newton_while (Z.to_nat max_iterations) omega water_depth g tolerance k 1.0)
      omegas.

(** The call with the default arguments [g = 9.81], [tolerance = 1e-6],
    [max_iterations = 100]. *)
Definition ComputeWaveNumbers_default (omegas : list R) (water_depth : R) : list R :=
  ComputeWaveNumbers omegas water_depth 9.81 1e-6 100.

(** ** Free-surface synthesis: [FreeSurfaceElevation] *)

Section Synthesis.

(** [std::mt19937] and [std::uniform_real_distribution<double>] belong to the
    C++ standard library: the generator is a state, seeding builds one, and a
    draw returns a value together with the advanced state. *)
Variable mt19937 : Type.
Variable mt19937_seed : Z -> mt19937.
Variable uniform_real_distribution : R -> R -> mt19937 -> R * mt19937.

(** [for (i < phases.size()) phases[i] = dist(rng)] *)
Fixpoint draw_phases (n : nat) (rng : mt19937) : list R * mt19937 :=
  match n with
  | O => ([], rng)
  | S m =>
    let (x, rng1) := uniform_real_distribution 0.0 (2 * PI) rng in
    let (xs, rng2) := draw_phases m rng1 in
    (x :: xs, rng2)
  end.

(** The component weights [sqrt_A] of wave_types.cpp:126-143. *)
Definition amplitude_envelope (freqs_hz spectral_densities : list R)
  : result (list R) :=
  last_f <- vget freqs_hz (Z.of_nat (length freqs_hz) - 1) ;;
  let delta_f := last_f / INR (length freqs_hz) in
  let A := map (fun s => 2 * s * delta_f) spectral_densities in
  Ok (map sqrt A).

Definition FreeSurfaceElevation (freqs_hz spectral_densities time_index : list R)
  (water_depth : R) (seed : Z) : result (list R) :=
  let omegas := map (fun f => 2 * PI * f) freqs_hz in
  let wave_numbers := ComputeWaveNumbers_default omegas water_depth in
  sqrt_A <- amplitude_envelope freqs_hz spectral_densities ;;
  let omegas_t := map (fun ti => map (fun w => ti * w) omegas) time_index in
  let rng := mt19937_seed seed in
  let phases := fst (draw_phases (length omegas) rng) in
  for_loop (length spectral_densities) (fun i eta0 =>
    for_loop (length time_index) (fun j eta =>
      a <- vget_nat sqrt_A i ;;
      row <- vget_nat omegas_t j ;;
      wt <- vget_nat row i ;;
      ph <- vget_nat phases i ;;
      e <- vget_nat eta j ;;
      vset eta j (e + a * cos (wt + ph))) eta0)
    (repeat 0.0 (length time_index)).

End Synthesis.

(** ** Mesh export: points and triangles *)

Definition point3 : Type := (R * R * R)%type.
Definition triangle : Type := (Z * Z * Z)%type.

Definition CreateFreeSurface3DPts (eta t_vec : list R) : result (list point3) :=
  for_loop (length t_vec) (fun i surface =>
    ti <- vget_nat t_vec i ;;
    let t := -1 * ti in
    z <- vget_nat eta i ;;
    s1 <- vset surface (2 * i) (t, -10.0, z) ;;
    vset s1 (2 * i + 1) (t, 10.0, z))
    (repeat (0, 0, 0) (length t_vec * 2)).

(** [push_back] of the two triangles of column [i]. *)
Definition push_column (triangles : list triangle) (i : Z) : list triangle :=
  (triangles ++ [(2 * i, 2 * i + 1, 2 * i + 3)%Z])
    ++ [(2 * i, 2 * i + 3, 2 * i + 2)%Z].

(** wave_types.cpp:184-193; the bound [eta_size / 2 - 1] is [size_t]
    arithmetic. *)
Definition CreateFreeSurfaceTriangles (eta_size : Z) : list triangle :=
  let bound := size_t_wrap (eta_size / 2 - 1) in
  fold_left push_column (map Z.of_nat (seq 0 (Z.to_nat bound))) [].

(** ** Wave spectra *)

(** [std::pow] with a literal integral exponent. *)
Definition pow_int (x : R) (n : Z) : R := powerRZ x n.

(** [std::sort] on doubles, as an insertion sort. *)
Fixpoint insert_sorted (x : R) (l : list R) : list R :=
  match l with
  | [] => [x]
  | y :: t => if Rle_dec x y then x :: y :: t else y :: insert_sorted x t
  end.

Definition sort_doubles (l : list R) : list R := fold_right insert_sorted [] l.

(** The density of one frequency, wave_types.cpp:445-446. *)
Definition pm_density (Hs Tp fi : R) : R :=
  1.25 * pow_int (1 / Tp) 4 * pow_int (Hs / 2) 2 * pow_int fi (-5)
  * exp (-1.25 * pow_int (1 / Tp) 4 * pow_int fi (-4)).

(** Returns the sorted frequency vector (the argument is sorted in place) and
    the densities. *)
Definition PiersonMoskowitzSpectrumHz (f : list R) (Hs Tp : R)
  : list R * list R :=
  let f' := sort_doubles f in
  (f', map (pm_density Hs Tp) f').

(** The JONSWAP factor of one frequency, wave_types.cpp:457-463. *)
Definition jonswap_factor (Tp gamma fi : R) : R :=
  let sigma := if Rle_dec fi (1.0 / Tp) then 0.07 else 0.09 in
  Rpower gamma (exp (- (1.0 / (2.0 * pow_int sigma 2))
                     * pow_int (fi * Tp - 1.0) 2)).

Definition JONSWAPSpectrumHz (f : list R) (Hs Tp gamma : R) : list R * list R :=
  let (f', spectral_densities) := PiersonMoskowitzSpectrumHz f Hs Tp in
  (f', map (fun fs => snd fs * jonswap_factor Tp gamma (fst fs))
           (combine f' spectral_densities)).

(** ** IrregularWaves *)

Module IrregularWaves.

(** A 6 x n [Eigen::MatrixXd], stored by columns: [mat(dof, j)] is entry
    [dof] of column [j]. *)
Definition matrix : Type := list (list R).

Definition mat_get (m : matrix) (row col : Z) : result R :=
  c <- vget m col ;;
  vget c row.

Record t : Type := {
  num_bodies_ : nat;
  wave_height_ : R;
  wave_period_ : R;
  peak_enhancement_factor_ : R;
  simulation_dt_ : R;
  simulation_duration_ : R;
  ramp_duration_ : R;
  seed_ : Z;
  water_depth : R;                         (* sim_data_.water_depth *)
  ex_irf_sampled_ : list matrix;
  ex_irf_time_sampled_ : list (list R);
  ex_irf_width_sampled_ : list (list R);
  spectrum_frequencies_ : list R;
  spectral_densities_ : list R;
  free_surface_time_sampled_ : list R;
  free_surface_elevation_sampled_ : list R
}.

Definition set_irf (w : t) (vals : list matrix) (times widths : list (list R)) : t :=
  {| num_bodies_ := num_bodies_ w;
     wave_height_ := wave_height_ w;
     wave_period_ := wave_period_ w;
     peak_enhancement_factor_ := peak_enhancement_factor_ w;
     simulation_dt_ := simulation_dt_ w;
     simulation_duration_ := simulation_duration_ w;
     ramp_duration_ := ramp_duration_ w;
     seed_ := seed_ w;
     water_depth := water_depth w;
     ex_irf_sampled_ := vals;
     ex_irf_time_sampled_ := times;
     ex_irf_width_sampled_ := widths;
     spectrum_frequencies_ := spectrum_frequencies_ w;
     spectral_densities_ := spectral_densities_ w;
     free_surface_time_sampled_ := free_surface_time_sampled_ w;
     free_surface_elevation_sampled_ := free_surface_elevation_sampled_ w |}.

Definition set_spectrum (w : t) (freqs densities : list R) : t :=
  {| num_bodies_ := num_bodies_ w;
     wave_height_ := wave_height_ w;
     wave_period_ := wave_period_ w;
     peak_enhancement_factor_ := peak_enhancement_factor_ w;
     simulation_dt_ := simulation_dt_ w;
     simulation_duration_ := simulation_duration_ w;
     ramp_duration_ := ramp_duration_ w;
     seed_ := seed_ w;
     water_depth := water_depth w;
     ex_irf_sampled_ := ex_irf_sampled_ w;
     ex_irf_time_sampled_ := ex_irf_time_sampled_ w;
     ex_irf_width_sampled_ := ex_irf_width_sampled_ w;
     spectrum_frequencies_ := freqs;
     spectral_densities_ := densities;
     free_surface_time_sampled_ := free_surface_time_sampled_ w;
     free_surface_elevation_sampled_ := free_surface_elevation_sampled_ w |}.

Definition set_free_surface (w : t) (times elevations : list R) : t :=
  {| num_bodies_ := num_bodies_ w;
     wave_height_ := wave_height_ w;
     wave_period_ := wave_period_ w;
     peak_enhancement_factor_ := peak_enhancement_factor_ w;
     simulation_dt_ := simulation_dt_ w;
     simulation_duration_ := simulation_duration_ w;
     ramp_duration_ := ramp_duration_ w;
     seed_ := seed_ w;
     water_depth := water_depth w;
     ex_irf_sampled_ := ex_irf_sampled_ w;
     ex_irf_time_sampled_ := ex_irf_time_sampled_ w;
     ex_irf_width_sampled_ := ex_irf_width_sampled_ w;
     spectrum_frequencies_ := spectrum_frequencies_ w;
     spectral_densities_ := spectral_densities_ w;
     free_surface_time_sampled_ := times;
     free_surface_elevation_sampled_ := elevations |}.

(** The widths of one time grid, the inner loop of wave_types.cpp:384-393. *)
Definition width_at (time_array : list R) (ii : nat) : R :=
  let w0 := 0.0 in
  let w1 :=
    if (Z.of_nat ii <? Z.of_nat (length time_array) - 1)%Z
    then w0 + 0.5 * Rabs (nth (ii + 1) time_array 0 - nth ii time_array 0)
    else w0 in
  if (0 <? ii)%nat
  then w1 + 0.5 * Rabs (nth ii time_array 0 - nth (ii - 1) time_array 0)
  else w1.

Definition widths_of (time_array : list R) : list R :=
  map (width_at time_array) (seq 0 (length time_array)).

(** [CalculateWidthIRF] recomputes the widths of every body. *)
Definition CalculateWidthIRF_vectors (n : nat) (times widths : list (list R))
  : result (list (list R)) :=
  for_loop n (fun b ws =>
    time_array <- vget_nat times b ;;
    vset ws b (widths_of time_array)) widths.

Definition CalculateWidthIRF (w : t) : result t :=
  ws <- CalculateWidthIRF_vectors (num_bodies_ w) (ex_irf_time_sampled_ w)
          (ex_irf_width_sampled_ w) ;;
  Ok (set_irf w (ex_irf_sampled_ w) (ex_irf_time_sampled_ w) ws).

Section Resampling.

(** [Eigen::SplineFitting<Eigen::Spline<double, 6>>::Interpolate(values,
    degree, knot parameters)] returns a curve; evaluating it at a parameter
    gives one column of six values. *)
Variable SplineInterpolate : matrix -> Z -> list R -> R -> list R.

(** One pass of the body loop of [ResampleIRF], wave_types.cpp:345-375. *)
Definition resample_body (dt : R) (b : nat) (w : t) : result t :=
  time_array_old <- vget_nat (ex_irf_time_sampled_ w) b ;;
  _ <- vget_nat (ex_irf_width_sampled_ w) b ;;
  val_array <- vget_nat (ex_irf_sampled_ w) b ;;
  (* 1) Resample time *)
  t0 <- vget time_array_old 0 ;;
  t1 <- vget time_array_old (Z.of_nat (length time_array_old) - 1) ;;
  let time_array := LinSpaced (ceilZ ((t1 - t0) / dt)) t0 t1 in
  times <- vset (ex_irf_time_sampled_ w) b time_array ;;
  (* 2) Resample width *)
  w1 <- CalculateWidthIRF (set_irf w (ex_irf_sampled_ w) times
                             (ex_irf_width_sampled_ w)) ;;
  (* 3) Resample values *)
  let t_old_scaled := LinSpaced (Z.of_nat (length time_array_old)) 0 1 in
  let t_new_scaled := LinSpaced (Z.of_nat (length time_array)) 0 1 in
  let spline := SplineInterpolate val_array 3 t_old_scaled in
  let vals_new := map spline t_new_scaled in
  vals <- vset (ex_irf_sampled_ w1) b vals_new ;;
  Ok (set_irf w1 vals (ex_irf_time_sampled_ w1) (ex_irf_width_sampled_ w1)).

Definition ResampleIRF (w : t) (dt : R) : result t :=
  for_loop (num_bodies_ w) (resample_body dt) w.

End Resampling.

Definition CreateSpectrum (w : t) : t :=
  let freqs := LinSpaced 1000 0.001 1.0 in
  let (freqs', densities) :=
    JONSWAPSpectrumHz freqs (wave_height_ w) (wave_period_ w)
      (peak_enhancement_factor_ w) in
  set_spectrum w freqs' densities.

(** The four tests of wave_types.cpp:477-488 on one IRF time grid. *)
Definition irf_bounds_step (acc : R * R) (grid : list R) : result (R * R) :=
  let t_irf_min := fst acc in
  let t_irf_max := snd acc in
  first <- vget grid 0 ;;
  let t_irf_min := if Rltb first t_irf_min then first else t_irf_min in
  let t_irf_max := if Rltb t_irf_max first then first else t_irf_max in
  final <- vget grid (Z.of_nat (length grid) - 1) ;;
  let t_irf_max := if Rltb t_irf_max final then final else t_irf_max in
  let t_irf_min := if Rltb final t_irf_min then final else t_irf_min in
  Ok (t_irf_min, t_irf_max).

Fixpoint irf_bounds (grids : list (list R)) (acc : R * R) : result (R * R) :=
  match grids with
  | [] => Ok acc
  | grid :: rest => acc' <- irf_bounds_step acc grid ;; irf_bounds rest acc'
  end.

(** The time stamps of the history, wave_types.cpp:472-498: the pair is
    [(time_array, free_surface_time_sampled_)]. *)
Definition free_surface_times (w : t) : result (list R * list R) :=
  let num_timesteps :=
    (trunc_int (simulation_duration_ w / simulation_dt_ w) + 1)%Z in
  bounds <- irf_bounds (ex_irf_time_sampled_ w) (0.0, 0.0) ;;
  let t_irf_min := fst bounds in
  let t_irf_max := snd bounds in
  let time_array :=
    LinSpaced num_timesteps 0
      (simulation_duration_ w + 2 * (t_irf_max - t_irf_min)) in
  Ok (time_array, map (fun x => x + - t_irf_max) time_array).

(** The linear ramp of wave_types.cpp:509-517. *)
Definition apply_ramp (w : t) (eta : list R) : result (list R) :=
  if Rltb 0.0 (ramp_duration_ w) then
    let ramp_timesteps :=
      (trunc_int (ramp_duration_ w / simulation_dt_ w) + 1)%Z in
    let ramp := LinSpaced ramp_timesteps 0.0 1.0 in
    for_loop (length ramp) (fun i e =>
      x <- vget_nat e i ;;
      r <- vget_nat ramp i ;;
      vset e i (x * r)) eta
  else Ok eta.

Section Queries.

Variable mt19937 : Type.
Variable mt19937_seed : Z -> mt19937.
Variable uniform_real_distribution : R -> R -> mt19937 -> R * mt19937.

(** [get_lower_index(value, ticks)] of hydroc/helper.h. *)
Variable get_lower_index : R -> list R -> result Z.

(** What an uninitialised [double eta_val] holds when it is read, for the
    call [(body, dof, time)] and the IRF sample [j]. *)
Variable indeterminate : Z -> Z -> R -> nat -> R.

Definition CreateFreeSurfaceElevation (w : t) : result t :=
  grids <- free_surface_times w ;;
  let time_array := fst grids in
  eta <- FreeSurfaceElevation mt19937 mt19937_seed uniform_real_distribution
           (spectrum_frequencies_ w) (spectral_densities_ w) time_array
           (water_depth w) (seed_ w) ;;
  eta' <- apply_ramp w eta ;;
  Ok (set_free_surface w (snd grids) eta').

(** The synthesis branch of [InitializeIRFVectors], wave_types.cpp:267-270:
    no elevation file, wave height and period not zero. *)
Definition synthesize_free_surface (w : t) : result t :=
  CreateFreeSurfaceElevation (CreateSpectrum w).

(** [while (free_surface_time_sampled_[idx] > t_tau) idx -= 1;] with
    [n = idx + 1]: at [n = 0] the read is at index -1. *)
Fixpoint walk_back (ts : list R) (t_tau : R) (n : nat) : result Z :=
  match n with
  | O => Err (BadIndex (-1))
  | S m =>
    v <- vget_nat ts m ;;
    if Rltb t_tau v then walk_back ts t_tau m else Ok (Z.of_nat m)
  end.

Definition cursor_walk_back (ts : list R) (t_tau : R) (idx : Z) : result Z :=
  if (idx <? 0)%Z then Err (BadIndex idx)
  else walk_back ts t_tau (S (Z.to_nat idx)).

(** The elevation used for the lag [t_tau], wave_types.cpp:567-589. *)
Definition eta_at (w : t) (garbage t_tau : R) (idx : Z) : result R :=
  t1 <- vget (free_surface_time_sampled_ w) idx ;;
  t2 <- vget (free_surface_time_sampled_ w) (idx + 1) ;;
  if Reqb t_tau t1 then vget (free_surface_time_sampled_ w) idx
  else if Reqb t_tau t2 then vget (free_surface_time_sampled_ w) (idx + 1)
  else if Rltb t1 t_tau && Rltb t_tau t2 then
    eta1 <- vget (free_surface_elevation_sampled_ w) idx ;;
    eta2 <- vget (free_surface_elevation_sampled_ w) (idx + 1) ;;
    let w1 := (t2 - t_tau) / (t2 - t1) in
    let w2 := 1.0 - w1 in
    (* [auto eta_val = ...] declares a new variable of the inner block *)
    let eta_val_inner := w1 * eta1 + w2 * eta2 in
    Ok garbage
  else Err BracketError.

(** One pass of the loop over the IRF samples, wave_types.cpp:558-602; the
    state is [(idx, f_ex)]. *)
Definition convolution_step (w : t) (irf_time_array : list R)
  (irf_val_mat : matrix) (irf_width_array : list R) (tmin tmax : R)
  (body dof : Z) (time : R) (j : nat) (st : Z * R) : result (Z * R) :=
  tau <- vget_nat irf_time_array j ;;
  let t_tau := time - tau in
  if Rleb tmin t_tau && Rleb t_tau tmax then
    idx <- cursor_walk_back (free_surface_time_sampled_ w) t_tau (fst st) ;;
    eta_val <- eta_at w (indeterminate body dof time j) t_tau idx ;;
    v <- mat_get irf_val_mat dof (Z.of_nat j) ;;
    wj <- vget_nat irf_width_array j ;;
    Ok (idx, snd st + v * eta_val * wj)
  else Err WindowError.

Definition ExcitationConvolution (w : t) (body dof : Z) (time : R) : result R :=
  let f_ex := 0.0 in
  irf_time_array <- vget (ex_irf_time_sampled_ w) body ;;
  irf_val_mat <- vget (ex_irf_sampled_ w) body ;;
  irf_width_array <- vget (ex_irf_width_sampled_ w) body ;;
  let fs_time := free_surface_time_sampled_ w in
  tmin <- vget fs_time 0 ;;
  tmax <- vget fs_time (Z.of_nat (length fs_time) - 1) ;;
  tau0 <- vget irf_time_array 0 ;;
  let t_tau := time - tau0 in
  idx <- (if Rleb t_tau tmin then Ok 0%Z
          else if Rleb tmax t_tau
               then Ok (to_int (size_t_wrap (Z.of_nat (length fs_time) - 2)))
               else get_lower_index t_tau fs_time) ;;
  st <- for_loop (length irf_time_array)
          (convolution_step w irf_time_array irf_val_mat irf_width_array
             tmin tmax body dof time) (idx, f_ex) ;;
  Ok (snd st).

Definition GetForceAtTime (w : t) (time : R) : result (list R) :=
  let total_dofs := (num_bodies_ w * 6)%nat in
  f0 <- for_loop total_dofs (fun i f => vset f i 0.0) (repeat 0 total_dofs) ;;
  for_loop (num_bodies_ w) (fun body f1 =>
    for_loop 6 (fun dof f =>
      f_dof <- ExcitationConvolution w (Z.of_nat body) (Z.of_nat dof) time ;;
      let b_offset := (body * 6)%nat in
      vset f (b_offset + dof) f_dof) f1) f0.

End Queries.

(** The points and triangles that [SetUpWaveMesh] hands to the mesh writer. *)
Definition SetUpWaveMesh (w : t) : result (list point3 * list triangle) :=
  let num_timesteps :=
    (trunc_int (simulation_duration_ w / simulation_dt_ w) + 1)%Z in
  let time_index := LinSpaced num_timesteps 0 (simulation_duration_ w) in
  free_surface_3d_pts <-
    CreateFreeSurface3DPts (free_surface_elevation_sampled_ w) time_index ;;
  let free_surface_triangles :=
    CreateFreeSurfaceTriangles (Z.of_nat (length time_index)) in
  Ok (free_surface_3d_pts, free_surface_triangles).

End IrregularWaves.

(** ** A scan for the bracket index *)

(** Modelled from the spec: the body of [get_lower_index] is in
    hydroc/helper.h, outside the sources at hand.  The spec (4.5) has it
    "locate the bracketing pair of history samples": the index [i] of the
    first pair with [ticks[i] <= value < ticks[i+1]]; no such pair is a
    failure. *)
Fixpoint lower_index_scan (value : R) (ticks : list R) (i : Z) : result Z :=
  match ticks with
  | a :: ((b :: _) as rest) =>
    if Rleb a value && Rltb value b then Ok i
    else lower_index_scan value rest (i + 1)
  | _ => Err HelperError
  end.

Definition get_lower_index_scan (value : R) (ticks : list R) : result Z :=
  lower_index_scan value ticks 0.

Import IrregularWaves.

(** ** The window of the free-surface history *)

Definition window_min (w : t) : R := nth 0 (free_surface_time_sampled_ w) 0.
Definition window_max (w : t) : R :=
  nth (length (free_surface_time_sampled_ w) - 1) (free_surface_time_sampled_ w) 0.
Definition inside_window (w : t) (x : R) : Prop :=
  window_min w <= x <= window_max w.

(** Every lag [time - tau] of the IRF time grid lies in the window. *)
Definition lags_inside (w : t) (grid : list R) (time : R) : Prop :=
  Forall (fun tau => inside_window w (time - tau)) grid.

(** What [ExcitationConvolution] relies on when it calls [get_lower_index]
    with a value strictly inside the ticks: a lower index whose bracket
    holds the value. *)
Definition lower_index_contract (g : R -> list R -> result Z) : Prop :=
  forall value ticks first final,
    nth_error ticks 0 = Some first ->
    nth_error ticks (length ticks - 1) = Some final ->
    first < value < final ->
    exists i, g value ticks = Ok (Z.of_nat i)
      /\ (S i < length ticks)%nat
      /\ nth i ticks 0 <= value <= nth (S i) ticks 0.

(** A failure that is not a read below index 0. *)
Definition nonneg_failure (e : failure) : Prop :=
  forall i, e = BadIndex i -> (0 <= i)%Z.

(** The tables the convolution of body [b], degree of freedom [d] reads, as
    the source expects them (wave_types.cpp:543: both time vectors ascending). *)
Record table_ok (w : t) (b d : nat) (grid : list R) : Prop := {
  ok_grid : nth_error (ex_irf_time_sampled_ w) b = Some grid;
  ok_grid_nonempty : grid <> [];
  ok_grid_sorted : Sorted Rle grid;
  ok_vals : exists vals, nth_error (ex_irf_sampled_ w) b = Some vals
              /\ forall j, (j < length grid)%nat ->
                   exists col, nth_error vals j = Some col /\ (d < length col)%nat;
  ok_widths : exists widths, nth_error (ex_irf_width_sampled_ w) b = Some widths
              /\ (length grid <= length widths)%nat;
  ok_history_size : (2 <= length (free_surface_time_sampled_ w))%nat
                    /\ (Z.of_nat (length (free_surface_time_sampled_ w)) < 2 ^ 31)%Z;
  ok_history_sorted : Sorted Rle (free_surface_time_sampled_ w);
  ok_elevations : (length (free_surface_time_sampled_ w)
                   <= length (free_surface_elevation_sampled_ w))%nat
}.

(** The cursor before pass [j]: a valid lower index whose bracket tops the
    lag of pass [j]. *)
Definition cursor_ok (w : t) (grid : list R) (time : R) (j : nat) (st : Z * R)
  : Prop :=
  exists m, fst st = Z.of_nat m
    /\ (S m < length (free_surface_time_sampled_ w))%nat
    /\ ((j < length grid)%nat ->
        inside_window w (time - nth j grid 0) ->
        time - nth j grid 0 <= nth (S m) (free_surface_time_sampled_ w) 0).

(** ** The convolution as the spec words it (4.5) *)

(** Linear interpolation of the history at [x], from elevation values at the
    exact samples and inside a bracket. *)
Fixpoint spec_elevation (times elevations : list R) (x : R) : option R :=
  match times, elevations with
  | t1 :: ((t2 :: _) as times'), e1 :: ((e2 :: _) as elevations') =>
    if Reqb x t1 then Some e1
    else if Reqb x t2 then Some e2
    else if Rltb t1 x && Rltb x t2
         then Some ((t2 - x) / (t2 - t1) * e1 + (1 - (t2 - x) / (t2 - t1)) * e2)
         else spec_elevation times' elevations' x
  | _, _ => None
  end.

(** [f_ex = sum_j IRF[dof, j] * eta(t - tau_j) * width_j] over the samples
    [(tau_j, (column j, width_j))]. *)
Fixpoint spec_convolution_sum (w : t) (dof : nat) (time : R)
  (samples : list (R * (list R * R))) : option R :=
  match samples with
  | [] => Some 0
  | (tau, (col, width)) :: rest =>
    match spec_elevation (free_surface_time_sampled_ w)
            (free_surface_elevation_sampled_ w) (time - tau),
          spec_convolution_sum w dof time rest with
    | Some eta, Some s => Some (nth dof col 0 * eta * width + s)
    | _, _ => None
    end
  end.

Definition spec_ForceAt (w : t) (body dof : nat) (time : R) : option R :=
  spec_convolution_sum w dof time
    (combine (nth body (ex_irf_time_sampled_ w) [])
       (combine (nth body (ex_irf_sampled_ w) [])
                (nth body (ex_irf_width_sampled_ w) []))).

(** ** The dispersion solver as the spec words it (4.1) *)

Definition dispersion_f (omega water_depth g k : R) : R :=
  omega * omega - g * k * tanh (k * water_depth).

Definition dispersion_df (water_depth g k : R) : R :=
  -2 * g * tanh (k * water_depth)
  - g * k * water_depth * (1 - tanh (k * water_depth) * tanh (k * water_depth)).

Definition newton_update (omega water_depth g k : R) : R :=
  dispersion_f omega water_depth g k / dispersion_df water_depth g k.

(** "Iterates until |dk| < tol or maxIter is reached": the test follows the
    update and is strict. *)
Fixpoint spec_newton (n : nat) (omega water_depth g tol k : R) : R :=
  match n with
  | O => k
  | S m =>
    let dk := newton_update omega water_depth g k in
    if Rltb (Rabs dk) tol then k - dk
    else spec_newton m omega water_depth g tol (k - dk)
  end.

Definition spec_Solve (water_depth g tol : R) (maxIter : Z) (omega : R) : R :=
  spec_newton (Z.to_nat maxIter) omega water_depth g tol (omega * omega / g).

(** The same iteration with the test of the source: it stops at
    [|dk| <= tol], and the step before the first update counts as 1.0. *)
Fixpoint newton_until (n : nat) (omega water_depth g tol k : R) : R :=
  match n with
  | O => k
  | S m =>
    let dk := newton_update omega water_depth g k in
    if Rleb (Rabs dk) tol then k - dk
    else newton_until m omega water_depth g tol (k - dk)
  end.

Definition Solve_as_coded (water_depth g tol : R) (maxIter : Z) (omega : R) : R :=
  if Rleb 1 tol then omega * omega / g
  else newton_until (Z.to_nat maxIter) omega water_depth g tol (omega * omega / g).

(** ** The synthesis in closed form *)

(** The running sum [eta[j] += term] over the first [k] bins, in the order of
    the loop. *)
Fixpoint partial_sum (term : nat -> R) (k : nat) : R :=
  match k with
  | O => 0.0
  | S m => partial_sum term m + term m
  end.

(** The weight [sqrt(A_i)] of bin [i], [A_i = 2 * density_i * delta_f] and
    [delta_f = lastFreq / N]: a function of the spectrum alone. *)
Definition envelope_at (freqs_hz spectral_densities : list R) (i : nat) : R :=
  sqrt (2 * nth i spectral_densities 0
        * (nth (length freqs_hz - 1) freqs_hz 0 / INR (length freqs_hz))).

Section Phases.

Variable mt19937 : Type.
Variable mt19937_seed : Z -> mt19937.
Variable uniform_real_distribution : R -> R -> mt19937 -> R * mt19937.

(** The phases a call draws: a function of the seed and the bin count. *)
Definition phases_of (seed : Z) (n : nat) : list R :=
  fst (draw_phases mt19937 uniform_real_distribution n (mt19937_seed seed)).

End Phases.

(** ** The mesh as the spec words it (4.3) *)

Definition column_triangles (i : Z) : list triangle :=
  [(2 * i, 2 * i + 1, 2 * i + 3)%Z; (2 * i, 2 * i + 3, 2 * i + 2)%Z].

(** ** Resampling *)

(** The point count, the grid and the values [ResampleIRF] builds from an old
    grid. *)
Definition resampled_count (dt : R) (grid : list R) : Z :=
  ceilZ ((nth (length grid - 1) grid 0 - nth 0 grid 0) / dt).

Definition resampled_grid (dt : R) (grid : list R) : list R :=
  LinSpaced (resampled_count dt grid) (nth 0 grid 0) (nth (length grid - 1) grid 0).

Definition resampled_values (spline : matrix -> Z -> list R -> R -> list R)
  (dt : R) (grid : list R) (vals : matrix) : matrix :=
  map (spline vals 3%Z (LinSpaced (Z.of_nat (length grid)) 0 1))
      (LinSpaced (Z.of_nat (length (resampled_grid dt grid))) 0 1).

(** The state after [k] passes of the body loop of [ResampleIRF] on [w0]. *)
Definition resampled_upto (spline : matrix -> Z -> list R -> R -> list R)
  (dt : R) (w0 : t) (k : nat) (w : t) : Prop :=
  num_bodies_ w = num_bodies_ w0
  /\ length (ex_irf_time_sampled_ w) = length (ex_irf_time_sampled_ w0)
  /\ length (ex_irf_width_sampled_ w) = length (ex_irf_width_sampled_ w0)
  /\ length (ex_irf_sampled_ w) = length (ex_irf_sampled_ w0)
  /\ (forall b, (b < k)%nat ->
        nth_error (ex_irf_time_sampled_ w) b
        = Some (resampled_grid dt (nth b (ex_irf_time_sampled_ w0) []))
        /\ nth_error (ex_irf_sampled_ w) b
           = Some (resampled_values spline dt (nth b (ex_irf_time_sampled_ w0) [])
                     (nth b (ex_irf_sampled_ w0) [])))
  /\ (forall b, (k <= b)%nat ->
        nth_error (ex_irf_time_sampled_ w) b = nth_error (ex_irf_time_sampled_ w0) b
        /\ nth_error (ex_irf_sampled_ w) b = nth_error (ex_irf_sampled_ w0) b)
  /\ ((0 < k)%nat -> forall b, (b < num_bodies_ w0)%nat ->
        nth_error (ex_irf_width_sampled_ w) b
        = Some (widths_of (nth b (ex_irf_time_sampled_ w) []))).

(** The resampled grid as the spec words it (4.4, 8): the ends are kept, the
    count is [ceil((t1 - t0) / dt)], the points are equally spaced, and the
    spacing is [dt] whenever the ceiling rounds nothing. *)
Definition resample_as_specified : Prop :=
  forall (spline : matrix -> Z -> list R -> R -> list R) (w w' : t) (dt : R) (b : nat),
    0 < dt -> (b < num_bodies_ w)%nat ->
    ResampleIRF spline w dt = Ok w' ->
    let grid := nth b (ex_irf_time_sampled_ w) [] in
    let grid' := nth b (ex_irf_time_sampled_ w') [] in
    let t0 := nth 0 grid 0 in
    let t1 := nth (length grid - 1) grid 0 in
    nth 0 grid' 0 = t0
    /\ nth (length grid' - 1) grid' 0 = t1
    /\ Z.of_nat (length grid') = ceilZ ((t1 - t0) / dt)
    /\ (forall i, (S i < length grid')%nat ->
          nth (S i) grid' 0 - nth i grid' 0 = nth 1 grid' 0 - nth 0 grid' 0)
    /\ ((exists k : Z, (t1 - t0) / dt = IZR k) ->
        forall i, (S i < length grid')%nat -> nth (S i) grid' 0 - nth i grid' 0 = dt).

(** ** Concrete inputs *)

(** Two bodies whose phases differ: 0 for the first, [PI] for the second. *)
Definition two_body_wave : RegularWave.t :=
  {| RegularWave.num_bodies_ := 2;
     RegularWave.regular_wave_amplitude_ := 1;
     RegularWave.regular_wave_omega_ := 1;
     RegularWave.wave_info_ := [];
     RegularWave.excitation_force_mag_ := repeat 1 12;
     RegularWave.excitation_force_phase_ := repeat 0 6 ++ repeat PI 6;
     RegularWave.force_ := repeat 0 12 |}.

(** One body, an IRF of two samples at lags 0 and 1, a history of four
    samples at times 0, 1, 2, 3 with elevations 5, 7, 9, 11. *)
Definition sea_example : t :=
  {| num_bodies_ := 1;
     wave_height_ := 2; wave_period_ := 8; peak_enhancement_factor_ := 1;
     simulation_dt_ := 1; simulation_duration_ := 3; ramp_duration_ := 0;
     seed_ := 0; water_depth := 1;
     ex_irf_sampled_ := [[[1; 0; 0; 0; 0; 0]; [1; 0; 0; 0; 0; 0]]];
     ex_irf_time_sampled_ := [[0; 1]];
     ex_irf_width_sampled_ := [[0.5; 0.5]];
     spectrum_frequencies_ := []; spectral_densities_ := [];
     free_surface_time_sampled_ := [0; 1; 2; 3];
     free_surface_elevation_sampled_ := [5; 7; 9; 11] |}.

(** A generator that counts its draws and a curve that is zero everywhere:
    stand-ins for the C++ library where a closed instance is needed. *)
Definition counting_seed (seed : Z) : nat := Z.to_nat seed.
Definition counting_draw (low high : R) (state : nat) : R * nat := (low, S state).
Definition flat_spline (values : matrix) (degree : Z) (knots : list R) (u : R)
  : list R := repeat 0 6.

(** ** Further members of the unit *)

(** The sum of a vector, left to right from its last entry. *)
Fixpoint sum_doubles (l : list R) : R :=
  match l with
  | [] => 0
  | x :: rest => x + sum_doubles rest
  end.

(** [std::vector<T>::resize(n)]: the prefix is kept, new slots hold a
    default-constructed [T]. *)
Definition vresize {A : Type} (d : A) (v : list A) (n : nat) : list A :=
  firstn n v ++ repeat d (n - length v).

(** wave_types.cpp:397-408; returns the vector and the object with
    [spectrum_frequencies_] set to it. *)
Definition SetSpectrumFrequencies (w : t) (start stop : R) (num_points : Z)
  : result (list R * t) :=
  let step := (stop - start) / (IZR num_points - 1) in
  r <- for_loop (Z.to_nat num_points)
         (fun i res => vset res i (start + INR i * step))
         (repeat 0 (Z.to_nat num_points)) ;;
  Ok (r, set_spectrum w r (spectral_densities_ w)).

(** [HydroData::IrregularWaveInfo], the two members this unit reads. *)
Record IrregularWaveInfo : Type := {
  excitation_irf_matrix : matrix;
  excitation_irf_time : list R
}.

(** The members of [IrregularWaves] that [t] leaves out, around [t]. *)
Record IrregularWavesObject : Type := {
  core : t;
  wave_info_ : list IrregularWaveInfo;
  eta_file_path_ : String.string;
  time_data_ : list R;
  spectrum_ : list R;
  spectrumCreated_ : bool
}.

Definition with_core (o : IrregularWavesObject) (w : t) : IrregularWavesObject :=
  {| core := w;
     wave_info_ := wave_info_ o;
     eta_file_path_ := eta_file_path_ o;
     time_data_ := time_data_ o;
     spectrum_ := spectrum_ o;
     spectrumCreated_ := spectrumCreated_ o |}.

Definition with_spectrumCreated (o : IrregularWavesObject) (flag : bool)
  : IrregularWavesObject :=
  {| core := core o;
     wave_info_ := wave_info_ o;
     eta_file_path_ := eta_file_path_ o;
     time_data_ := time_data_ o;
     spectrum_ := spectrum_ o;
     spectrumCreated_ := flag |}.

(** The [std::runtime_error]s of the members below, and a failure of the
    code they call. *)
Inductive init_failure : Type :=
| CannotOpen                         (* wave_types.cpp:294 *)
| CannotParse (line : String.string) (* wave_types.cpp:304 *)
| SpectrumNotCreated                 (* wave_types.cpp:276 *)
| Inner (e : failure).

Inductive outcome (A : Type) : Type :=
| Done (a : A)
| Thrown (e : init_failure).
Arguments Done {A} a.
Arguments Thrown {A} e.

Definition GetSpectrum (o : IrregularWavesObject) : outcome (list R) :=
  if negb (spectrumCreated_ o) then Thrown SpectrumNotCreated
  else Done (spectrum_ o).

Definition GetFreeSurfaceElevation (o : IrregularWavesObject) : list R :=
  free_surface_elevation_sampled_ (core o).

Definition GetEtaTimeData (o : IrregularWavesObject) : list R := time_data_ o.

Definition GetExcitationIRF (o : IrregularWavesObject) (b : Z) : result matrix :=
  info <- vget (wave_info_ o) b ;;
  Ok (excitation_irf_matrix info).

(** The first loop of [InitializeIRFVectors], wave_types.cpp:246-257. *)
Definition initial_tables (o : IrregularWavesObject) : result t :=
  let n := num_bodies_ (core o) in
  let w0 := set_irf (core o)
              (vresize [] (ex_irf_sampled_ (core o)) n)
              (vresize [] (ex_irf_time_sampled_ (core o)) n)
              (vresize [] (ex_irf_width_sampled_ (core o)) n) in
  for_loop n (fun b w =>
    m <- GetExcitationIRF o (Z.of_nat b) ;;
    vals <- vset (ex_irf_sampled_ w) b m ;;
    info <- vget_nat (wave_info_ o) b ;;
    times <- vset (ex_irf_time_sampled_ w) b (excitation_irf_time info) ;;
    CalculateWidthIRF (set_irf w vals times (ex_irf_width_sampled_ w))) w0.

(** The character [':'], code 58. *)
Definition colon : Ascii.ascii := Ascii.ascii_of_nat 58.

Section Initialization.

Variable mt19937 : Type.
Variable mt19937_seed : Z -> mt19937.
Variable uniform_real_distribution : R -> R -> mt19937 -> R * mt19937.
Variable SplineInterpolate : matrix -> Z -> list R -> R -> list R.

(** [std::ifstream] with [std::getline]: the lines of the file at a path, or
    nothing when it cannot be opened. *)
Variable open_file : String.string -> option (list String.string).

(** [ss >> time >> delimiter >> eta] on one line: the three values, or
    nothing when an extraction fails. *)
Variable extract : String.string -> option (R * Ascii.ascii * R).

(** The [while (std::getline(file, line))] loop of [ReadEtaFromFile]. *)
Fixpoint read_eta_lines (lines : list String.string) (times etas : list R)
  : outcome (list R * list R) :=
  match lines with
  | [] => Done (times, etas)
  | line :: rest =>
    match extract line with
    | Some (time, delimiter, eta) =>
      if negb (Ascii.eqb delimiter colon) then Thrown (CannotParse line)
      else read_eta_lines rest (times ++ [time]) (etas ++ [eta])
    | None => Thrown (CannotParse line)
    end
  end.

Definition ReadEtaFromFile (o : IrregularWavesObject) : outcome IrregularWavesObject :=
  match open_file (eta_file_path_ o) with
  | None => Thrown CannotOpen
  | Some lines =>
    match read_eta_lines lines (time_data_ o)
            (free_surface_elevation_sampled_ (core o)) with
    | Thrown e => Thrown e
    | Done (times, etas) =>
      Done {| core := set_free_surface (core o)
                        (free_surface_time_sampled_ (core o)) etas;
              wave_info_ := wave_info_ o;
              eta_file_path_ := eta_file_path_ o;
              time_data_ := times;
              spectrum_ := spectrum_ o;
              spectrumCreated_ := spectrumCreated_ o |}
    end
  end.

Definition path_is_empty (path : String.string) : bool :=
  match path with
  | String.EmptyString => true
  | String.String _ _ => false
  end.

(** wave_types.cpp:245-272. *)
Definition InitializeIRFVectors (o : IrregularWavesObject)
  : outcome IrregularWavesObject :=
  match initial_tables o with
  | Err e => Thrown (Inner e)
  | Ok w1 =>
    match (if Rltb 0.0 (simulation_dt_ w1)
           then ResampleIRF SplineInterpolate w1 (simulation_dt_ w1)
           else Ok w1) with
    | Err e => Thrown (Inner e)
    | Ok w2 =>
      if negb (path_is_empty (eta_file_path_ o)) then
        match ReadEtaFromFile (with_core o w2) with
        | Thrown e => Thrown e
        | Done o1 => Done (with_spectrumCreated o1 false)
        end
      else if negb (Reqb (wave_height_ w2) 0.0) && negb (Reqb (wave_period_ w2) 0.0)
      then
        match synthesize_free_surface mt19937 mt19937_seed
                uniform_real_distribution w2 with
        | Err e => Thrown (Inner e)
        | Ok w3 => Done (with_spectrumCreated (with_core o w3) true)
        end
      else Done (with_core o w2)
    end
  end.

(** wave_types.cpp:316-321: the simulation parameters are not read. *)
Definition AddH5Data (o : IrregularWavesObject)
  (irreg_h5_data : list IrregularWaveInfo) (sim_data_water_depth : R)
  : outcome IrregularWavesObject :=
  InitializeIRFVectors
    {| core := core o;
       wave_info_ := irreg_h5_data;
       eta_file_path_ := eta_file_path_ o;
       time_data_ := time_data_ o;
       spectrum_ := spectrum_ o;
       spectrumCreated_ := spectrumCreated_ o |}.

End Initialization.

(** ** Further concrete inputs and shapes *)

(** One body, three tabulated frequencies 1, 2, 3, magnitudes 1, 2, 4 and
    phases 0, 0.5, 1 in every degree of freedom, amplitude 2. *)
Definition regular_example (omega : R) : RegularWave.t :=
  {| RegularWave.num_bodies_ := 1;
     RegularWave.regular_wave_amplitude_ := 2;
     RegularWave.regular_wave_omega_ := omega;
     RegularWave.wave_info_ :=
       [ {| RegularWave.freq_list := [1; 2; 3];
            RegularWave.excitation_mag_matrix := repeat [[1; 2; 4]] 6;
            RegularWave.excitation_phase_matrix := repeat [[0; 0.5; 1]] 6 |} ];
     RegularWave.excitation_force_mag_ := [];
     RegularWave.excitation_force_phase_ := [];
     RegularWave.force_ := [] |}.

(** The shape [Initialize] meets at body 0, degree of freedom 0: a frequency
    list of [N] values ending in [omega_max], and [N] magnitude bins. *)
Definition first_body_bins (w : RegularWave.t) (N : nat) (omega_max : R) : Prop :=
  exists info infos bins modes dofs,
    RegularWave.wave_info_ w = info :: infos
    /\ length (RegularWave.freq_list info) = N
    /\ nth (N - 1) (RegularWave.freq_list info) 0 = omega_max
    /\ RegularWave.excitation_mag_matrix info = (bins :: modes) :: dofs
    /\ length bins = N.

(** [sea_example] with a ramp of two time units. *)
Definition ramped_example : t :=
  {| num_bodies_ := 1;
     wave_height_ := 2; wave_period_ := 8; peak_enhancement_factor_ := 1;
     simulation_dt_ := 1; simulation_duration_ := 3; ramp_duration_ := 2;
     seed_ := 0; water_depth := 1;
     ex_irf_sampled_ := [[[1; 0; 0; 0; 0; 0]; [1; 0; 0; 0; 0; 0]]];
     ex_irf_time_sampled_ := [[0; 1]];
     ex_irf_width_sampled_ := [[0.5; 0.5]];
     spectrum_frequencies_ := []; spectral_densities_ := [];
     free_surface_time_sampled_ := [0; 1; 2; 3];
     free_surface_elevation_sampled_ := [5; 7; 9; 11] |}.

(** An elevation file of the two lines [a] and [b], and an extraction that
    reads the line [a] as [0 : 5] and every other line as [1 : 7]. *)
Definition line_a : String.string :=
  String.String (Ascii.ascii_of_nat 97) String.EmptyString.
Definition line_b : String.string :=
  String.String (Ascii.ascii_of_nat 98) String.EmptyString.

Definition two_line_file (path : String.string) : option (list String.string) :=
  Some [line_a; line_b].

Definition extract_example (line : String.string) : option (R * Ascii.ascii * R) :=
  if String.eqb line line_a then Some (0, colon, 5) else Some (1, colon, 7).

(** A file that cannot be opened, and a line that cannot be read. *)
Definition no_file (path : String.string) : option (list String.string) := None.

Definition extract_nothing (line : String.string) : option (R * Ascii.ascii * R) :=
  None.

(** An object as its constructor leaves it, with the H5 data of one body
    whose IRF has the lags 0, 1, 2: no tables and no history yet; the path of
    the elevation file and the wave height are the arguments. *)
Definition fresh_example (path : String.string) (height : R) : IrregularWavesObject :=
  {| core :=
       {| num_bodies_ := 1;
          wave_height_ := height; wave_period_ := 8;
          peak_enhancement_factor_ := 1;
          simulation_dt_ := 1; simulation_duration_ := 3; ramp_duration_ := 2;
          seed_ := 0; water_depth := 1;
          ex_irf_sampled_ := []; ex_irf_time_sampled_ := [];
          ex_irf_width_sampled_ := [];
          spectrum_frequencies_ := []; spectral_densities_ := [];
          free_surface_time_sampled_ := [];
          free_surface_elevation_sampled_ := [] |};
     wave_info_ :=
       [ {| excitation_irf_matrix := [repeat 1 6; repeat 1 6; repeat 1 6];
            excitation_irf_time := [0; 1; 2] |} ];
     eta_file_path_ := path;
     time_data_ := [];
     spectrum_ := [];
     spectrumCreated_ := false |}.

(** What the IRF tables leave alone. *)
Definition outside_irf (w : t) :=
  (num_bodies_ w, wave_height_ w, wave_period_ w, peak_enhancement_factor_ w,
   simulation_dt_ w, simulation_duration_ w, ramp_duration_ w, seed_ w,
   water_depth w, spectrum_frequencies_ w, spectral_densities_ w,
   free_surface_time_sampled_ w, free_surface_elevation_sampled_ w).

(** A line that [ReadEtaFromFile] accepts, and the pair it holds. *)
Definition parses (extract : String.string -> option (R * Ascii.ascii * R))
  (line : String.string) (p : R * R) : Prop :=
  extract line = Some (fst p, colon, snd p).

(** A line that [ReadEtaFromFile] refuses. *)
Definition unreadable (extract : String.string -> option (R * Ascii.ascii * R))
  (line : String.string) : Prop :=
  match extract line with
  | Some (_, delimiter, _) => delimiter <> colon
  | None => True
  end.

(** The tables after the first loop of [InitializeIRFVectors] and the
    resampling, wave_types.cpp:246-262. *)
Definition tables_stage (SplineInterpolate : matrix -> Z -> list R -> R -> list R)
  (o : IrregularWavesObject) : result t :=
  w1 <- initial_tables o ;;
  if Rltb 0.0 (simulation_dt_ w1)
  then ResampleIRF SplineInterpolate w1 (simulation_dt_ w1)
  else Ok w1.

(** * Part II: properties *)

(** ** Basic facts on vectors and loops *)

Lemma upd_length {A : Type} (v : list A) i x : length (upd v i x) = length v.
Proof.
  revert i; induction v as [|h t IH]; intros [|j]; simpl; auto.
Qed.

Lemma nth_error_upd_same {A : Type} (v : list A) i x :
  (i < length v)%nat -> nth_error (upd v i x) i = Some x.
Proof.
  revert i; induction v as [|h t IH]; intros [|j] H; simpl in *; try lia; auto.
  apply IH; lia.
Qed.

Lemma nth_error_upd_other {A : Type} (v : list A) i j x :
  i <> j -> nth_error (upd v i x) j = nth_error v j.
Proof.
  revert i j; induction v as [|h t IH]; intros [|i] [|j] H; simpl; auto; try lia.
Qed.

Lemma vget_nat_ok {A : Type} (v : list A) i x :
  nth_error v i = Some x -> vget_nat v i = Ok x.
Proof. unfold vget_nat; intros ->; reflexivity. Qed.

Lemma vget_of_nat {A : Type} (v : list A) (i : nat) :
  vget v (Z.of_nat i) = vget_nat v i.
Proof.
  unfold vget, vget_nat.
  destruct (Z.ltb_spec (Z.of_nat i) 0); [lia|].
  rewrite Nat2Z.id; reflexivity.
Qed.

Lemma LinSpaced_length size low high :
  length (LinSpaced size low high) = Z.to_nat size.
Proof.
  unfold LinSpaced. destruct (Z.eqb_spec size 1) as [->|_]; [reflexivity|].
  rewrite length_map, length_seq; reflexivity.
Qed.

Lemma LinSpaced_nth size low high (i : nat) :
  (2 <= size)%Z -> (i < Z.to_nat size)%nat ->
  nth_error (LinSpaced size low high) i
  = Some (low + INR i * ((high - low) / (IZR size - 1))).
Proof.
  intros Hs Hi. unfold LinSpaced.
  destruct (Z.eqb_spec size 1); [lia|].
  rewrite nth_error_map, nth_error_seq.
  destruct (Nat.ltb_spec i (Z.to_nat size)); [reflexivity | lia].
Qed.

Lemma LinSpaced_first size low high :
  (2 <= size)%Z -> nth_error (LinSpaced size low high) 0 = Some low.
Proof.
  intros Hs. rewrite LinSpaced_nth by lia. simpl. f_equal. lra.
Qed.

Lemma LinSpaced_last size low high :
  (2 <= size)%Z ->
  nth_error (LinSpaced size low high) (Z.to_nat size - 1) = Some high.
Proof.
  intros Hs. rewrite LinSpaced_nth by lia. f_equal.
  rewrite minus_INR by lia. rewrite INR_IZR_INZ, Z2Nat.id by lia. simpl.
  assert (IZR size - 1 <> 0) by (apply IZR_le in Hs; lra).
  field; assumption.
Qed.

Lemma Rleb_true a b : a <= b -> Rleb a b = true.
Proof. unfold Rleb; destruct (Rle_dec a b); [reflexivity | contradiction]. Qed.

Lemma Rleb_false a b : b < a -> Rleb a b = false.
Proof. unfold Rleb; destruct (Rle_dec a b); [lra | reflexivity]. Qed.

Lemma Rltb_true a b : a < b -> Rltb a b = true.
Proof. unfold Rltb; destruct (Rlt_dec a b); [reflexivity | contradiction]. Qed.

Lemma Rltb_false a b : b <= a -> Rltb a b = false.
Proof. unfold Rltb; destruct (Rlt_dec a b); [lra | reflexivity]. Qed.

Lemma Reqb_true a b : a = b -> Reqb a b = true.
Proof. unfold Reqb; destruct (Req_dec_T a b); [reflexivity | contradiction]. Qed.

Lemma Reqb_false a b : a <> b -> Reqb a b = false.
Proof. unfold Reqb; destruct (Req_dec_T a b); [contradiction | reflexivity]. Qed.

Lemma Rleb_spec a b : reflect (a <= b) (Rleb a b).
Proof. unfold Rleb; destruct (Rle_dec a b); constructor; assumption. Qed.

Lemma Rltb_spec a b : reflect (a < b) (Rltb a b).
Proof. unfold Rltb; destruct (Rlt_dec a b); constructor; assumption. Qed.

Lemma Reqb_spec a b : reflect (a = b) (Reqb a b).
Proof. unfold Reqb; destruct (Req_dec_T a b); constructor; assumption. Qed.

(** Decide the comparisons of a goal whose operands are numerals. *)
Ltac decide_doubles :=
  repeat match goal with
  | |- context [Rleb ?a ?b] =>
    first [ rewrite (Rleb_true a b) by lra | rewrite (Rleb_false a b) by lra ]
  | |- context [Rltb ?a ?b] =>
    first [ rewrite (Rltb_true a b) by lra | rewrite (Rltb_false a b) by lra ]
  | |- context [Reqb ?a ?b] =>
    first [ rewrite (Reqb_true a b) by lra | rewrite (Reqb_false a b) by lra ]
  end.

Lemma trunc_int_IZR (z : Z) : trunc_int (IZR z) = z.
Proof.
  unfold trunc_int. destruct (Rle_dec 0 (IZR z)).
  - symmetry; apply Int_part_spec; lra.
  - rewrite <- opp_IZR. rewrite <- (Int_part_spec (IZR (- z)) (- z)%Z); [lia | lra].
Qed.

Lemma ceilZ_IZR (z : Z) : ceilZ (IZR z) = z.
Proof.
  unfold ceilZ. rewrite <- opp_IZR.
  rewrite <- (Int_part_spec (IZR (- z)) (- z)%Z); [lia | lra].
Qed.

(** *** The invariant rule of [for] loops *)

Lemma for_from_inv {St : Type} (P : nat -> St -> Prop)
  (body : nat -> St -> result St) (n start : nat) (s : St) :
  P start s ->
  (forall i s0, (start <= i < start + n)%nat -> P i s0 ->
                exists s1, body i s0 = Ok s1 /\ P (S i) s1) ->
  exists s', for_from start n body s = Ok s' /\ P (start + n)%nat s'.
Proof.
  revert start s; induction n as [|n IH]; intros start s H0 Hstep; simpl.
  - exists s; split; [reflexivity|]. now rewrite Nat.add_0_r.
  - destruct (Hstep start s) as [s1 [E1 P1]]; [lia | assumption |].
    rewrite E1; simpl.
    destruct (IH (S start) s1 P1) as [s' [E' P']].
    + intros i s0 Hi; apply Hstep; lia.
    + exists s'; split; [assumption|].
      now replace (start + S n)%nat with (S start + n)%nat by lia.
Qed.

Lemma for_loop_inv {St : Type} (P : nat -> St -> Prop)
  (body : nat -> St -> result St) (n : nat) (s : St) :
  P 0%nat s ->
  (forall i s0, (i < n)%nat -> P i s0 ->
                exists s1, body i s0 = Ok s1 /\ P (S i) s1) ->
  exists s', for_loop n body s = Ok s' /\ P n s'.
Proof.
  intros H0 Hstep. unfold for_loop.
  destruct (for_from_inv P body n 0 s H0) as [s' [E P']].
  - intros i s0 Hi; apply Hstep; lia.
  - exists s'; split; assumption.
Qed.

(** A pass that fails whatever the state makes the loop fail. *)
Lemma for_from_err {St : Type} (body : nat -> St -> result St)
  (n start k : nat) (s : St) :
  (start <= k < start + n)%nat ->
  (forall s0, is_err (body k s0)) ->
  is_err (for_from start n body s).
Proof.
  revert start s; induction n as [|n IH]; intros start s Hk Hbad; [lia|].
  simpl. destruct (body start s) as [s1|e] eqn:E; simpl.
  - destruct (Nat.eq_dec k start) as [->|Hne].
    + destruct (Hbad s) as [e He]; congruence.
    + apply IH; [lia | assumption].
  - exists e; reflexivity.
Qed.

(** A loop either ends in a state that satisfies the invariant or fails with
    a failure that one of its passes allows. *)
Lemma for_from_cases {St : Type} (P : nat -> St -> Prop) (Q : failure -> Prop)
  (body : nat -> St -> result St) (n start : nat) (s : St) :
  P start s ->
  (forall i s0, (start <= i < start + n)%nat -> P i s0 ->
     match body i s0 with
     | Ok s1 => P (S i) s1
     | Err e => Q e
     end) ->
  match for_from start n body s with
  | Ok s' => P (start + n)%nat s'
  | Err e => Q e
  end.
Proof.
  revert start s; induction n as [|n IH]; intros start s H0 Hstep; simpl.
  - now rewrite Nat.add_0_r.
  - pose proof (Hstep start s ltac:(lia) H0) as H1.
    destruct (body start s) as [s1|e]; simpl; [|assumption].
    replace (start + S n)%nat with (S start + n)%nat by lia.
    apply IH; [assumption|]. intros i s0 Hi; apply Hstep; lia.
Qed.

(** *** Lists *)

Lemma nth_error_upd {A : Type} (v : list A) (i j : nat) (x : A) :
  (i < length v)%nat ->
  nth_error (upd v i x) j = if Nat.eqb j i then Some x else nth_error v j.
Proof.
  intros Hi. destruct (Nat.eqb_spec j i) as [->|Hne].
  - now apply nth_error_upd_same.
  - apply nth_error_upd_other; lia.
Qed.

Lemma nth_map_lt {A B : Type} (f : A -> B) (l : list A) (i : nat) (da : A) (db : B) :
  (i < length l)%nat -> nth i (map f l) db = f (nth i l da).
Proof.
  revert i; induction l as [|a l IH]; intros [|i] Hi; simpl in *; try lia; auto.
  apply IH; lia.
Qed.

Lemma map_nth_seq {A B : Type} (f : A -> B) (l : list A) (d : A) :
  map f l = map (fun i => f (nth i l d)) (seq 0 (length l)).
Proof.
  induction l as [|a l IH]; simpl; [reflexivity|].
  f_equal. rewrite <- seq_shift, map_map. exact IH.
Qed.

Lemma nonempty_length {A : Type} (l : list A) : l <> [] -> (0 < length l)%nat.
Proof. destruct l; [congruence | simpl; lia]. Qed.

Lemma Sorted_nth_le (l : list R) (i j : nat) :
  Sorted Rle l -> (i <= j < length l)%nat -> nth i l 0 <= nth j l 0.
Proof.
  intros HS. apply Sorted_StronglySorted in HS; [|intros x y z; apply Rle_trans].
  revert i j; induction HS as [|a l HS IH Hall]; intros i j Hij; simpl in *; [lia|].
  destruct i as [|i], j as [|j]; try lia.
  - lra.
  - rewrite Forall_forall in Hall. apply Hall, nth_In; lia.
  - apply IH; lia.
Qed.

Lemma Sorted_between (grid : list R) (tau : R) :
  Sorted Rle grid -> In tau grid ->
  nth 0 grid 0 <= tau <= nth (length grid - 1) grid 0.
Proof.
  intros HS Hin. apply (In_nth _ _ 0) in Hin. destruct Hin as [i [Hi <-]].
  split; apply Sorted_nth_le; try assumption; lia.
Qed.

(** *** Reads and their failures *)

Lemma vget_Z_ok {A : Type} (v : list A) (i : nat) (x : A) :
  nth_error v i = Some x -> vget v (Z.of_nat i) = Ok x.
Proof. intros H. rewrite vget_of_nat. now apply vget_nat_ok. Qed.

Lemma vget_front {A : Type} (v : list A) (d : A) :
  (0 < length v)%nat -> vget v 0 = Ok (nth 0 v d).
Proof.
  intros H. change (vget v 0) with (vget v (Z.of_nat 0)).
  apply vget_Z_ok, nth_error_nth'. exact H.
Qed.

Lemma vget_back {A : Type} (v : list A) (d : A) :
  (0 < length v)%nat ->
  vget v (Z.of_nat (length v) - 1) = Ok (nth (length v - 1) v d).
Proof.
  intros H. replace (Z.of_nat (length v) - 1)%Z with (Z.of_nat (length v - 1)) by lia.
  apply vget_Z_ok, nth_error_nth'. lia.
Qed.

Lemma vget_failure {A : Type} (v : list A) (i : Z) (e : failure) :
  vget v i = Err e -> e = BadIndex i.
Proof.
  unfold vget. destruct (i <? 0)%Z; [congruence|].
  destruct (nth_error v (Z.to_nat i)); congruence.
Qed.

Lemma vget_nat_failure {A : Type} (v : list A) (i : nat) (e : failure) :
  vget_nat v i = Err e -> e = BadIndex (Z.of_nat i).
Proof. unfold vget_nat. destruct (nth_error v i); congruence. Qed.

Lemma vget_nonneg_failure {A : Type} (v : list A) (i : Z) :
  (0 <= i)%Z ->
  match vget v i with Ok _ => True | Err e => nonneg_failure e end.
Proof.
  intros Hi. destruct (vget v i) as [x|e] eqn:E; [exact I|].
  apply vget_failure in E. subst e. intros k [= <-]. exact Hi.
Qed.

Lemma vget_nat_nonneg_failure {A : Type} (v : list A) (i : nat) :
  match vget_nat v i with Ok _ => True | Err e => nonneg_failure e end.
Proof.
  destruct (vget_nat v i) as [x|e] eqn:E; [exact I|].
  apply vget_nat_failure in E. subst e. intros k [= <-]. lia.
Qed.

(** *** Integer conversions *)

Lemma to_int_size_minus_2 (len : nat) :
  (2 <= len)%nat -> (Z.of_nat len < 2 ^ 31)%Z ->
  to_int (size_t_wrap (Z.of_nat len - 2)) = Z.of_nat (len - 2).
Proof.
  intros H2 H31. unfold to_int, size_t_wrap.
  rewrite (Z.mod_small (Z.of_nat len - 2)) by lia.
  rewrite Z.mod_small by lia. lia.
Qed.

Lemma Int_part_le (x y : R) : x <= y -> (Int_part x <= Int_part y)%Z.
Proof.
  intros Hxy. destruct (base_Int_part x) as [Hx _]. destruct (base_Int_part y) as [_ Hy].
  assert (Int_part x < Int_part y + 1)%Z by (apply lt_IZR; rewrite plus_IZR; lra). lia.
Qed.

Lemma trunc_int_le (x y : R) : 0 <= x <= y -> (trunc_int x <= trunc_int y)%Z.
Proof.
  intros [H0 Hxy]. unfold trunc_int.
  destruct (Rle_dec 0 x); [|lra]. destruct (Rle_dec 0 y); [|lra].
  now apply Int_part_le.
Qed.

Lemma trunc_int_ge_1 (x : R) : 1 <= x -> (1 <= trunc_int x)%Z.
Proof.
  intros Hx. unfold trunc_int. destruct (Rle_dec 0 x); [|lra].
  destruct (base_Int_part x) as [_ H].
  assert (0 < Int_part x)%Z by (apply lt_IZR; lra). lia.
Qed.

(** Step through a run on numerals. *)
Ltac run_doubles := repeat (progress (simpl; decide_doubles)).

(** ** RegularWave *)

(** What [GetForceAtTime] computes, entry by entry: the magnitude of slot
    [6 b + d] and the phase of slot [d]. *)
Lemma RegularWave_GetForceAtTime_entries (w : RegularWave.t) (time : R) :
  (6 * RegularWave.num_bodies_ w <= length (RegularWave.excitation_force_mag_ w))%nat ->
  (6 <= length (RegularWave.excitation_force_phase_ w))%nat ->
  exists f,
    RegularWave.GetForceAtTime w time = Ok f
    /\ length f = (6 * RegularWave.num_bodies_ w)%nat
    /\ forall b d, (b < RegularWave.num_bodies_ w)%nat -> (d < 6)%nat ->
         nth_error f (6 * b + d)
         = Some (nth (6 * b + d) (RegularWave.excitation_force_mag_ w) 0
                 * RegularWave.regular_wave_amplitude_ w
                 * cos (RegularWave.regular_wave_omega_ w * time
                        + nth d (RegularWave.excitation_force_phase_ w) 0)).
Proof.
  intros Hm Hp. unfold RegularWave.GetForceAtTime.
  set (n := RegularWave.num_bodies_ w) in *.
  set (val := fun b d =>
         nth (6 * b + d) (RegularWave.excitation_force_mag_ w) 0
         * RegularWave.regular_wave_amplitude_ w
         * cos (RegularWave.regular_wave_omega_ w * time
                + nth d (RegularWave.excitation_force_phase_ w) 0)).
  match goal with |- exists f, for_loop n ?body ?init = _ /\ _ =>
    destruct (for_loop_inv
      (fun k (f : list R) =>
         length f = (6 * n)%nat
         /\ forall b d, (b < k)%nat -> (d < 6)%nat ->
              nth_error f (6 * b + d) = Some (val b d))
      body n init) as [f [E [L P]]]
  end.
  - split; [rewrite repeat_length; lia | intros; lia].
  - intros b f0 Hb [L0 P0].
    match goal with |- exists s1, for_loop 6 ?body ?init = _ /\ _ =>
      destruct (for_loop_inv
        (fun k (f : list R) =>
           length f = (6 * n)%nat
           /\ (forall b' d, (b' < b)%nat -> (d < 6)%nat ->
                 nth_error f (6 * b' + d) = Some (val b' d))
           /\ forall d, (d < k)%nat -> nth_error f (6 * b + d) = Some (val b d))
        body 6%nat init) as [f1 [E1 [L1 [P1 Q1]]]]
    end.
    + repeat split; [assumption | assumption | intros; lia].
    + intros d f1 Hd [L1 [P1 Q1]].
      rewrite (vget_nat_ok _ (6 * b + d)
                 (nth (6 * b + d) (RegularWave.excitation_force_mag_ w) 0))
        by (apply nth_error_nth'; lia).
      rewrite (vget_nat_ok _ d (nth d (RegularWave.excitation_force_phase_ w) 0))
        by (apply nth_error_nth'; lia).
      cbn [bind]. unfold vset.
      destruct (Nat.ltb_spec (6 * b + d) (length f1)); [|lia].
      eexists; split; [reflexivity|]. split; [|split].
      * now rewrite upd_length.
      * intros b' d' Hb' Hd'. rewrite nth_error_upd_other by lia. now apply P1.
      * intros d' Hd'. destruct (Nat.eq_dec d' d) as [->|Hne].
        -- apply nth_error_upd_same; lia.
        -- rewrite nth_error_upd_other by lia. apply Q1; lia.
    + exists f1; split; [assumption|]. split; [assumption|].
      intros b' d Hb' Hd. destruct (Nat.eq_dec b' b) as [->|Hne].
      * now apply Q1.
      * apply P1; [lia | assumption].
  - exists f; repeat split; assumption.
Qed.

Lemma resize_length (v : list R) (n : nat) : length (resize v n) = n.
Proof.
  unfold resize. rewrite length_app, length_firstn, repeat_length. lia.
Qed.

(** [Initialize] stores the magnitude and the phase interpolated for body [b]
    and degree of freedom [d] in slot [6 b + d] of its two vectors. *)
Lemma RegularWave_Initialize_entries (w : RegularWave.t) (delta : R)
  (mag phase : nat -> nat -> R) :
  RegularWave.GetOmegaDelta w = Ok delta ->
  (forall b d, (b < RegularWave.num_bodies_ w)%nat -> (d < 6)%nat ->
     RegularWave.GetExcitationMagInterp w (Z.of_nat b) (Z.of_nat d) 0
       (RegularWave.regular_wave_omega_ w / delta - 1) = Ok (mag b d)
     /\ RegularWave.GetExcitationPhaseInterp w (Z.of_nat b) (Z.of_nat d) 0
          (RegularWave.regular_wave_omega_ w / delta - 1) = Ok (phase b d)) ->
  exists w',
    RegularWave.Initialize w = Ok w'
    /\ RegularWave.num_bodies_ w' = RegularWave.num_bodies_ w
    /\ forall b d, (b < RegularWave.num_bodies_ w)%nat -> (d < 6)%nat ->
         nth_error (RegularWave.excitation_force_mag_ w') (6 * b + d)
         = Some (mag b d)
         /\ nth_error (RegularWave.excitation_force_phase_ w') (6 * b + d)
            = Some (phase b d).
Proof.
  intros Hdelta Hinterp. unfold RegularWave.Initialize.
  rewrite Hdelta. cbn [bind].
  set (n := RegularWave.num_bodies_ w) in *.
  set (x := RegularWave.regular_wave_omega_ w / delta - 1) in *.
  match goal with |- exists w', (mp <- for_loop n ?body ?init ;; _) = _ /\ _ =>
    destruct (for_loop_inv
      (fun k (mp : list R * list R) =>
         length (fst mp) = (6 * n)%nat /\ length (snd mp) = (6 * n)%nat
         /\ forall b d, (b < k)%nat -> (d < 6)%nat ->
              nth_error (fst mp) (6 * b + d) = Some (mag b d)
              /\ nth_error (snd mp) (6 * b + d) = Some (phase b d))
      body n init) as [mp [E [Lm [Lp P]]]]
  end.
  - cbn [fst snd]. rewrite !resize_length. repeat split; intros; lia.
  - intros b mp0 Hb [Lm0 [Lp0 P0]].
    match goal with |- exists s1, for_loop 6 ?body ?init = _ /\ _ =>
      destruct (for_loop_inv
        (fun k (mp : list R * list R) =>
           length (fst mp) = (6 * n)%nat /\ length (snd mp) = (6 * n)%nat
           /\ (forall b' d, (b' < b)%nat -> (d < 6)%nat ->
                 nth_error (fst mp) (6 * b' + d) = Some (mag b' d)
                 /\ nth_error (snd mp) (6 * b' + d) = Some (phase b' d))
           /\ forall d, (d < k)%nat ->
                nth_error (fst mp) (6 * b + d) = Some (mag b d)
                /\ nth_error (snd mp) (6 * b + d) = Some (phase b d))
        body 6%nat init) as [mp1 [E1 [Lm1 [Lp1 [P1 Q1]]]]]
    end.
    + repeat split; try assumption; try (apply P0; assumption); intros; lia.
    + intros d mp1 Hd [Lm1 [Lp1 [P1 Q1]]].
      destruct (Hinterp b d Hb Hd) as [Em Ep]. rewrite Em. cbn [bind].
      unfold vset at 1. destruct (Nat.ltb_spec (6 * b + d) (length (fst mp1))); [|lia].
      cbn [bind]. rewrite Ep. cbn [bind].
      unfold vset. destruct (Nat.ltb_spec (6 * b + d) (length (snd mp1))); [|lia].
      eexists; split; [reflexivity|]. cbn [fst snd]. rewrite !upd_length.
      split; [assumption|]. split; [assumption|]. split.
      * intros b' d' Hb' Hd'. rewrite !nth_error_upd_other by lia. now apply P1.
      * intros d' Hd'. destruct (Nat.eq_dec d' d) as [->|Hne].
        -- split; apply nth_error_upd_same; lia.
        -- rewrite !nth_error_upd_other by lia. apply Q1; lia.
    + exists mp1; split; [assumption|]. split; [assumption|]. split; [assumption|].
      intros b' d Hb' Hd. destruct (Nat.eq_dec b' b) as [->|Hne].
      * now apply Q1.
      * apply P1; [lia | assumption].
  - rewrite E. cbn [bind]. eexists; split; [reflexivity|].
    cbn [RegularWave.num_bodies_ RegularWave.excitation_force_mag_
         RegularWave.excitation_force_phase_].
    split; [reflexivity|]. intros b d Hb Hd. now apply P.
Qed.

(** C3, on [two_body_wave] at time 0: entry 6 (second body, first degree of
    freedom) of [GetForceAtTime] is 1, the value for the first body's phase 0,
    while [magnitude[6] * amplitude * cos(omega * t + phase[6])], the value
    for the second body's own phase [PI], is -1. *)
Theorem regular_wave_second_body_takes_first_body_phase :
  exists f,
    RegularWave.GetForceAtTime two_body_wave 0 = Ok f
    /\ nth 6 f 0 = 1
    /\ nth 6 (RegularWave.excitation_force_mag_ two_body_wave) 0
       * RegularWave.regular_wave_amplitude_ two_body_wave
       * cos (RegularWave.regular_wave_omega_ two_body_wave * 0
              + nth 6 (RegularWave.excitation_force_phase_ two_body_wave) 0)
       = -1.
Proof.
  destruct (RegularWave_GetForceAtTime_entries two_body_wave 0) as [f [E [L P]]].
  - simpl; lia.
  - simpl; lia.
  - exists f; split; [assumption|]. split.
    + specialize (P 1%nat 0%nat). simpl in P.
      rewrite (nth_error_nth f 6 0 (P ltac:(lia) ltac:(lia))).
      replace (1 * 0 + 0) with 0 by lra. rewrite cos_0. lra.
    + simpl. replace (1 * 0 + PI) with PI by lra. rewrite cos_PI. lra.
Qed.

(** ** Dispersion relation *)

Lemma newton_while_until fuel omega water_depth g tol k error :
  newton_while fuel omega water_depth g tol k error
  = if Rleb error tol then k
    else newton_until fuel omega water_depth g tol k.
Proof.
  revert k error; induction fuel as [|fuel IH]; intros k error; simpl.
  - destruct (Rleb error tol); reflexivity.
  - unfold Rleb at 1. destruct (Rgt_dec error tol) as [Hgt|Hle];
      destruct (Rle_dec error tol) as [Hle'|Hgt']; try lra; try reflexivity.
    rewrite IH. unfold newton_update, dispersion_f, dispersion_df.
    replace (-2.0) with (-2) by lra. replace 1.0 with 1 by lra.
    destruct (Rleb _ tol); reflexivity.
Qed.

Lemma tanh_pos_lt_1 x : 0 < x -> 0 < tanh x < 1.
Proof.
  intros Hx. unfold tanh, sinh, cosh.
  assert (Hlt : exp (- x) < exp x) by (apply exp_increasing; lra).
  pose proof (exp_pos x). pose proof (exp_pos (- x)).
  assert (Hc : 0 < (exp x + exp (- x)) / 2) by lra.
  split.
  - apply Rdiv_lt_0_compat; lra.
  - apply (Rmult_lt_reg_r ((exp x + exp (- x)) / 2)); [assumption|].
    unfold Rdiv at 1. rewrite Rmult_assoc, Rinv_l by lra. lra.
Qed.

(** C6, as the source has it: for every frequency the result is the Newton
    iteration from [k0 = omega^2 / g] with the update
    [k <- k - f(k) / f'(k)], stopped after the first update of size
    [|dk| <= tol] or after [maxIter] updates, and with no update at all when
    [tol >= 1] (the step counts as 1.0 before the first update); one wave
    number is returned per frequency, whatever the convergence, and the
    defaults are [g = 9.81], [tol = 1e-6], [maxIter = 100]. *)
Theorem ComputeWaveNumbers_as_coded omegas water_depth g tol maxIter :
  ComputeWaveNumbers omegas water_depth g tol maxIter
  = map (Solve_as_coded water_depth g tol maxIter) omegas
  /\ length (ComputeWaveNumbers omegas water_depth g tol maxIter) = length omegas
  /\ ComputeWaveNumbers_default omegas water_depth
     = ComputeWaveNumbers omegas water_depth 9.81 1e-6 100.
Proof.
  split; [|split].
  - unfold ComputeWaveNumbers, Solve_as_coded. apply map_ext; intros omega.
    rewrite newton_while_until. replace 1.0 with 1 by lra. reflexivity.
  - unfold ComputeWaveNumbers. apply length_map.
  - reflexivity.
Qed.

(** C6 as worded fails: with [omega = 1], depth 1, [g = 1], [tol = 1] and
    [maxIter = 1] the step counts as 1.0, which is not greater than [tol], so
    the source returns [k0 = 1] untouched; 1.0 is not smaller than [tol]
    either, and the Newton update that the wording asks for moves [k] away
    from 1. *)
Lemma ComputeWaveNumbers_not_spec_Solve :
  ~ (forall omegas water_depth g tol maxIter,
       ComputeWaveNumbers omegas water_depth g tol maxIter
       = map (spec_Solve water_depth g tol maxIter) omegas).
Proof.
  intros H. specialize (H [1] 1 1 1 1%Z).
  unfold ComputeWaveNumbers, spec_Solve in H. simpl in H.
  destruct (Rgt_dec 1.0 1) as [Hgt|_]; [lra|].
  injection H as H.
  destruct (tanh_pos_lt_1 1) as [T0 T1]; [lra|].
  assert (Hk : 1 * 1 / 1 = 1) by lra. rewrite Hk in H.
  set (dk := newton_update 1 1 1 1) in *.
  assert (Hdk : dk <> 0).
  { unfold dk, newton_update, dispersion_f, dispersion_df.
    replace (1 * 1) with 1 by lra.
    set (T := tanh 1) in *.
    assert (Hf : 1 * 1 - 1 * 1 * T <> 0) by lra.
    assert (Hdf : -2 * 1 * T - 1 * 1 * 1 * (1 - T * T) < 0) by nra.
    unfold Rdiv. apply Rmult_integral_contrapositive_currified; [lra|].
    apply Rinv_neq_0_compat; lra. }
  destruct (Rltb (Rabs dk) 1); lra.
Qed.

(** ** Free-surface synthesis *)

Section SynthesisFacts.

Variable mt19937 : Type.
Variable mt19937_seed : Z -> mt19937.
Variable uniform_real_distribution : R -> R -> mt19937 -> R * mt19937.

Lemma draw_phases_length n rng :
  length (fst (draw_phases mt19937 uniform_real_distribution n rng)) = n.
Proof.
  revert rng; induction n as [|n IH]; intros rng; simpl; [reflexivity|].
  destruct (uniform_real_distribution 0.0 (2 * PI) rng) as [x rng1].
  specialize (IH rng1).
  destruct (draw_phases mt19937 uniform_real_distribution n rng1) as [xs rng2].
  simpl in *. now rewrite IH.
Qed.

Lemma amplitude_envelope_spec freqs_hz spectral_densities :
  freqs_hz <> [] ->
  amplitude_envelope freqs_hz spectral_densities
  = Ok (map (envelope_at freqs_hz spectral_densities)
            (seq 0 (length spectral_densities))).
Proof.
  intros Hne. unfold amplitude_envelope.
  rewrite (vget_back freqs_hz 0) by (now apply nonempty_length).
  cbn [bind]. f_equal. rewrite map_map.
  apply (map_nth_seq (fun x => sqrt (2 * x * _))).
Qed.

(** Every output sample is the sum, over the bins, of the bin's weight times
    the cosine of its phase-shifted argument. *)
Lemma FreeSurfaceElevation_closed_form
  (freqs_hz spectral_densities time_index : list R) (water_depth : R) (seed : Z) :
  freqs_hz <> [] ->
  (length spectral_densities <= length freqs_hz)%nat ->
  exists eta,
    FreeSurfaceElevation mt19937 mt19937_seed uniform_real_distribution
      freqs_hz spectral_densities time_index water_depth seed = Ok eta
    /\ length eta = length time_index
    /\ forall j, (j < length time_index)%nat ->
         nth j eta 0
         = partial_sum
             (fun i => envelope_at freqs_hz spectral_densities i
                       * cos (nth j time_index 0 * (2 * PI * nth i freqs_hz 0)
                              + nth i (phases_of mt19937 mt19937_seed
                                         uniform_real_distribution seed
                                         (length freqs_hz)) 0))
             (length spectral_densities).
Proof.
  intros Hne Hlen. unfold FreeSurfaceElevation.
  rewrite amplitude_envelope_spec by assumption. cbn [bind].
  rewrite length_map.
  fold (phases_of mt19937 mt19937_seed uniform_real_distribution seed (length freqs_hz)).
  set (phases := phases_of _ _ _ seed (length freqs_hz)).
  set (M := length spectral_densities).
  set (T := length time_index).
  set (term := fun j i => envelope_at freqs_hz spectral_densities i
                 * cos (nth j time_index 0 * (2 * PI * nth i freqs_hz 0)
                        + nth i phases 0)).
  assert (Hph : length phases = length freqs_hz) by apply draw_phases_length.
  match goal with |- exists eta, for_loop M ?body ?init = _ /\ _ =>
    destruct (for_loop_inv
      (fun k (eta : list R) =>
         length eta = T
         /\ forall j, (j < T)%nat -> nth_error eta j = Some (partial_sum (term j) k))
      body M init) as [eta [E [L P]]]
  end.
  - split; [apply repeat_length|].
    intros j Hj. simpl. apply nth_error_repeat; assumption.
  - intros i eta0 Hi [L0 P0].
    match goal with |- exists s1, for_loop T ?body ?init = _ /\ _ =>
      destruct (for_loop_inv
        (fun n (eta : list R) =>
           length eta = T
           /\ (forall j, (j < n)%nat ->
                 nth_error eta j = Some (partial_sum (term j) (S i)))
           /\ forall j, (n <= j < T)%nat ->
                 nth_error eta j = Some (partial_sum (term j) i))
        body T init) as [eta1 [E1 [L1 [P1 Q1]]]]
    end.
    + split; [assumption|]. split; [intros; lia|]. intros j Hj; apply P0; lia.
    + intros j eta1 Hj [L1 [P1 Q1]].
      rewrite (vget_nat_ok _ i (envelope_at freqs_hz spectral_densities i)).
      2:{ rewrite nth_error_map, nth_error_seq.
          destruct (Nat.ltb_spec i M); [reflexivity | lia]. }
      cbn [bind].
      rewrite (vget_nat_ok _ j
                 (map (fun w => nth j time_index 0 * w)
                      (map (fun f => 2 * PI * f) freqs_hz))).
      2:{ rewrite nth_error_map, (nth_error_nth' time_index 0) by (fold T; lia).
          reflexivity. }
      cbn [bind].
      rewrite (vget_nat_ok _ i (nth j time_index 0 * (2 * PI * nth i freqs_hz 0))).
      2:{ rewrite !nth_error_map, (nth_error_nth' freqs_hz 0) by lia. reflexivity. }
      cbn [bind].
      rewrite (vget_nat_ok _ i (nth i phases 0))
        by (apply nth_error_nth'; lia).
      cbn [bind].
      rewrite (vget_nat_ok _ j (partial_sum (term j) i)) by (apply Q1; lia).
      cbn [bind]. unfold vset.
      destruct (Nat.ltb_spec j (length eta1)); [|lia].
      eexists; split; [reflexivity|]. split; [|split].
      * now rewrite upd_length.
      * intros j' Hj'. destruct (Nat.eq_dec j' j) as [->|Hn].
        -- rewrite nth_error_upd_same by lia. reflexivity.
        -- rewrite nth_error_upd_other by lia. apply P1; lia.
      * intros j' Hj'. rewrite nth_error_upd_other by lia. apply Q1; lia.
    + exists eta1; split; [assumption|]. split; [assumption|].
      intros j Hj; apply P1; assumption.
  - exists eta; split; [assumption|]. split; [assumption|].
    intros j Hj. apply nth_error_nth. apply P; assumption.
Qed.

End SynthesisFacts.

(** C7: for a spectrum with at least one bin and no more densities than
    frequencies, a second call of [FreeSurfaceElevation] with the same
    frequencies, densities, time grid, depth and seed returns the same
    elevations; the weights [sqrt(A_i)], [A_i = 2 * density_i * delta_f],
    [delta_f = lastFreq / N], are computed from the spectrum without the seed;
    and for every seed each elevation is the sum of these weights times the
    cosines shifted by the phases drawn for that seed. *)
Theorem FreeSurfaceElevation_reproducible
  (mt19937 : Type) (mt19937_seed : Z -> mt19937)
  (uniform_real_distribution : R -> R -> mt19937 -> R * mt19937)
  (freqs_hz spectral_densities time_index : list R) (water_depth : R) (seed : Z) :
  freqs_hz <> [] ->
  (length spectral_densities <= length freqs_hz)%nat ->
  (forall freqs_hz' spectral_densities' time_index' water_depth' seed',
     freqs_hz' = freqs_hz -> spectral_densities' = spectral_densities ->
     time_index' = time_index -> water_depth' = water_depth -> seed' = seed ->
     FreeSurfaceElevation mt19937 mt19937_seed uniform_real_distribution
       freqs_hz' spectral_densities' time_index' water_depth' seed'
     = FreeSurfaceElevation mt19937 mt19937_seed uniform_real_distribution
         freqs_hz spectral_densities time_index water_depth seed)
  /\ amplitude_envelope freqs_hz spectral_densities
     = Ok (map (envelope_at freqs_hz spectral_densities)
               (seq 0 (length spectral_densities)))
  /\ forall any_seed, exists eta,
       FreeSurfaceElevation mt19937 mt19937_seed uniform_real_distribution
         freqs_hz spectral_densities time_index water_depth any_seed = Ok eta
       /\ length eta = length time_index
       /\ forall j, (j < length time_index)%nat ->
            nth j eta 0
            = partial_sum
                (fun i => envelope_at freqs_hz spectral_densities i
                          * cos (nth j time_index 0 * (2 * PI * nth i freqs_hz 0)
                                 + nth i (phases_of mt19937 mt19937_seed
                                            uniform_real_distribution any_seed
                                            (length freqs_hz)) 0))
                (length spectral_densities).
Proof.
  intros Hne Hlen. split; [|split].
  - intros f' d' t' h' s' -> -> -> -> ->. reflexivity.
  - now apply amplitude_envelope_spec.
  - intros any_seed. now apply FreeSurfaceElevation_closed_form.
Qed.

Lemma FreeSurfaceElevation_reproducible_witness :
  [1] <> ([] : list R)
  /\ exists eta,
       FreeSurfaceElevation nat counting_seed counting_draw [1] [1] [0] 1 0 = Ok eta
       /\ length eta = 1%nat.
Proof.
  split; [discriminate|].
  destruct (FreeSurfaceElevation_reproducible nat counting_seed counting_draw
              [1] [1] [0] 1 0%Z) as [_ [_ H]]; [discriminate | simpl; lia |].
  destruct (H 0%Z) as [eta [E [L _]]].
  exists eta; split; [exact E | exact L].
Defined.

(** ** Mesh export *)

Lemma fold_push_column (l : list Z) (acc : list triangle) :
  fold_left push_column l acc = acc ++ flat_map column_triangles l.
Proof.
  revert acc; induction l as [|i l IH]; intros acc; simpl.
  - now rewrite app_nil_r.
  - rewrite IH. unfold push_column. now rewrite <- !app_assoc.
Qed.

(** The triangles are those of the columns [0 .. eta_size / 2 - 2]. *)
Lemma CreateFreeSurfaceTriangles_columns (eta_size : Z) :
  (2 <= eta_size < 2 ^ 64)%Z ->
  CreateFreeSurfaceTriangles eta_size
  = flat_map column_triangles
      (map Z.of_nat (seq 0 (Z.to_nat (eta_size / 2 - 1)))).
Proof.
  intros H. unfold CreateFreeSurfaceTriangles, size_t_wrap.
  rewrite Z.mod_small.
  - apply fold_push_column.
  - split.
    + assert (1 <= eta_size / 2)%Z by (apply Z.div_le_lower_bound; lia). lia.
    + assert (eta_size / 2 <= eta_size)%Z by (apply Z.div_le_upper_bound; lia). lia.
Qed.

Lemma CreateFreeSurfaceTriangles_length (eta_size : Z) :
  (2 <= eta_size < 2 ^ 64)%Z ->
  Z.of_nat (length (CreateFreeSurfaceTriangles eta_size))
  = (2 * (eta_size / 2 - 1))%Z.
Proof.
  intros H. rewrite CreateFreeSurfaceTriangles_columns by assumption.
  assert (1 <= eta_size / 2)%Z by (apply Z.div_le_lower_bound; lia).
  rewrite (flat_map_constant_length (c := 2%nat)) by reflexivity.
  rewrite length_map, length_seq. lia.
Qed.

(** Two points per time sample, at -10 and +10, with the sample's elevation. *)
Lemma CreateFreeSurface3DPts_spec (eta t_vec : list R) :
  (length t_vec <= length eta)%nat ->
  exists surface,
    CreateFreeSurface3DPts eta t_vec = Ok surface
    /\ length surface = (2 * length t_vec)%nat
    /\ forall i, (i < length t_vec)%nat ->
         nth_error surface (2 * i)
         = Some (-1 * nth i t_vec 0, -10.0, nth i eta 0)
         /\ nth_error surface (2 * i + 1)
            = Some (-1 * nth i t_vec 0, 10.0, nth i eta 0).
Proof.
  intros Hlen. unfold CreateFreeSurface3DPts.
  match goal with |- exists surface, for_loop ?n ?body ?init = _ /\ _ =>
    destruct (for_loop_inv
      (fun k (s : list point3) =>
         length s = (2 * length t_vec)%nat
         /\ forall i, (i < k)%nat ->
              nth_error s (2 * i) = Some (-1 * nth i t_vec 0, -10.0, nth i eta 0)
              /\ nth_error s (2 * i + 1)
                 = Some (-1 * nth i t_vec 0, 10.0, nth i eta 0))
      body n init) as [s [E [L P]]]
  end.
  - split; [rewrite repeat_length; lia | intros i Hi; lia].
  - intros i s0 Hi [L P].
    rewrite (vget_nat_ok t_vec i (nth i t_vec 0)) by (apply nth_error_nth'; lia).
    rewrite (vget_nat_ok eta i (nth i eta 0)) by (apply nth_error_nth'; lia).
    cbn [bind]. unfold vset.
    match goal with |- context [Nat.ltb ?a ?b] =>
      destruct (Nat.ltb_spec a b); [|unfold point3 in *; lia]
    end.
    cbn [bind]. rewrite upd_length.
    match goal with |- context [Nat.ltb ?a ?b] =>
      destruct (Nat.ltb_spec a b); [|unfold point3 in *; lia]
    end.
    eexists; split; [reflexivity|]. split.
    + now rewrite !upd_length.
    + intros k Hk. destruct (Nat.eq_dec k i) as [->|Hne].
      * split.
        -- rewrite nth_error_upd_other by lia.
           apply nth_error_upd_same; lia.
        -- apply nth_error_upd_same. rewrite upd_length; lia.
      * rewrite !nth_error_upd_other by lia. apply P; lia.
  - exists s; repeat split; try assumption; apply P; assumption.
Qed.

(** C9, on [sea_example] (duration 3, step 1, hence N = 4 time samples): the
    mesh-export path returns 8 points but only the two triangles of column 0,
    not the ladder of the columns 0, 1, 2; the triangle (2, 3, 5) of column 1
    is missing. *)
Theorem mesh_export_triangulates_half_the_strip :
  exists points triangles,
    SetUpWaveMesh sea_example = Ok (points, triangles)
    /\ length points = 8%nat
    /\ triangles = [(0, 1, 3); (0, 3, 2)]%Z
    /\ triangles <> flat_map column_triangles [0; 1; 2]%Z
    /\ ~ In (2, 3, 5)%Z triangles.
Proof.
  unfold SetUpWaveMesh.
  cbn [sea_example simulation_duration_ simulation_dt_ free_surface_elevation_sampled_].
  replace (3 / 1) with (IZR 3) by lra. rewrite trunc_int_IZR.
  destruct (CreateFreeSurface3DPts_spec [5; 7; 9; 11] (LinSpaced (3 + 1) 0 3))
    as [points [E [L _]]].
  { rewrite LinSpaced_length. simpl. lia. }
  rewrite E. cbn [bind]. eexists; eexists; split; [reflexivity|].
  rewrite LinSpaced_length in *. split; [exact L|].
  split; [reflexivity|]. split; [discriminate|].
  intros [H|[H|[]]]; discriminate.
Qed.

(** ** Wave spectra *)

Lemma insert_sorted_In x y l : In y (insert_sorted x l) -> y = x \/ In y l.
Proof.
  induction l as [|a l IH]; simpl.
  - intros [H|[]]; auto.
  - destruct (Rle_dec x a); simpl.
    + intros [H|[H|H]]; auto.
    + intros [H|H]; auto. destruct (IH H); auto.
Qed.

Lemma sort_doubles_In y l : In y (sort_doubles l) -> In y l.
Proof.
  induction l as [|a l IH]; simpl; [auto|].
  intros H. apply insert_sorted_In in H. destruct H; auto.
Qed.

Lemma insert_sorted_length x l : length (insert_sorted x l) = S (length l).
Proof.
  induction l as [|a l IH]; simpl; [reflexivity|].
  destruct (Rle_dec x a); simpl; [reflexivity | now rewrite IH].
Qed.

Lemma sort_doubles_length l : length (sort_doubles l) = length l.
Proof.
  induction l as [|a l IH]; simpl; [reflexivity|].
  now rewrite insert_sorted_length, IH.
Qed.

Lemma sort_doubles_positive l :
  Forall (fun x => 0 < x) l -> Forall (fun x => 0 < x) (sort_doubles l).
Proof.
  rewrite !Forall_forall. intros H x Hx. apply H, sort_doubles_In, Hx.
Qed.

Lemma pm_density_nonneg Hs Tp fi :
  0 < Hs -> 0 < Tp -> 0 < fi -> 0 <= pm_density Hs Tp fi.
Proof.
  intros HHs HTp Hf. unfold pm_density, pow_int.
  assert (0 < 1 / Tp) by (apply Rdiv_lt_0_compat; lra).
  assert (0 < Hs / 2) by lra.
  pose proof (powerRZ_le (1 / Tp) 4 ltac:(assumption)).
  pose proof (powerRZ_le (Hs / 2) 2 ltac:(assumption)).
  pose proof (powerRZ_le fi (-5) Hf).
  pose proof (exp_pos (-1.25 * powerRZ (1 / Tp) 4 * powerRZ fi (-4))).
  apply Rmult_le_pos; [apply Rmult_le_pos; [apply Rmult_le_pos;
    [apply Rmult_le_pos; [lra | assumption] | assumption] | assumption] | lra].
Qed.

Lemma jonswap_factor_pos Tp gamma fi : 0 < jonswap_factor Tp gamma fi.
Proof. unfold jonswap_factor, Rpower. apply exp_pos. Qed.

Lemma Forall_map_combine_nonneg (g : R -> R) (fs ds : list R) :
  (forall x, 0 < g x) ->
  Forall (fun d => 0 <= d) ds ->
  Forall (fun d => 0 <= d) (map (fun fd => snd fd * g (fst fd)) (combine fs ds)).
Proof.
  intros Hg Hds. rewrite Forall_forall. intros y Hy.
  apply in_map_iff in Hy. destruct Hy as [[a b] [<- Hin]]. simpl.
  apply in_combine_r in Hin. rewrite Forall_forall in Hds.
  apply Rmult_le_pos; [apply Hds; assumption | left; apply Hg].
Qed.

(** C10: for strictly positive frequencies and [Hs > 0], [Tp > 0],
    [gamma > 0], every density returned by [PiersonMoskowitzSpectrumHz] and
    by [JONSWAPSpectrumHz] is nonnegative, one density per frequency. *)
Theorem spectral_densities_nonnegative (f : list R) (Hs Tp gamma : R) :
  Forall (fun x => 0 < x) f -> 0 < Hs -> 0 < Tp -> 0 < gamma ->
  Forall (fun d => 0 <= d) (snd (PiersonMoskowitzSpectrumHz f Hs Tp))
  /\ Forall (fun d => 0 <= d) (snd (JONSWAPSpectrumHz f Hs Tp gamma))
  /\ length (snd (PiersonMoskowitzSpectrumHz f Hs Tp)) = length f
  /\ length (snd (JONSWAPSpectrumHz f Hs Tp gamma)) = length f.
Proof.
  intros Hf HHs HTp Hg.
  assert (Hpm : Forall (fun d => 0 <= d) (map (pm_density Hs Tp) (sort_doubles f))).
  { apply Forall_map. eapply Forall_impl; [|apply sort_doubles_positive, Hf].
    intros a Ha; simpl. now apply pm_density_nonneg. }
  split; [exact Hpm|]. split.
  - unfold JONSWAPSpectrumHz, PiersonMoskowitzSpectrumHz. simpl.
    apply Forall_map_combine_nonneg; [apply jonswap_factor_pos | exact Hpm].
  - unfold JONSWAPSpectrumHz, PiersonMoskowitzSpectrumHz; simpl.
    rewrite !length_map, length_combine, length_map, Nat.min_id.
    split; apply sort_doubles_length.
Qed.

Lemma spectral_densities_nonnegative_witness :
  Forall (fun x => 0 < x) [0.5; 0.125]
  /\ Forall (fun d => 0 <= d) (snd (JONSWAPSpectrumHz [0.5; 0.125] 2 8 3.3)).
Proof.
  assert (H : Forall (fun x => 0 < x) [0.5; 0.125]) by (repeat constructor; lra).
  split; [exact H|].
  apply (spectral_densities_nonnegative [0.5; 0.125] 2 8 3.3 H); lra.
Defined.

(** ** The excitation convolution *)

Section WalkBack.

Variable ts : list R.
Variable tmin t_tau : R.
Hypothesis Hfront : nth_error ts 0 = Some tmin.
Hypothesis Hguard : tmin <= t_tau.

Lemma walk_back_spec (n : nat) :
  (0 < n <= length ts)%nat ->
  exists m, walk_back ts t_tau n = Ok (Z.of_nat m)
    /\ (m < n)%nat
    /\ nth m ts 0 <= t_tau
    /\ forall k, (m < k < n)%nat -> t_tau < nth k ts 0.
Proof.
  induction n as [|n IH]; intros Hn; [lia|]. simpl.
  rewrite (vget_nat_ok ts n (nth n ts 0)) by (apply nth_error_nth'; lia).
  cbn [bind]. destruct (Rltb_spec t_tau (nth n ts 0)) as [Hlt|Hge].
  - assert (n <> 0%nat).
    { intros ->. rewrite (nth_error_nth _ _ 0 Hfront) in Hlt. lra. }
    destruct IH as [m [E [Hm [Hle Hk]]]]; [lia|].
    exists m; repeat split; try assumption; [lia|].
    intros k Hk'. destruct (Nat.eq_dec k n) as [->|Hne]; [assumption | apply Hk; lia].
  - exists n; repeat split; [lia | lra | intros; lia].
Qed.

(** Without any bound on [n], the scan still never reads below index 0. *)
Lemma walk_back_never_negative (n : nat) :
  (0 < n)%nat ->
  match walk_back ts t_tau n with
  | Ok m => (0 <= m)%Z
  | Err e => exists i, e = BadIndex i /\ (0 <= i)%Z
  end.
Proof.
  induction n as [|n IH]; intros Hn; [lia|]. simpl.
  unfold vget_nat. destruct (nth_error ts n) as [v|] eqn:E; cbn [bind].
  - destruct (Rltb_spec t_tau v) as [Hlt|Hge]; [|lia].
    apply IH. destruct n; [|lia].
    rewrite Hfront in E. injection E as <-. lra.
  - exists (Z.of_nat n); split; [reflexivity | lia].
Qed.

End WalkBack.

Section NeverNegative.

Variable get_lower_index : R -> list R -> result Z.
Variable indeterminate : Z -> Z -> R -> nat -> R.
Variable w : t.

Lemma eta_at_nonneg_failure (garbage t_tau : R) (idx : Z) :
  (0 <= idx)%Z ->
  match eta_at w garbage t_tau idx with
  | Ok _ => True
  | Err e => nonneg_failure e
  end.
Proof.
  intros Hi. unfold eta_at.
  pose proof (vget_nonneg_failure (free_surface_time_sampled_ w) idx Hi) as H1.
  pose proof (vget_nonneg_failure (free_surface_time_sampled_ w) (idx + 1) ltac:(lia)) as H2.
  pose proof (vget_nonneg_failure (free_surface_elevation_sampled_ w) idx Hi) as H3.
  pose proof (vget_nonneg_failure (free_surface_elevation_sampled_ w) (idx + 1) ltac:(lia)) as H4.
  destruct (vget (free_surface_time_sampled_ w) idx) as [t1|e1]; cbn [bind]; [|exact H1].
  destruct (vget (free_surface_time_sampled_ w) (idx + 1)) as [t2|e2]; cbn [bind]; [|exact H2].
  destruct (Reqb t_tau t1); [exact I|].
  destruct (Reqb t_tau t2); [exact I|].
  destruct (Rltb t1 t_tau && Rltb t_tau t2).
  - destruct (vget (free_surface_elevation_sampled_ w) idx); cbn [bind]; [|exact H3].
    destruct (vget (free_surface_elevation_sampled_ w) (idx + 1)); cbn [bind];
      [exact I | exact H4].
  - intros i; discriminate.
Qed.

Lemma convolution_step_nonneg (irf_time_array : list R) (irf_val_mat : matrix)
  (irf_width_array : list R) (tmax : R) (b d : nat) (time : R)
  (j : nat) (st : Z * R) :
  free_surface_time_sampled_ w <> [] ->
  (0 <= fst st)%Z ->
  match convolution_step indeterminate w irf_time_array irf_val_mat
          irf_width_array (window_min w) tmax (Z.of_nat b) (Z.of_nat d) time j st with
  | Ok st' => (0 <= fst st')%Z
  | Err e => nonneg_failure e
  end.
Proof.
  intros Hne Hidx. unfold convolution_step.
  pose proof (vget_nat_nonneg_failure irf_time_array j) as H1.
  destruct (vget_nat irf_time_array j) as [tau|e]; cbn [bind]; [|exact H1].
  destruct (Rleb_spec (window_min w) (time - tau)) as [Hlo|Hlo]; cbn [andb];
    [|intros i; discriminate].
  destruct (Rleb (time - tau) tmax); [|intros i; discriminate].
  unfold cursor_walk_back. destruct (Z.ltb_spec (fst st) 0) as [|_]; [lia|].
  assert (Hfront : nth_error (free_surface_time_sampled_ w) 0 = Some (window_min w)).
  { unfold window_min. destruct (free_surface_time_sampled_ w); [congruence|reflexivity]. }
  pose proof (walk_back_never_negative _ _ _ Hfront Hlo (S (Z.to_nat (fst st)))
                ltac:(lia)) as H2.
  destruct (walk_back _ _ _) as [idx|e]; cbn [bind].
  2:{ destruct H2 as [i [-> Hi]]. intros k [= <-]. exact Hi. }
  pose proof (eta_at_nonneg_failure (indeterminate (Z.of_nat b) (Z.of_nat d) time j)
                (time - tau) idx H2) as H3.
  destruct (eta_at _ _ _ _) as [eta_val|e]; cbn [bind]; [|exact H3].
  unfold mat_get.
  pose proof (vget_nonneg_failure irf_val_mat (Z.of_nat j) ltac:(lia)) as H4.
  destruct (vget irf_val_mat (Z.of_nat j)) as [c|e]; cbn [bind]; [|exact H4].
  pose proof (vget_nonneg_failure c (Z.of_nat d) ltac:(lia)) as H5.
  destruct (vget c (Z.of_nat d)) as [v|e]; cbn [bind]; [|exact H5].
  pose proof (vget_nat_nonneg_failure irf_width_array j) as H6.
  destruct (vget_nat irf_width_array j) as [wj|e]; cbn [bind]; [|exact H6].
  exact H2.
Qed.

Lemma ExcitationConvolution_nonneg_failure (b d : nat) (time : R) (grid : list R) :
  lower_index_contract get_lower_index ->
  nth_error (ex_irf_time_sampled_ w) b = Some grid ->
  (Z.of_nat (length (free_surface_time_sampled_ w)) < 2 ^ 31)%Z ->
  lags_inside w grid time ->
  match ExcitationConvolution get_lower_index indeterminate w
          (Z.of_nat b) (Z.of_nat d) time with
  | Ok _ => True
  | Err e => nonneg_failure e
  end.
Proof.
  intros Hc Hgrid Hlen Hin. unfold ExcitationConvolution.
  rewrite (vget_Z_ok _ _ _ Hgrid). cbn [bind].
  pose proof (vget_nonneg_failure (ex_irf_sampled_ w) (Z.of_nat b) ltac:(lia)) as H1.
  destruct (vget (ex_irf_sampled_ w) (Z.of_nat b)) as [vals|e]; cbn [bind]; [|exact H1].
  pose proof (vget_nonneg_failure (ex_irf_width_sampled_ w) (Z.of_nat b) ltac:(lia)) as H2.
  destruct (vget (ex_irf_width_sampled_ w) (Z.of_nat b)) as [widths|e]; cbn [bind];
    [|exact H2].
  set (ts := free_surface_time_sampled_ w) in *.
  destruct ts as [|a ts'] eqn:Ets.
  { cbn. intros i [= <-]. lia. }
  assert (Hne : free_surface_time_sampled_ w <> []) by (fold ts; rewrite Ets; discriminate).
  assert (Hmin : vget (a :: ts') 0 = Ok (window_min w)).
  { unfold window_min. fold ts. rewrite Ets. reflexivity. }
  rewrite Hmin. cbn [bind].
  assert (Hmax : vget (a :: ts') (Z.of_nat (length (a :: ts')) - 1) = Ok (window_max w)).
  { unfold window_max. fold ts. rewrite Ets.
    replace (Z.of_nat (length (a :: ts')) - 1)%Z
      with (Z.of_nat (length (a :: ts') - 1)) by (cbn [length]; lia).
    apply vget_Z_ok, nth_error_nth'. simpl; lia. }
  rewrite Hmax. cbn [bind].
  destruct grid as [|tau0 grid'].
  { cbn. intros i [= <-]. lia. }
  cbn [vget Z.ltb Z.compare Z.to_nat nth_error bind].
  assert (H0 : inside_window w (time - tau0)) by (inversion Hin; assumption).
  destruct H0 as [Hlo Hhi].
  set (init := if Rleb (time - tau0) (window_min w) then Ok 0%Z
               else if Rleb (window_max w) (time - tau0)
                    then Ok (to_int (size_t_wrap (Z.of_nat (length (a :: ts')) - 2)))
                    else get_lower_index (time - tau0) (a :: ts')).
  assert (Hinit : match init with
                  | Ok idx => (0 <= idx)%Z
                  | Err e => nonneg_failure e
                  end).
  { unfold init. destruct (Rleb_spec (time - tau0) (window_min w)) as [|Hgt]; [lia|].
    destruct (Rleb_spec (window_max w) (time - tau0)) as [Hge|Hlt].
    - destruct ts' as [|a' ts''].
      + unfold window_min, window_max in *. fold ts in Hgt, Hhi.
        rewrite Ets in Hgt, Hhi. simpl in Hgt, Hhi. lra.
      + rewrite to_int_size_minus_2; [lia | simpl; lia | exact Hlen].
    - destruct (Hc (time - tau0) (a :: ts') (window_min w) (window_max w))
        as [i [E _]].
      + unfold window_min. fold ts. rewrite Ets. reflexivity.
      + unfold window_max. fold ts. rewrite Ets. apply nth_error_nth'. simpl; lia.
      + lra.
      + rewrite E. lia. }
  destruct init as [idx|e]; cbn [bind]; [|exact Hinit].
  match goal with |- match (st <- for_loop ?n ?body ?s0 ;; _) with _ => _ end =>
    pose proof (for_from_cases (fun _ (st : Z * R) => (0 <= fst st)%Z) nonneg_failure
                  body n 0 s0 Hinit) as Hloop
  end.
  unfold for_loop.
  match type of Hloop with ?A -> _ => assert (Hstep : A) end.
  { intros i s0 _ Hs0. apply convolution_step_nonneg; assumption. }
  specialize (Hloop Hstep).
  destruct (for_from _ _ _ _) as [st|e]; cbn [bind]; [exact I | exact Hloop].
Qed.

End NeverNegative.

Section WindowFacts.

Variable get_lower_index : R -> list R -> result Z.
Variable indeterminate : Z -> Z -> R -> nat -> R.
Variable w : t.
Variables b d : nat.
Variable grid : list R.
Variable time : R.
Hypothesis Hok : table_ok w b d grid.
Hypothesis Hcontract : lower_index_contract get_lower_index.

Let ts := free_surface_time_sampled_ w.
Let lag (j : nat) : R := time - nth j grid 0.

Lemma history_front : nth_error ts 0 = Some (window_min w).
Proof.
  unfold window_min. fold ts. apply nth_error_nth'.
  destruct Hok. unfold ts. lia.
Qed.

Lemma history_back : nth_error ts (length ts - 1) = Some (window_max w).
Proof.
  unfold window_max. fold ts. apply nth_error_nth'.
  destruct Hok. unfold ts. lia.
Qed.

Lemma eta_at_ok (garbage x : R) (m : nat) :
  (S m < length ts)%nat ->
  nth m ts 0 <= x <= nth (S m) ts 0 ->
  exists e, eta_at w garbage x (Z.of_nat m) = Ok e /\ (e = x \/ e = garbage).
Proof.
  intros Hm [Hlo Hhi]. unfold eta_at. fold ts.
  assert (Hel : (length ts <= length (free_surface_elevation_sampled_ w))%nat)
    by (destruct Hok; assumption).
  rewrite (vget_Z_ok ts m (nth m ts 0)) by (apply nth_error_nth'; lia).
  cbn [bind]. replace (Z.of_nat m + 1)%Z with (Z.of_nat (S m)) by lia.
  rewrite (vget_Z_ok ts (S m) (nth (S m) ts 0)) by (apply nth_error_nth'; lia).
  cbn [bind].
  destruct (Reqb_spec x (nth m ts 0)) as [E1|N1].
  { exists (nth m ts 0); split; [reflexivity | left; congruence]. }
  destruct (Reqb_spec x (nth (S m) ts 0)) as [E2|N2].
  { exists (nth (S m) ts 0); split; [reflexivity | left; congruence]. }
  rewrite Rltb_true, Rltb_true by lra. cbn [andb].
  rewrite (vget_Z_ok _ m (nth m (free_surface_elevation_sampled_ w) 0))
    by (apply nth_error_nth'; lia).
  cbn [bind].
  rewrite (vget_Z_ok _ (S m) (nth (S m) (free_surface_elevation_sampled_ w) 0))
    by (apply nth_error_nth'; lia).
  cbn [bind]. exists garbage; split; [reflexivity | right; reflexivity].
Qed.

Lemma convolution_step_inside (vals : matrix) (widths : list R) (j : nat) (st : Z * R) :
  (forall k, (k < length grid)%nat ->
     exists col, nth_error vals k = Some col /\ (d < length col)%nat) ->
  (length grid <= length widths)%nat ->
  (j < length grid)%nat -> cursor_ok w grid time j st -> inside_window w (lag j) ->
  exists st',
    convolution_step indeterminate w grid vals widths (window_min w) (window_max w)
      (Z.of_nat b) (Z.of_nat d) time j st = Ok st'
    /\ cursor_ok w grid time (S j) st'.
Proof.
  intros Hcols Hwid Hj [m [Em [Hm Hnext]]] Hin. fold ts in Hm, Hnext.
  unfold convolution_step.
  rewrite (vget_nat_ok grid j (nth j grid 0)) by (apply nth_error_nth'; lia).
  cbn [bind]. fold (lag j). destruct Hin as [Hlo Hhi].
  rewrite Rleb_true, Rleb_true by assumption. cbn [andb].
  unfold cursor_walk_back. rewrite Em.
  destruct (Z.ltb_spec (Z.of_nat m) 0); [lia|]. rewrite Nat2Z.id. fold ts.
  destruct (walk_back_spec ts (window_min w) (lag j) history_front Hlo (S m))
    as [m' [Ew [Hm' [Hle Hgt]]]]; [lia|].
  rewrite Ew. cbn [bind].
  assert (Hup : lag j <= nth (S m') ts 0).
  { destruct (Nat.eq_dec m' m) as [->|Hne].
    - apply Hnext; [assumption | split; assumption].
    - left. apply Hgt. lia. }
  destruct (eta_at_ok (indeterminate (Z.of_nat b) (Z.of_nat d) time j) (lag j) m')
    as [e [Ee _]]; [lia | split; assumption |].
  rewrite Ee. cbn [bind].
  destruct (Hcols j Hj) as [col [Ec Hd]].
  unfold mat_get. rewrite (vget_Z_ok vals j col Ec). cbn [bind].
  rewrite (vget_Z_ok col d (nth d col 0)) by (apply nth_error_nth'; lia).
  cbn [bind].
  rewrite (vget_nat_ok widths j (nth j widths 0)) by (apply nth_error_nth'; lia).
  cbn [bind]. eexists; split; [reflexivity|].
  exists m'; cbn [fst]. split; [reflexivity|]. split; [fold ts; lia|].
  intros Hj' _. apply Rle_trans with (lag j); [|assumption].
  unfold lag. assert (nth j grid 0 <= nth (S j) grid 0).
  { apply Sorted_nth_le; [destruct Hok; assumption | lia]. }
  lra.
Qed.

Lemma convolution_step_outside (vals : matrix) (widths : list R) (j : nat) (st : Z * R) :
  (j < length grid)%nat -> ~ inside_window w (lag j) ->
  convolution_step indeterminate w grid vals widths (window_min w) (window_max w)
    (Z.of_nat b) (Z.of_nat d) time j st = Err WindowError.
Proof.
  intros Hj Hout. unfold convolution_step.
  rewrite (vget_nat_ok grid j (nth j grid 0)) by (apply nth_error_nth'; lia).
  cbn [bind]. fold (lag j).
  destruct (Rleb_spec (window_min w) (lag j)); cbn [andb]; [|reflexivity].
  destruct (Rleb_spec (lag j) (window_max w)); [|reflexivity].
  exfalso; apply Hout; split; assumption.
Qed.

Lemma inside_window_dec (x : R) : {inside_window w x} + {~ inside_window w x}.
Proof.
  unfold inside_window.
  destruct (Rle_dec (window_min w) x); [|right; tauto].
  destruct (Rle_dec x (window_max w)); [left; tauto | right; tauto].
Qed.

Lemma convolution_loop (vals : matrix) (widths : list R) (n start : nat) (st : Z * R) :
  (forall k, (k < length grid)%nat ->
     exists col, nth_error vals k = Some col /\ (d < length col)%nat) ->
  (length grid <= length widths)%nat ->
  (start + n <= length grid)%nat -> cursor_ok w grid time start st ->
  let run := for_from start n
               (convolution_step indeterminate w grid vals widths
                  (window_min w) (window_max w) (Z.of_nat b) (Z.of_nat d) time) st in
  ((forall j, (start <= j < start + n)%nat -> inside_window w (lag j)) -> is_ok run)
  /\ ((exists j, (start <= j < start + n)%nat /\ ~ inside_window w (lag j)) ->
      run = Err WindowError).
Proof.
  intros Hcols Hwid. revert start st; induction n as [|n IH]; intros start st Hn Hc run.
  - split; [intros _; exists st; reflexivity | intros [j [Hj _]]; lia].
  - subst run. cbn [for_from].
    destruct (inside_window_dec (lag start)) as [Hin|Hout].
    + destruct (convolution_step_inside vals widths start st Hcols Hwid
                  ltac:(lia) Hc Hin) as [st' [E Hc']].
      rewrite E. cbn [bind].
      destruct (IH (S start) st' ltac:(lia) Hc') as [IHok IHerr]. split.
      * intros Hall. apply IHok. intros j Hj; apply Hall; lia.
      * intros [j [Hj Hout]]. apply IHerr. exists j; split; [|assumption].
        destruct (Nat.eq_dec j start) as [->|]; [contradiction | lia].
    + rewrite (convolution_step_outside vals widths start st ltac:(lia) Hout).
      cbn [bind]. split.
      * intros Hall. exfalso; apply Hout, Hall; lia.
      * reflexivity.
Qed.

Lemma ExcitationConvolution_window :
  (lags_inside w grid time ->
     is_ok (ExcitationConvolution get_lower_index indeterminate w
              (Z.of_nat b) (Z.of_nat d) time))
  /\ (~ lags_inside w grid time ->
     ExcitationConvolution get_lower_index indeterminate w
       (Z.of_nat b) (Z.of_nat d) time = Err WindowError).
Proof.
  pose proof Hok as [Hg Hne Hgs [vals [Hv Hcols]] [widths [Hw Hwl]] [Hl2 Hl31] Hts Hel].
  unfold ExcitationConvolution.
  rewrite (vget_Z_ok _ _ _ Hg), (vget_Z_ok _ _ _ Hv), (vget_Z_ok _ _ _ Hw).
  cbn [bind]. fold ts.
  change (vget ts 0) with (vget ts (Z.of_nat 0)).
  rewrite (vget_Z_ok _ _ _ history_front). cbn [bind].
  replace (Z.of_nat (length ts) - 1)%Z with (Z.of_nat (length ts - 1)) by (unfold ts; lia).
  rewrite (vget_Z_ok _ _ _ history_back). cbn [bind].
  assert (Hpos : (0 < length grid)%nat).
  { pose proof (length_zero_iff_nil grid) as Hz.
    destruct (length grid); [exfalso; apply Hne, Hz; reflexivity | lia]. }
  change (vget grid 0) with (vget grid (Z.of_nat 0)).
  rewrite (vget_Z_ok grid 0 (nth 0 grid 0)) by (apply nth_error_nth'; exact Hpos).
  cbn [bind]. fold (lag 0).
  set (init := if Rleb (lag 0) (window_min w) then Ok 0%Z
               else if Rleb (window_max w) (lag 0)
                    then Ok (to_int (size_t_wrap (Z.of_nat (length ts) - 2)))
                    else get_lower_index (lag 0) ts).
  assert (Hinit : exists idx, init = Ok idx /\ cursor_ok w grid time 0 (idx, 0.0)).
  { unfold init. destruct (Rleb_spec (lag 0) (window_min w)) as [Hle|Hgt].
    - eexists; split; [reflexivity|]. exists 0%nat. cbn [fst].
      split; [reflexivity|]. split; [unfold ts; lia|].
      intros _ _. apply Rle_trans with (window_min w); [assumption|].
      unfold window_min. fold ts. apply Sorted_nth_le; [assumption | unfold ts; lia].
    - destruct (Rleb_spec (window_max w) (lag 0)) as [Hge|Hlt].
      + rewrite to_int_size_minus_2 by (unfold ts; lia).
        eexists; split; [reflexivity|]. exists (length ts - 2)%nat. cbn [fst].
        split; [reflexivity|]. split; [unfold ts; lia|].
        intros _ [_ Hhi]. replace (S (length ts - 2)) with (length ts - 1)%nat
          by (unfold ts; lia).
        exact Hhi.
      + destruct (Hcontract (lag 0) ts _ _ history_front history_back)
          as [i [E [Hi [_ Hup]]]]; [lra|].
        rewrite E. eexists; split; [reflexivity|]. exists i. cbn [fst].
        split; [reflexivity|]. split; [assumption|]. intros _ _. exact Hup. }
  destruct Hinit as [idx [Einit Hc0]]. rewrite Einit. cbn [bind]. unfold for_loop.
  destruct (convolution_loop vals widths (length grid) 0 (idx, 0.0) Hcols Hwl
              ltac:(lia) Hc0) as [Hall Hsome].
  split.
  - intros Hin. destruct Hall as [st E].
    + intros j Hj. unfold lags_inside in Hin. rewrite Forall_forall in Hin.
      apply Hin, nth_In. lia.
    + rewrite E. cbn [bind]. eexists; reflexivity.
  - intros Hnot. rewrite Hsome; [reflexivity|].
    unfold lags_inside in Hnot. apply neg_Forall_Exists_neg in Hnot.
    + apply Exists_nth in Hnot. destruct Hnot as [j [dflt [Hj Hout]]].
      exists j; split; [lia|]. unfold lag. now rewrite (nth_indep _ 0 dflt).
    + intros x. apply inside_window_dec.
Qed.

End WindowFacts.

(** *** The scan meets the contract of the bracket search *)

Lemma lower_index_scan_cons value a b rest i0 :
  lower_index_scan value (a :: b :: rest) i0
  = if Rleb a value && Rltb value b then Ok i0
    else lower_index_scan value (b :: rest) (i0 + 1).
Proof. reflexivity. Qed.

Lemma lower_index_scan_spec (value : R) (ticks : list R) :
  forall (i0 : Z) (first final : R),
    nth_error ticks 0 = Some first ->
    nth_error ticks (length ticks - 1) = Some final ->
    first <= value < final ->
    exists i, lower_index_scan value ticks i0 = Ok (i0 + Z.of_nat i)%Z
      /\ (S i < length ticks)%nat
      /\ nth i ticks 0 <= value <= nth (S i) ticks 0.
Proof.
  induction ticks as [|a rest IH]; intros i0 first final Hf Hl Hv; [discriminate|].
  simpl in Hf. injection Hf as ->.
  destruct rest as [|b rest'].
  - simpl in Hl. injection Hl as ->. lra.
  - rewrite lower_index_scan_cons.
    destruct (Rleb_spec first value) as [Hle|]; [|lra]. cbn [andb].
    destruct (Rltb_spec value b) as [Hlt|Hge].
    + exists 0%nat. split; [f_equal; lia|]. split; [simpl; lia|]. simpl. lra.
    + destruct (IH (i0 + 1)%Z b final) as [i [E [Hi Hb]]].
      * reflexivity.
      * replace (length (b :: rest') - 1)%nat with (length rest') by (simpl; lia).
        replace (length (first :: b :: rest') - 1)%nat with (S (length rest')) in Hl
          by (simpl; lia).
        exact Hl.
      * lra.
      * exists (S i). split; [rewrite E; f_equal; lia|].
        split; [simpl in *; lia|]. exact Hb.
Qed.

Lemma get_lower_index_scan_contract : lower_index_contract get_lower_index_scan.
Proof.
  intros value ticks first final Hf Hl Hv. unfold get_lower_index_scan.
  destruct (lower_index_scan_spec value ticks 0 first final Hf Hl ltac:(lra))
    as [i [E H]].
  exists i; split; [rewrite E; f_equal; lia | exact H].
Qed.

(** *** From one convolution to the force vector *)

Lemma GetForceAtTime_propagates g u (w : t) (time : R) (b d : nat) :
  (b < num_bodies_ w)%nat -> (d < 6)%nat ->
  is_err (ExcitationConvolution g u w (Z.of_nat b) (Z.of_nat d) time) ->
  is_err (GetForceAtTime g u w time).
Proof.
  intros Hb Hd [e He]. unfold GetForceAtTime.
  destruct (for_loop _ _ _) as [f0|e0]; cbn [bind]; [|exists e0; reflexivity].
  unfold for_loop. apply for_from_err with (k := b); [lia|].
  intros f1. apply for_from_err with (k := d); [lia|].
  intros f. rewrite He. exists e; reflexivity.
Qed.

Lemma cursor_walk_back_nonneg (w : t) (t_tau : R) (idx : Z) :
  inside_window w t_tau -> (0 <= idx)%Z ->
  match cursor_walk_back (free_surface_time_sampled_ w) t_tau idx with
  | Ok m => (0 <= m)%Z
  | Err e => nonneg_failure e
  end.
Proof.
  intros [Hlo _] Hidx. unfold cursor_walk_back.
  destruct (Z.ltb_spec idx 0); [lia|].
  unfold window_min in Hlo.
  destruct (free_surface_time_sampled_ w) as [|a ts] eqn:E.
  - cbn [walk_back]. unfold vget_nat. rewrite nth_error_nil. cbn [bind].
    intros i [= <-]. lia.
  - pose proof (walk_back_never_negative (a :: ts) a t_tau eq_refl Hlo
                  (S (Z.to_nat idx)) ltac:(lia)) as H1.
    destruct (walk_back _ _ _) as [m|e]; [exact H1|].
    destruct H1 as [i [-> Hi]]. intros k [= <-]. exact Hi.
Qed.

(** *** The three claims on the convolution *)

Lemma sea_example_table_ok : table_ok sea_example 0 0 [0; 1].
Proof.
  constructor.
  - reflexivity.
  - discriminate.
  - repeat constructor; lra.
  - eexists; split; [reflexivity|]. intros j Hj.
    destruct j as [|[|j]]; simpl in Hj; try lia;
      (eexists; split; [reflexivity | simpl; lia]).
  - eexists; split; [reflexivity | simpl; lia].
  - simpl; lia.
  - repeat constructor; lra.
  - simpl; lia.
Qed.

Lemma sea_example_lags_inside : lags_inside sea_example [0; 1] 3.
Proof.
  repeat constructor; unfold inside_window, window_min, window_max; simpl; lra.
Qed.

Lemma sea_example_lags_outside : ~ lags_inside sea_example [0; 1] 5.
Proof.
  intros H. inversion H as [|x l [_ Hx] _]; subst.
  unfold window_max in Hx; simpl in Hx; lra.
Qed.

(** C1, on [sea_example], body 0, degree of freedom 0.  At time 3 both lags
    (3 and 2) hit history samples: the source adds the sample times 3 and 2
    and returns 2.5, where the elevations 11 and 9 give 10.  At time 2.5 both
    lags (2.5 and 1.5) fall inside a bracket: the source adds what the
    uninitialised [eta_val] holds, whatever the elevations, where linear
    interpolation gives 9. *)
Theorem ExcitationConvolution_reads_times_for_elevations :
  (forall g u, ExcitationConvolution g u sea_example 0 0 3 = Ok 2.5)
  /\ spec_ForceAt sea_example 0 0 3 = Some 10
  /\ (forall u,
        ExcitationConvolution get_lower_index_scan u sea_example 0 0 2.5
        = Ok (0.0 + 1 * u 0%Z 0%Z 2.5 0%nat * 0.5 + 1 * u 0%Z 0%Z 2.5 1%nat * 0.5))
  /\ spec_ForceAt sea_example 0 0 2.5 = Some 9.
Proof.
  split; [|split; [|split]].
  - intros g u.
    unfold ExcitationConvolution, for_loop, convolution_step, cursor_walk_back,
      eta_at, mat_get.
    run_doubles. f_equal. lra.
  - unfold spec_ForceAt. run_doubles. f_equal. lra.
  - intros u.
    unfold ExcitationConvolution, for_loop, convolution_step, cursor_walk_back,
      eta_at, mat_get, get_lower_index_scan.
    run_doubles. reflexivity.
  - unfold spec_ForceAt. run_doubles. f_equal. lra.
Qed.

Lemma is_err_bind {A B : Type} (c : result A) (k : A -> result B) :
  is_err c -> is_err (bind c k).
Proof. intros [e ->]. exists e; reflexivity. Qed.

Lemma vget_ok_nth {A : Type} (v : list A) (i : Z) (x d : A) :
  vget v i = Ok x -> nth (Z.to_nat i) v d = x.
Proof.
  unfold vget. destruct (i <? 0)%Z; [discriminate|].
  destruct (nth_error v (Z.to_nat i)) as [y|] eqn:E; [|discriminate].
  intros [= <-]. now apply nth_error_nth.
Qed.

(** Whatever the tables, a lag outside the window leaves no value. *)
Lemma ExcitationConvolution_outside_fails
  (g : R -> list R -> result Z) (u : Z -> Z -> R -> nat -> R)
  (w : t) (b d : nat) (grid : list R) (time : R) :
  nth_error (ex_irf_time_sampled_ w) b = Some grid ->
  ~ lags_inside w grid time ->
  is_err (ExcitationConvolution g u w (Z.of_nat b) (Z.of_nat d) time).
Proof.
  intros Hgrid Hnot. unfold ExcitationConvolution.
  rewrite (vget_Z_ok _ _ _ Hgrid). cbn [bind].
  destruct (vget (ex_irf_sampled_ w) (Z.of_nat b)) as [vals|e]; cbn [bind];
    [|exists e; reflexivity].
  destruct (vget (ex_irf_width_sampled_ w) (Z.of_nat b)) as [widths|e]; cbn [bind];
    [|exists e; reflexivity].
  destruct (vget (free_surface_time_sampled_ w) 0) as [tmin|e] eqn:Emin; cbn [bind];
    [|exists e; reflexivity].
  destruct (vget (free_surface_time_sampled_ w)
              (Z.of_nat (length (free_surface_time_sampled_ w)) - 1))
    as [tmax|e] eqn:Emax; cbn [bind];
    [|exists e; reflexivity].
  destruct (vget grid 0) as [tau0|e]; cbn [bind]; [|exists e; reflexivity].
  match goal with |- is_err (idx <- ?init ;; _) =>
    destruct init as [idx|e]; cbn [bind]; [|exists e; reflexivity]
  end.
  apply is_err_bind. unfold for_loop.
  apply (vget_ok_nth _ _ _ 0) in Emin, Emax.
  replace (Z.to_nat (Z.of_nat (length (free_surface_time_sampled_ w)) - 1))
    with (length (free_surface_time_sampled_ w) - 1)%nat in Emax by lia.
  change (window_min w = tmin) in Emin. change (window_max w = tmax) in Emax.
  unfold lags_inside in Hnot. apply neg_Forall_Exists_neg in Hnot.
  2:{ intros x. unfold inside_window.
      destruct (Rle_dec (window_min w) (time - x)); [|right; tauto].
      destruct (Rle_dec (time - x) (window_max w)); [left; tauto | right; tauto]. }
  apply Exists_nth in Hnot. destruct Hnot as [j [dflt [Hj Hout]]].
  apply for_from_err with (k := j); [lia|].
  intros st. unfold convolution_step.
  rewrite (vget_nat_ok grid j (nth j grid dflt)) by (apply nth_error_nth'; exact Hj).
  cbn [bind]. subst tmin tmax.
  destruct (Rleb_spec (window_min w) (time - nth j grid dflt)); cbn [andb];
    [|exists WindowError; reflexivity].
  destruct (Rleb_spec (time - nth j grid dflt) (window_max w));
    [|exists WindowError; reflexivity].
  exfalso. apply Hout. split; assumption.
Qed.

(** C2: if some lag [time - tau_j] lies outside
    [[window_min, window_max]], the convolution returns no value, and neither
    does [GetForceAtTime] for the whole vector, whatever the tables hold.  On
    tables as the source expects them (ascending time vectors, a history of
    at least two samples, an IRF matrix and widths as long as the IRF grid),
    with a bracket search that meets its contract, the failure is the window
    error, and a query whose lags all lie inside returns a value: no error is
    raised. *)
Theorem ExcitationConvolution_window_error
  (g : R -> list R -> result Z) (u : Z -> Z -> R -> nat -> R)
  (w : t) (b d : nat) (grid : list R) (time : R) :
  nth_error (ex_irf_time_sampled_ w) b = Some grid ->
  (~ lags_inside w grid time ->
     is_err (ExcitationConvolution g u w (Z.of_nat b) (Z.of_nat d) time)
     /\ ((b < num_bodies_ w)%nat -> (d < 6)%nat ->
         is_err (GetForceAtTime g u w time)))
  /\ (table_ok w b d grid -> lower_index_contract g ->
      (~ lags_inside w grid time ->
         ExcitationConvolution g u w (Z.of_nat b) (Z.of_nat d) time
         = Err WindowError)
      /\ (lags_inside w grid time ->
          is_ok (ExcitationConvolution g u w (Z.of_nat b) (Z.of_nat d) time))).
Proof.
  intros Hgrid. split.
  - intros Hnot.
    pose proof (ExcitationConvolution_outside_fails g u w b d grid time Hgrid Hnot)
      as Herr.
    split; [exact Herr|].
    intros Hb Hd. exact (GetForceAtTime_propagates g u w time b d Hb Hd Herr).
  - intros Hok Hc.
    destruct (ExcitationConvolution_window g u w b d grid time Hok Hc) as [Hin Hout].
    split; assumption.
Qed.

Lemma ExcitationConvolution_window_error_witness :
  table_ok sea_example 0 0 [0; 1]
  /\ ExcitationConvolution get_lower_index_scan (fun _ _ _ _ => 0) sea_example 0 0 5
     = Err WindowError
  /\ is_err (GetForceAtTime get_lower_index_scan (fun _ _ _ _ => 0) sea_example 5)
  /\ is_ok (ExcitationConvolution get_lower_index_scan (fun _ _ _ _ => 0)
              sea_example 0 0 3).
Proof.
  split; [exact sea_example_table_ok|].
  destruct (ExcitationConvolution_window_error get_lower_index_scan
              (fun _ _ _ _ => 0) sea_example 0 0 [0; 1] 5 eq_refl) as [H5 T5].
  destruct (ExcitationConvolution_window_error get_lower_index_scan
              (fun _ _ _ _ => 0) sea_example 0 0 [0; 1] 3 eq_refl) as [_ T3].
  split; [|split].
  - apply (T5 sea_example_table_ok get_lower_index_scan_contract).
    exact sea_example_lags_outside.
  - apply (H5 sea_example_lags_outside); simpl; lia.
  - apply (T3 sea_example_table_ok get_lower_index_scan_contract).
    exact sea_example_lags_inside.
Defined.

(** C8, as the source has it: when every lag lies in the window (and the
    history has fewer than 2^31 samples, so that [size() - 2] fits an [int]),
    no read of the convolution is below index 0; in particular the walk-back
    loop, started at a cursor that is not negative, ends at an index that is
    not negative or fails above the end: the guard [tmin <= t_tau], with
    [tmin] the first history sample, stops the decrement at index 0. *)
Theorem walk_back_never_reads_below_zero
  (g : R -> list R -> result Z) (u : Z -> Z -> R -> nat -> R)
  (w : t) (b d : nat) (grid : list R) (time : R) :
  lower_index_contract g ->
  nth_error (ex_irf_time_sampled_ w) b = Some grid ->
  (Z.of_nat (length (free_surface_time_sampled_ w)) < 2 ^ 31)%Z ->
  lags_inside w grid time ->
  (forall i,
     ExcitationConvolution g u w (Z.of_nat b) (Z.of_nat d) time = Err (BadIndex i) ->
     (0 <= i)%Z)
  /\ (forall tau idx, In tau grid -> (0 <= idx)%Z ->
        match cursor_walk_back (free_surface_time_sampled_ w) (time - tau) idx with
        | Ok m => (0 <= m)%Z
        | Err e => nonneg_failure e
        end).
Proof.
  intros Hc Hgrid Hlen Hin. split.
  - intros i E.
    pose proof (ExcitationConvolution_nonneg_failure g u w b d time grid
                  Hc Hgrid Hlen Hin) as H.
    rewrite E in H. apply H. reflexivity.
  - intros tau idx Htau Hidx. apply cursor_walk_back_nonneg; [|exact Hidx].
    unfold lags_inside in Hin. rewrite Forall_forall in Hin. now apply Hin.
Qed.

Lemma walk_back_never_reads_below_zero_witness :
  lags_inside sea_example [0; 1] 3
  /\ forall i,
       ExcitationConvolution get_lower_index_scan (fun _ _ _ _ => 0)
         sea_example 0 0 3 = Err (BadIndex i) ->
       (0 <= i)%Z.
Proof.
  split; [exact sea_example_lags_inside|].
  apply (walk_back_never_reads_below_zero get_lower_index_scan (fun _ _ _ _ => 0)
           sea_example 0 0 [0; 1] 3 get_lower_index_scan_contract eq_refl).
  - simpl; lia.
  - exact sea_example_lags_inside.
Defined.

(** C8 as worded fails: no ascending history, ascending IRF grid and query
    time with every lag in the window make the convolution read the history
    below index 0. *)
Lemma no_query_reads_below_zero :
  ~ (exists (g : R -> list R -> result Z) (u : Z -> Z -> R -> nat -> R)
            (w : t) (b d : nat) (grid : list R) (time : R) (i : Z),
       lower_index_contract g
       /\ Sorted Rle (free_surface_time_sampled_ w)
       /\ Sorted Rle grid
       /\ nth_error (ex_irf_time_sampled_ w) b = Some grid
       /\ (Z.of_nat (length (free_surface_time_sampled_ w)) < 2 ^ 31)%Z
       /\ lags_inside w grid time
       /\ ExcitationConvolution g u w (Z.of_nat b) (Z.of_nat d) time
          = Err (BadIndex i)
       /\ (i < 0)%Z).
Proof.
  intros [g [u [w [b [d [grid [time [i [Hc [_ [_ [Hgrid [Hlen [Hin [E Hi]]]]]]]]]]]]]]].
  pose proof (ExcitationConvolution_nonneg_failure g u w b d time grid
                Hc Hgrid Hlen Hin) as H.
  rewrite E in H. specialize (H i eq_refl). lia.
Qed.

(** ** The synthesized history and its window *)

Lemma irf_bounds_step_spec (acc : R * R) (grid : list R) :
  grid <> [] ->
  exists mn mx,
    irf_bounds_step acc grid = Ok (mn, mx)
    /\ mn <= fst acc /\ snd acc <= mx
    /\ mn <= nth 0 grid 0 <= mx
    /\ mn <= nth (length grid - 1) grid 0 <= mx.
Proof.
  intros Hne. unfold irf_bounds_step.
  assert (Hpos : (0 < length grid)%nat).
  { pose proof (length_zero_iff_nil grid) as Hz.
    destruct (length grid); [exfalso; apply Hne, Hz; reflexivity | lia]. }
  change (vget grid 0) with (vget grid (Z.of_nat 0)).
  rewrite (vget_Z_ok grid 0 (nth 0 grid 0)) by (apply nth_error_nth'; lia).
  cbn [bind].
  replace (Z.of_nat (length grid) - 1)%Z with (Z.of_nat (length grid - 1)) by lia.
  rewrite (vget_Z_ok grid _ (nth (length grid - 1) grid 0))
    by (apply nth_error_nth'; lia).
  cbn [bind]. destruct acc as [mn0 mx0]. cbn [fst snd].
  set (a := nth 0 grid 0). set (z := nth (length grid - 1) grid 0).
  eexists; eexists; split; [reflexivity|].
  destruct (Rltb_spec a mn0), (Rltb_spec mx0 a);
    repeat match goal with
    | |- context [Rltb ?x ?y] => destruct (Rltb_spec x y)
    end; lra.
Qed.

Lemma irf_bounds_spec (grids : list (list R)) :
  Forall (fun grid => grid <> []) grids ->
  forall acc, fst acc <= snd acc ->
  exists mn mx,
    irf_bounds grids acc = Ok (mn, mx)
    /\ mn <= fst acc /\ snd acc <= mx
    /\ Forall (fun grid => mn <= nth 0 grid 0 <= mx
                           /\ mn <= nth (length grid - 1) grid 0 <= mx) grids.
Proof.
  induction 1 as [|grid grids Hne Hall IH]; intros acc Hacc; cbn [irf_bounds].
  - exists (fst acc), (snd acc). destruct acc; cbn. repeat split; try lra. constructor.
  - destruct (irf_bounds_step_spec acc grid Hne) as [mn1 [mx1 [E [H1 [H2 [H3 H4]]]]]].
    rewrite E. cbn [bind].
    destruct (IH (mn1, mx1)) as [mn [mx [E' [H1' [H2' Hall']]]]]; [cbn; lra|].
    cbn [fst snd] in *. exists mn, mx. split; [assumption|].
    split; [lra|]. split; [lra|]. constructor; [lra | assumption].
Qed.

Section WindowCoverage.

Variable w : t.
Hypothesis Hdt : 0 < simulation_dt_ w <= simulation_duration_ w.
Hypothesis Hgrids :
  Forall (fun grid => grid <> [] /\ Sorted Rle grid) (ex_irf_time_sampled_ w).

Lemma num_timesteps_ge_2 :
  (2 <= trunc_int (simulation_duration_ w / simulation_dt_ w) + 1)%Z.
Proof.
  assert (1 <= simulation_duration_ w / simulation_dt_ w).
  { apply (Rmult_le_reg_r (simulation_dt_ w)); [lra|].
    unfold Rdiv. rewrite Rmult_assoc, Rinv_l by lra. lra. }
  pose proof (trunc_int_ge_1 _ H). lia.
Qed.

Lemma free_surface_times_window :
  exists time_array times t_irf_min t_irf_max,
    free_surface_times w = Ok (time_array, times)
    /\ irf_bounds (ex_irf_time_sampled_ w) (0.0, 0.0) = Ok (t_irf_min, t_irf_max)
    /\ length time_array = length times
    /\ Z.of_nat (length times)
       = (trunc_int (simulation_duration_ w / simulation_dt_ w) + 1)%Z
    /\ nth 0 times 0 = - t_irf_max
    /\ nth (length times - 1) times 0
       = simulation_duration_ w + 2 * (t_irf_max - t_irf_min) - t_irf_max
    /\ t_irf_min <= 0 <= t_irf_max
    /\ Forall (fun grid => forall tau, In tau grid -> t_irf_min <= tau <= t_irf_max)
         (ex_irf_time_sampled_ w).
Proof.
  unfold free_surface_times.
  destruct (irf_bounds_spec (ex_irf_time_sampled_ w)) with (acc := (0.0, 0.0))
    as [mn [mx [E [H1 [H2 Hall]]]]].
  - eapply Forall_impl; [|exact Hgrids]. intros g [Hg _]; exact Hg.
  - cbn; lra.
  - rewrite E. cbn [bind fst snd] in *.
    pose proof num_timesteps_ge_2 as Hn.
    set (n := (trunc_int (simulation_duration_ w / simulation_dt_ w) + 1)%Z) in *.
    set (hi := simulation_duration_ w + 2 * (mx - mn)).
    eexists; eexists; exists mn, mx. split; [reflexivity|]. split; [reflexivity|].
    split; [now rewrite length_map|].
    split; [rewrite length_map, LinSpaced_length; lia|].
    split.
    { rewrite (nth_map_lt _ _ _ 0) by (rewrite LinSpaced_length; lia).
      rewrite (nth_error_nth _ _ 0 (LinSpaced_first n 0 hi Hn)). lra. }
    split.
    { rewrite length_map, LinSpaced_length.
      rewrite (nth_map_lt _ _ _ 0) by (rewrite LinSpaced_length; lia).
      rewrite (nth_error_nth _ _ 0 (LinSpaced_last n 0 hi Hn)). unfold hi. lra. }
    split; [lra|].
    rewrite Forall_forall in *. intros grid Hin tau Htau.
    destruct (Hgrids grid Hin) as [_ HS]. destruct (Hall grid Hin) as [Ha Hz].
    pose proof (Sorted_between grid tau HS Htau). lra.
Qed.

End WindowCoverage.

Lemma apply_ramp_ok (w : t) (eta : list R) :
  (ramp_duration_ w <= 0
   \/ (Z.to_nat (trunc_int (ramp_duration_ w / simulation_dt_ w) + 1) <= length eta)%nat) ->
  exists eta', apply_ramp w eta = Ok eta' /\ length eta' = length eta.
Proof.
  intros H. unfold apply_ramp.
  destruct (Rltb_spec 0.0 (ramp_duration_ w)) as [Hpos|Hneg].
  2:{ exists eta; split; reflexivity. }
  destruct H as [H|H]; [lra|].
  set (ramp := LinSpaced (trunc_int (ramp_duration_ w / simulation_dt_ w) + 1) 0.0 1.0).
  assert (Hr : (length ramp <= length eta)%nat)
    by (unfold ramp; rewrite LinSpaced_length; exact H).
  match goal with |- exists eta', for_loop ?n ?body ?s = _ /\ _ =>
    destruct (for_loop_inv (fun _ (e : list R) => length e = length eta) body n s)
      as [eta' [E L]]
  end.
  - reflexivity.
  - intros i e Hi Le.
    rewrite (vget_nat_ok e i (nth i e 0)) by (apply nth_error_nth'; lia).
    cbn [bind].
    rewrite (vget_nat_ok ramp i (nth i ramp 0)) by (apply nth_error_nth'; lia).
    cbn [bind]. unfold vset. destruct (Nat.ltb_spec i (length e)); [|lia].
    eexists; split; [reflexivity|]. now rewrite upd_length.
  - exists eta'; split; assumption.
Qed.

Lemma CreateSpectrum_fields (w : t) :
  let w1 := CreateSpectrum w in
  simulation_dt_ w1 = simulation_dt_ w
  /\ simulation_duration_ w1 = simulation_duration_ w
  /\ ramp_duration_ w1 = ramp_duration_ w
  /\ ex_irf_time_sampled_ w1 = ex_irf_time_sampled_ w
  /\ length (spectrum_frequencies_ w1) = 1000%nat
  /\ length (spectral_densities_ w1) = 1000%nat.
Proof.
  unfold CreateSpectrum, JONSWAPSpectrumHz, PiersonMoskowitzSpectrumHz.
  cbn [set_spectrum simulation_dt_ simulation_duration_ ramp_duration_
       ex_irf_time_sampled_ spectrum_frequencies_ spectral_densities_].
  repeat split.
  - rewrite sort_doubles_length, LinSpaced_length. reflexivity.
  - rewrite length_map, length_combine, length_map, Nat.min_id.
    rewrite sort_doubles_length, LinSpaced_length. reflexivity.
Qed.



(** ** Resampling of the impulse responses *)

Lemma CalculateWidthIRF_vectors_spec (n : nat) (times widths : list (list R)) :
  (n <= length times)%nat -> (n <= length widths)%nat ->
  exists ws,
    CalculateWidthIRF_vectors n times widths = Ok ws
    /\ length ws = length widths
    /\ (forall b, (b < n)%nat -> nth_error ws b = Some (widths_of (nth b times [])))
    /\ (forall b, (n <= b)%nat -> nth_error ws b = nth_error widths b).
Proof.
  intros Ht Hw. unfold CalculateWidthIRF_vectors.
  match goal with |- exists ws, for_loop n ?body ?s = _ /\ _ =>
    destruct (for_loop_inv
      (fun k (ws : list (list R)) =>
         length ws = length widths
         /\ (forall b, (b < k)%nat -> nth_error ws b = Some (widths_of (nth b times [])))
         /\ (forall b, (k <= b)%nat -> nth_error ws b = nth_error widths b))
      body n s) as [ws [E H]]
  end.
  - repeat split; intros; lia || reflexivity.
  - intros i ws Hi [L [P Q]].
    rewrite (vget_nat_ok times i (nth i times [])) by (apply nth_error_nth'; lia).
    cbn [bind]. unfold vset. destruct (Nat.ltb_spec i (length ws)); [|lia].
    eexists; split; [reflexivity|]. split; [now rewrite upd_length|]. split.
    + intros b Hb. rewrite nth_error_upd by lia.
      destruct (Nat.eqb_spec b i) as [->|]; [reflexivity | apply P; lia].
    + intros b Hb. rewrite nth_error_upd by lia.
      destruct (Nat.eqb_spec b i); [lia | apply Q; lia].
  - exists ws; split; [assumption | exact H].
Qed.

Section ResampleFacts.

Variable SplineInterpolate : matrix -> Z -> list R -> R -> list R.
Variable dt : R.
Variable w0 : t.
Hypothesis Hsized :
  (num_bodies_ w0 <= length (ex_irf_time_sampled_ w0))%nat
  /\ (num_bodies_ w0 <= length (ex_irf_width_sampled_ w0))%nat
  /\ (num_bodies_ w0 <= length (ex_irf_sampled_ w0))%nat.
Hypothesis Hgrids :
  forall b, (b < num_bodies_ w0)%nat -> nth b (ex_irf_time_sampled_ w0) [] <> [].

Let old_grid (b : nat) := nth b (ex_irf_time_sampled_ w0) [].
Let old_vals (b : nat) := nth b (ex_irf_sampled_ w0) [].

Lemma resample_body_step (k : nat) (w : t) :
  (k < num_bodies_ w0)%nat -> resampled_upto SplineInterpolate dt w0 k w ->
  exists w', resample_body SplineInterpolate dt k w = Ok w'
             /\ resampled_upto SplineInterpolate dt w0 (S k) w'.
Proof.
  intros Hk [Hn [Lt [Lw [Lv [Hdone [Htodo Hwid]]]]]].
  destruct Hsized as [St [Sw Sv]].
  destruct (Htodo k (le_n k)) as [Et Ev].
  unfold resample_body.
  assert (Egrid : nth_error (ex_irf_time_sampled_ w) k = Some (old_grid k)).
  { rewrite Et. apply nth_error_nth'. lia. }
  assert (Evals : nth_error (ex_irf_sampled_ w) k = Some (old_vals k)).
  { rewrite Ev. apply nth_error_nth'. lia. }
  rewrite (vget_nat_ok _ _ _ Egrid). cbn [bind].
  rewrite (vget_nat_ok _ k (nth k (ex_irf_width_sampled_ w) []))
    by (apply nth_error_nth'; lia).
  cbn [bind]. rewrite (vget_nat_ok _ _ _ Evals). cbn [bind].
  assert (Hpos : (0 < length (old_grid k))%nat)
    by (apply nonempty_length, Hgrids, Hk).
  rewrite (vget_front (old_grid k) 0 Hpos). cbn [bind].
  rewrite (vget_back (old_grid k) 0 Hpos). cbn [bind].
  fold (resampled_count dt (old_grid k)). fold (resampled_grid dt (old_grid k)).
  unfold vset at 1. destruct (Nat.ltb_spec k (length (ex_irf_time_sampled_ w))); [|lia].
  cbn [bind]. unfold CalculateWidthIRF.
  cbn [set_irf num_bodies_ ex_irf_time_sampled_ ex_irf_width_sampled_ ex_irf_sampled_].
  destruct (CalculateWidthIRF_vectors_spec (num_bodies_ w)
              (upd (ex_irf_time_sampled_ w) k (resampled_grid dt (old_grid k)))
              (ex_irf_width_sampled_ w)) as [ws [Ews [Lws [Pws _]]]].
  { rewrite upd_length. lia. }
  { lia. }
  rewrite Ews. cbn [bind set_irf ex_irf_sampled_ ex_irf_time_sampled_
                    ex_irf_width_sampled_].
  unfold vset. destruct (Nat.ltb_spec k (length (ex_irf_sampled_ w))); [|lia].
  cbn [bind]. eexists; split; [reflexivity|].
  unfold resampled_upto.
  cbn [set_irf num_bodies_ ex_irf_time_sampled_ ex_irf_width_sampled_ ex_irf_sampled_].
  rewrite !upd_length.
  split; [exact Hn|]. split; [exact Lt|]. split; [lia|]. split; [exact Lv|].
  split; [|split].
  - intros b Hb. rewrite !nth_error_upd by lia.
    destruct (Nat.eqb_spec b k) as [->|Hne]; [split; reflexivity|]. apply Hdone; lia.
  - intros b Hb. rewrite !nth_error_upd_other by lia. apply Htodo; lia.
  - rewrite Hn in Pws. intros _ b Hb. apply Pws. assumption.
Qed.

Lemma ResampleIRF_spec :
  exists w', ResampleIRF SplineInterpolate w0 dt = Ok w'
             /\ resampled_upto SplineInterpolate dt w0 (num_bodies_ w0) w'.
Proof.
  unfold ResampleIRF.
  apply (for_loop_inv (resampled_upto SplineInterpolate dt w0)).
  - unfold resampled_upto. repeat split; try reflexivity; intros; lia.
  - intros i w Hi Hw. apply resample_body_step; assumption.
Qed.

End ResampleFacts.

Lemma resampled_grid_shape (dt : R) (grid : list R) :
  let count := resampled_count dt grid in
  let t0 := nth 0 grid 0 in
  let t1 := nth (length grid - 1) grid 0 in
  let grid' := resampled_grid dt grid in
  length grid' = Z.to_nat count
  /\ ((2 <= count)%Z ->
      nth_error grid' 0 = Some t0
      /\ nth_error grid' (length grid' - 1) = Some t1
      /\ forall i, (S i < length grid')%nat ->
           nth (S i) grid' 0 - nth i grid' 0 = (t1 - t0) / (IZR count - 1)).
Proof.
  intros count t0 t1 grid'. unfold grid', resampled_grid. fold count t0 t1.
  rewrite LinSpaced_length. split; [reflexivity|]. intros Hc.
  split; [now apply LinSpaced_first|]. split; [now apply LinSpaced_last|].
  intros i Hi.
  rewrite (nth_error_nth _ _ 0 (LinSpaced_nth count t0 t1 (S i) Hc Hi)).
  rewrite (nth_error_nth _ _ 0 (LinSpaced_nth count t0 t1 i Hc ltac:(lia))).
  rewrite S_INR. lra.
Qed.

(** C5, as the source has it: on tables that hold every body and nonempty old
    grids, [ResampleIRF] returns; for each body the new time grid has
    [ceil((t1 - t0) / dt)] points; when that count is at least 2 its first
    point is [t0], its last point is [t1] and consecutive points are
    [(t1 - t0) / (count - 1)] apart; the IRF matrix has one column per new
    point and the widths are those of the new grid. *)
Theorem ResampleIRF_replaces_grid_values_widths
  (SplineInterpolate : matrix -> Z -> list R -> R -> list R) (w : t) (dt : R) :
  (num_bodies_ w <= length (ex_irf_time_sampled_ w))%nat
  /\ (num_bodies_ w <= length (ex_irf_width_sampled_ w))%nat
  /\ (num_bodies_ w <= length (ex_irf_sampled_ w))%nat ->
  (forall b, (b < num_bodies_ w)%nat -> nth b (ex_irf_time_sampled_ w) [] <> []) ->
  exists w',
    ResampleIRF SplineInterpolate w dt = Ok w'
    /\ forall b, (b < num_bodies_ w)%nat ->
         let grid := nth b (ex_irf_time_sampled_ w) [] in
         let count := resampled_count dt grid in
         let t0 := nth 0 grid 0 in
         let t1 := nth (length grid - 1) grid 0 in
         exists grid' vals',
           nth_error (ex_irf_time_sampled_ w') b = Some grid'
           /\ nth_error (ex_irf_sampled_ w') b = Some vals'
           /\ nth_error (ex_irf_width_sampled_ w') b = Some (widths_of grid')
           /\ grid' = LinSpaced count t0 t1
           /\ length grid' = Z.to_nat count
           /\ length vals' = length grid'
           /\ length (widths_of grid') = length grid'
           /\ ((2 <= count)%Z ->
               nth_error grid' 0 = Some t0
               /\ nth_error grid' (length grid' - 1) = Some t1
               /\ forall i, (S i < length grid')%nat ->
                    nth (S i) grid' 0 - nth i grid' 0 = (t1 - t0) / (IZR count - 1)).
Proof.
  intros Hsized Hgrids.
  destruct (ResampleIRF_spec SplineInterpolate dt w Hsized Hgrids)
    as [w' [E [Hn [Lt [Lw [Lv [Hdone [_ Hwid]]]]]]]].
  exists w'. split; [exact E|]. intros b Hb grid count t0 t1.
  destruct (Hdone b Hb) as [Et Ev].
  exists (resampled_grid dt grid), (resampled_values SplineInterpolate dt grid
                                      (nth b (ex_irf_sampled_ w) [])).
  destruct (resampled_grid_shape dt grid) as [Hl Hshape].
  split; [exact Et|]. split; [exact Ev|]. split.
  { rewrite (Hwid ltac:(lia) b Hb). now rewrite (nth_error_nth _ _ _ Et). }
  split; [reflexivity|]. split; [exact Hl|]. split.
  { unfold resampled_values. rewrite length_map, LinSpaced_length. lia. }
  split.
  { unfold widths_of. now rewrite length_map, length_seq. }
  exact Hshape.
Qed.

Lemma sea_example_resampled (dt : R) :
  exists w',
    ResampleIRF flat_spline sea_example dt = Ok w'
    /\ nth_error (ex_irf_time_sampled_ w') 0 = Some (resampled_grid dt [0; 1]).
Proof.
  destruct (ResampleIRF_spec flat_spline dt sea_example) as [w' [E H]].
  - simpl; lia.
  - intros [|b] Hb; simpl in *; [discriminate | lia].
  - exists w'. split; [exact E|].
    destruct H as [_ [_ [_ [_ [Hdone _]]]]]. apply (Hdone 0%nat). simpl; lia.
Qed.

Lemma ResampleIRF_replaces_grid_values_widths_witness :
  exists w' grid',
    ResampleIRF flat_spline sea_example 0.5 = Ok w'
    /\ nth_error (ex_irf_time_sampled_ w') 0 = Some grid'
    /\ nth_error (ex_irf_width_sampled_ w') 0 = Some (widths_of grid').
Proof.
  destruct (ResampleIRF_replaces_grid_values_widths flat_spline sea_example 0.5)
    as [w' [E H]].
  - simpl; lia.
  - intros [|b] Hb; simpl in *; [discriminate | lia].
  - destruct (H 0%nat ltac:(simpl; lia)) as [grid' [vals' [Et [_ [Ew _]]]]].
    exists w', grid'. split; [exact E|]. split; [exact Et | exact Ew].
Defined.

(** C5 as worded fails.  The IRF grid of [sea_example] runs from 0 to 1 and
    [dt = 0.5] divides that range exactly, yet the resampled grid has two
    points, one apart.  With [dt = 2] the count is 1 and the grid is the
    single point 1: the start 0 is lost. *)
Lemma ResampleIRF_not_as_specified :
  ~ resample_as_specified
  /\ (exists w' grid',
        ResampleIRF flat_spline sea_example 0.5 = Ok w'
        /\ nth_error (ex_irf_time_sampled_ w') 0 = Some grid'
        /\ length grid' = 2%nat
        /\ nth 1 grid' 0 - nth 0 grid' 0 = 1)
  /\ (exists w',
        ResampleIRF flat_spline sea_example 2 = Ok w'
        /\ nth_error (ex_irf_time_sampled_ w') 0 = Some [1]).
Proof.
  assert (Hcount : resampled_count 0.5 [0; 1] = 2%Z).
  { unfold resampled_count. simpl.
    replace ((1 - 0) / 0.5) with (IZR 2) by lra. apply ceilZ_IZR. }
  destruct (resampled_grid_shape 0.5 [0; 1]) as [Hl Hshape].
  rewrite Hcount in Hl, Hshape. destruct (Hshape ltac:(lia)) as [_ [_ Hstep]].
  specialize (Hstep 0%nat ltac:(rewrite Hl; simpl; lia)).
  destruct (sea_example_resampled 0.5) as [w' [E Et]].
  split; [|split].
  - intros H.
    specialize (H flat_spline sea_example w' 0.5 0%nat ltac:(lra) ltac:(simpl; lia) E).
    cbv zeta in H. destruct H as [_ [_ [_ [_ Hdt]]]].
    rewrite (nth_error_nth _ _ [] Et) in Hdt.
    specialize (Hdt ltac:(exists 2%Z; simpl; lra) 0%nat ltac:(rewrite Hl; simpl; lia)).
    rewrite Hstep in Hdt. simpl in Hdt. lra.
  - exists w', (resampled_grid 0.5 [0; 1]). split; [exact E|]. split; [exact Et|].
    split; [rewrite Hl; reflexivity|]. rewrite Hstep. simpl. lra.
  - destruct (sea_example_resampled 2) as [w2 [E2 Et2]].
    exists w2. split; [exact E2|]. rewrite Et2. f_equal.
    unfold resampled_grid, resampled_count. simpl.
    assert (Hc : ceilZ ((1 - 0) / 2) = 1%Z).
    { unfold ceilZ. rewrite <- (Int_part_spec (- ((1 - 0) / 2)) (-1)%Z); [lia | lra]. }
    rewrite Hc. reflexivity.
Qed.

(** * Part III: further properties *)

(** ** Still water and regular waves *)

Lemma upd_same_value {A : Type} (v : list A) (i : nat) (x : A) :
  nth_error v i = Some x -> upd v i x = v.
Proof.
  revert i; induction v as [|h rest IH]; intros [|i] H; simpl in *;
    try discriminate; [congruence|].
  f_equal. now apply IH.
Qed.

Lemma zero_fill_loop (m k start : nat) :
  (start + k <= m)%nat ->
  for_from start k (fun i f => vset f i 0) (repeat 0 m) = Ok (repeat 0 m).
Proof.
  revert start; induction k as [|k IH]; intros start H; simpl; [reflexivity|].
  unfold vset. rewrite repeat_length.
  destruct (Nat.ltb_spec start m); [|lia]. cbn [bind].
  rewrite upd_same_value by (apply nth_error_repeat; lia).
  apply IH. lia.
Qed.

(** X1: The still-water force is the zero vector with six entries per body, at
    every time. *)
Theorem NoWave_force_is_zero (num_bodies_ : nat) (time : R) :
  NoWave.GetForceAtTime num_bodies_ time = Ok (repeat 0 (6 * num_bodies_)).
Proof.
  unfold NoWave.GetForceAtTime, for_loop.
  replace (num_bodies_ * 6)%nat with (6 * num_bodies_)%nat by lia.
  apply zero_fill_loop. lia.
Qed.

Lemma for_loop_first_fails {St : Type} (body : nat -> St -> result St)
  (n : nat) (s : St) (e : failure) :
  (0 < n)%nat -> body 0%nat s = Err e -> for_loop n body s = Err e.
Proof.
  intros Hn Hb. unfold for_loop. destruct n; [lia|]. simpl. now rewrite Hb.
Qed.

Lemma floorZ_IZR (z : Z) : floorZ (IZR z) = z.
Proof. unfold floorZ. symmetry. apply Int_part_spec. lra. Qed.

(** X2: A regular wave at the last tabulated frequency, or below the first one,
    makes [Initialize] read a magnitude bin that does not exist: bin [N] in
    the first case, bin [-1] in the second. *)
Theorem RegularWave_Initialize_outside_table
  (w : RegularWave.t) (N : nat) (omega_max : R) :
  (0 < RegularWave.num_bodies_ w)%nat -> (0 < N)%nat -> 0 < omega_max ->
  first_body_bins w N omega_max ->
  (RegularWave.regular_wave_omega_ w = omega_max ->
     RegularWave.Initialize w = Err (BadIndex (Z.of_nat N)))
  /\ (0 < RegularWave.regular_wave_omega_ w < omega_max / INR N ->
      RegularWave.Initialize w = Err (BadIndex (-1))).
Proof.
  intros Hn HN Hmax [info [infos [bins [modes [dofs [Hw [Hfl [Hlast [Hmag Hbins]]]]]]]]].
  assert (HNR : 0 < INR N) by (apply lt_0_INR; exact HN).
  assert (Hdelta : RegularWave.GetOmegaDelta w = Ok (omega_max / INR N)).
  { unfold RegularWave.GetOmegaDelta. rewrite Hw. cbn [vget_nat nth_error bind].
    rewrite (vget_back (RegularWave.freq_list info) 0) by lia.
    cbn [bind]. rewrite Hfl, Hlast. reflexivity. }
  assert (Hstep : forall x e,
    RegularWave.GetExcitationMagInterp w 0 0 0 x = Err e ->
    RegularWave.regular_wave_omega_ w / (omega_max / INR N) - 1 = x ->
    RegularWave.Initialize w = Err e).
  { intros x e Hx Hidx. unfold RegularWave.Initialize.
    rewrite Hdelta. cbn [bind]. rewrite Hidx.
    rewrite (for_loop_first_fails _ _ _ e); [reflexivity | exact Hn |].
    apply for_loop_first_fails; [lia|].
    change (Z.of_nat 0) with 0%Z. rewrite Hx. reflexivity. }
  split.
  - intros Homega. apply (Hstep (IZR (Z.of_nat N - 1))).
    + unfold RegularWave.GetExcitationMagInterp.
      rewrite floorZ_IZR, Hw. cbn [vget Z.ltb Z.compare Z.to_nat nth_error bind].
      unfold RegularWave.tensor_get. rewrite Hmag.
      cbn [vget Z.ltb Z.compare Z.to_nat nth_error bind].
      replace (Z.of_nat N - 1)%Z with (Z.of_nat (N - 1)) by lia.
      rewrite (vget_Z_ok bins (N - 1) (nth (N - 1) bins 0))
        by (apply nth_error_nth'; lia).
      cbn [bind]. replace (Z.of_nat (N - 1) + 1)%Z with (Z.of_nat N) by lia.
      rewrite vget_of_nat. unfold vget_nat.
      rewrite (proj2 (nth_error_None bins N)) by lia. reflexivity.
    + rewrite Homega, minus_IZR, <- INR_IZR_INZ. field. split; lra.
  - intros [Hlo Hhi].
    set (x := RegularWave.regular_wave_omega_ w / (omega_max / INR N) - 1).
    assert (Hx : -1 < x < 0).
    { unfold x.
      assert (Hd : 0 < omega_max / INR N) by (apply Rdiv_lt_0_compat; lra).
      assert (0 < RegularWave.regular_wave_omega_ w / (omega_max / INR N) < 1).
      { split; [apply Rdiv_lt_0_compat; lra|].
        apply (Rmult_lt_reg_r (omega_max / INR N)); [exact Hd|].
        unfold Rdiv at 1. rewrite Rmult_assoc, Rinv_l by lra. lra. }
      lra. }
    assert (Hfloor : floorZ x = (-1)%Z).
    { unfold floorZ. symmetry. apply Int_part_spec. simpl. lra. }
    apply (Hstep x); [|reflexivity].
    unfold RegularWave.GetExcitationMagInterp.
    rewrite Hfloor, Hw. cbn [vget Z.ltb Z.compare Z.to_nat nth_error bind].
    unfold RegularWave.tensor_get. rewrite Hmag.
    cbn [vget Z.ltb Z.compare Z.to_nat nth_error bind]. reflexivity.
Qed.

Lemma RegularWave_Initialize_outside_table_witness :
  RegularWave.Initialize (regular_example 3) = Err (BadIndex 3)
  /\ RegularWave.Initialize (regular_example 0.5) = Err (BadIndex (-1)).
Proof.
  assert (Hb : forall omega, first_body_bins (regular_example omega) 3 3).
  { intros omega. exists
      {| RegularWave.freq_list := [1; 2; 3];
         RegularWave.excitation_mag_matrix := repeat [[1; 2; 4]] 6;
         RegularWave.excitation_phase_matrix := repeat [[0; 0.5; 1]] 6 |},
      [], [1; 2; 4], [], (repeat [[1; 2; 4]] 5).
    repeat split. }
  split.
  - apply (RegularWave_Initialize_outside_table (regular_example 3) 3 3);
      [simpl; lia | lia | lra | apply Hb | reflexivity].
  - apply (RegularWave_Initialize_outside_table (regular_example 0.5) 3 3);
      [simpl; lia | lia | lra | apply Hb | simpl; lra].
Defined.

(** X3: Between two existing bins the interpolated magnitude and phase are
    returned and lie between the two bin values; at a whole-numbered index
    they are the value of that bin. *)
Theorem RegularWave_interpolation_between_bins
  (w : RegularWave.t) (b i j : Z) (x : R) (info : RegularWave.RegularWaveInfo)
  (m_lo m_hi p_lo p_hi : R) :
  vget (RegularWave.wave_info_ w) b = Ok info ->
  RegularWave.tensor_get (RegularWave.excitation_mag_matrix info) i j (floorZ x)
    = Ok m_lo ->
  RegularWave.tensor_get (RegularWave.excitation_mag_matrix info) i j (floorZ x + 1)
    = Ok m_hi ->
  RegularWave.tensor_get (RegularWave.excitation_phase_matrix info) i j (floorZ x)
    = Ok p_lo ->
  RegularWave.tensor_get (RegularWave.excitation_phase_matrix info) i j (floorZ x + 1)
    = Ok p_hi ->
  exists m p,
    RegularWave.GetExcitationMagInterp w b i j x = Ok m
    /\ RegularWave.GetExcitationPhaseInterp w b i j x = Ok p
    /\ Rmin m_lo m_hi <= m <= Rmax m_lo m_hi
    /\ Rmin p_lo p_hi <= p <= Rmax p_lo p_hi
    /\ (x = IZR (floorZ x) -> m = m_lo /\ p = p_lo).
Proof.
  intros Hinfo Hm0 Hm1 Hp0 Hp1.
  unfold RegularWave.GetExcitationMagInterp, RegularWave.GetExcitationPhaseInterp.
  rewrite Hinfo. cbn [bind]. rewrite Hm0, Hm1, Hp0, Hp1. cbn [bind].
  eexists; eexists. split; [reflexivity|]. split; [reflexivity|].
  destruct (base_Int_part x) as [Hlo Hhi]. unfold floorZ.
  set (fr := x - IZR (Int_part x)).
  assert (Hfr : 0 <= fr < 1) by (unfold fr; lra).
  assert (Hbetween : forall lo hi,
            Rmin lo hi <= fr * (hi - lo) + lo <= Rmax lo hi).
  { intros lo hi. unfold Rmin, Rmax. destruct (Rle_dec lo hi); nra. }
  split; [apply Hbetween|]. split; [apply Hbetween|].
  intros Hx. assert (fr = 0) by (unfold fr; lra).
  split; nra.
Qed.

Lemma RegularWave_interpolation_between_bins_witness :
  exists m p,
    RegularWave.GetExcitationMagInterp (regular_example 2) 0 0 0 0.5 = Ok m
    /\ RegularWave.GetExcitationPhaseInterp (regular_example 2) 0 0 0 0.5 = Ok p
    /\ Rmin 1 2 <= m <= Rmax 1 2
    /\ Rmin 0 0.5 <= p <= Rmax 0 0.5
    /\ (0.5 = IZR (floorZ 0.5) -> m = 1 /\ p = 0).
Proof.
  assert (Hfloor : floorZ 0.5 = 0%Z).
  { unfold floorZ. symmetry. apply Int_part_spec. simpl. lra. }
  apply (RegularWave_interpolation_between_bins (regular_example 2) 0 0 0 0.5
           {| RegularWave.freq_list := [1; 2; 3];
              RegularWave.excitation_mag_matrix := repeat [[1; 2; 4]] 6;
              RegularWave.excitation_phase_matrix := repeat [[0; 0.5; 1]] 6 |});
    rewrite ?Hfloor; reflexivity.
Defined.

Lemma RegularWave_Initialize_fields (w w' : RegularWave.t) :
  RegularWave.Initialize w = Ok w' ->
  RegularWave.regular_wave_amplitude_ w' = RegularWave.regular_wave_amplitude_ w
  /\ RegularWave.regular_wave_omega_ w' = RegularWave.regular_wave_omega_ w.
Proof.
  unfold RegularWave.Initialize.
  destruct (RegularWave.GetOmegaDelta w); cbn [bind]; [|discriminate].
  destruct (for_loop _ _ _); cbn [bind]; [|discriminate].
  intros [= <-]. split; reflexivity.
Qed.

(** X4: [Initialize] followed by [GetForceAtTime]: when the table holds the bins
    around the wave's frequency index for every body and degree of freedom,
    both calls return, the force has six entries per body, and the entries
    of the first body are its interpolated magnitude times the amplitude
    times the cosine of [omega * time] plus its interpolated phase. *)
Theorem RegularWave_first_body_force (w : RegularWave.t) (delta time : R)
  (mag phase : nat -> nat -> R) :
  (0 < RegularWave.num_bodies_ w)%nat ->
  RegularWave.GetOmegaDelta w = Ok delta ->
  (forall b d, (b < RegularWave.num_bodies_ w)%nat -> (d < 6)%nat ->
     RegularWave.GetExcitationMagInterp w (Z.of_nat b) (Z.of_nat d) 0
       (RegularWave.regular_wave_omega_ w / delta - 1) = Ok (mag b d)
     /\ RegularWave.GetExcitationPhaseInterp w (Z.of_nat b) (Z.of_nat d) 0
          (RegularWave.regular_wave_omega_ w / delta - 1) = Ok (phase b d)) ->
  exists w' f,
    RegularWave.Initialize w = Ok w'
    /\ RegularWave.GetForceAtTime w' time = Ok f
    /\ length f = (6 * RegularWave.num_bodies_ w)%nat
    /\ forall d, (d < 6)%nat ->
         nth_error f d
         = Some (mag 0%nat d * RegularWave.regular_wave_amplitude_ w
                 * cos (RegularWave.regular_wave_omega_ w * time + phase 0%nat d)).
Proof.
  intros Hn Hdelta Hinterp.
  destruct (RegularWave_Initialize_entries w delta mag phase Hdelta Hinterp)
    as [w' [Hinit [Hnum Hentries]]].
  destruct (RegularWave_Initialize_fields w w' Hinit) as [Hamp Homega].
  set (n := RegularWave.num_bodies_ w) in *.
  assert (Hlast : (6 * (n - 1) + 5 < length (RegularWave.excitation_force_mag_ w'))%nat
                  /\ (6 * (n - 1) + 5
                      < length (RegularWave.excitation_force_phase_ w'))%nat).
  { destruct (Hentries (n - 1)%nat 5%nat) as [Hm Hp]; [lia | lia |].
    split; apply nth_error_Some; congruence. }
  destruct (RegularWave_GetForceAtTime_entries w' time) as [f [Hf [Hlen Hval]]];
    [rewrite Hnum; fold n; lia | lia |].
  exists w', f. split; [exact Hinit|]. split; [exact Hf|].
  split; [rewrite Hlen, Hnum; reflexivity|].
  intros d Hd. specialize (Hval 0%nat d). rewrite Hnum in Hval.
  specialize (Hval Hn Hd). replace (6 * 0 + d)%nat with d in Hval by lia.
  rewrite Hval. destruct (Hentries 0%nat d Hn Hd) as [Hm Hp].
  replace (6 * 0 + d)%nat with d in Hm, Hp by lia.
  rewrite (nth_error_nth _ _ 0 Hm), (nth_error_nth _ _ 0 Hp), Hamp, Homega.
  reflexivity.
Qed.

Lemma regular_example_index : 2 / (3 / INR 3) - 1 = IZR 1.
Proof. simpl. field. Qed.

Lemma RegularWave_first_body_force_witness :
  exists w' f,
    RegularWave.Initialize (regular_example 2) = Ok w'
    /\ RegularWave.GetForceAtTime w' 0 = Ok f
    /\ length f = 6%nat
    /\ forall d, (d < 6)%nat ->
         nth_error f d = Some (2 * 2 * cos (2 * 0 + 0.5)).
Proof.
  apply (RegularWave_first_body_force (regular_example 2) (3 / INR 3) 0
           (fun _ _ => 2) (fun _ _ => 0.5)).
  - simpl; lia.
  - reflexivity.
  - intros b d Hb Hd. simpl in Hb. assert (b = 0%nat) by lia. subst b.
    change (RegularWave.regular_wave_omega_ (regular_example 2)) with 2.
    rewrite regular_example_index.
    unfold RegularWave.GetExcitationMagInterp, RegularWave.GetExcitationPhaseInterp.
    rewrite floorZ_IZR.
    do 6 (destruct d as [|d]; [split; simpl; f_equal; lra|]). lia.
Defined.

(** ** A regular wave at a tabulated frequency *)

(** X5: For a frequency list of [N] values that ends at [N * delta], a wave of
    frequency [(k + 1) * delta] with [k + 1 < N] gets from [Initialize], in
    every slot, exactly the magnitude and the phase tabulated in bin [k]. *)
Theorem RegularWave_Initialize_at_tabulated_frequency
  (w : RegularWave.t) (N k : nat) (delta : R) (M P : nat -> nat -> R) :
  0 < delta -> (S k < N)%nat ->
  (exists info infos,
     RegularWave.wave_info_ w = info :: infos
     /\ length (RegularWave.freq_list info) = N
     /\ nth (N - 1) (RegularWave.freq_list info) 0 = INR N * delta) ->
  RegularWave.regular_wave_omega_ w = INR (S k) * delta ->
  (forall b d, (b < RegularWave.num_bodies_ w)%nat -> (d < 6)%nat ->
     exists info m_next p_next,
       vget (RegularWave.wave_info_ w) (Z.of_nat b) = Ok info
       /\ RegularWave.tensor_get (RegularWave.excitation_mag_matrix info)
            (Z.of_nat d) 0 (Z.of_nat k) = Ok (M b d)
       /\ RegularWave.tensor_get (RegularWave.excitation_mag_matrix info)
            (Z.of_nat d) 0 (Z.of_nat k + 1) = Ok m_next
       /\ RegularWave.tensor_get (RegularWave.excitation_phase_matrix info)
            (Z.of_nat d) 0 (Z.of_nat k) = Ok (P b d)
       /\ RegularWave.tensor_get (RegularWave.excitation_phase_matrix info)
            (Z.of_nat d) 0 (Z.of_nat k + 1) = Ok p_next) ->
  exists w',
    RegularWave.Initialize w = Ok w'
    /\ forall b d, (b < RegularWave.num_bodies_ w)%nat -> (d < 6)%nat ->
         nth_error (RegularWave.excitation_force_mag_ w') (6 * b + d)
         = Some (M b d)
         /\ nth_error (RegularWave.excitation_force_phase_ w') (6 * b + d)
            = Some (P b d).
Proof.
  intros Hdelta Hk [info0 [infos [Hw [Hfl Hlast]]]] Homega Hbins.
  assert (HN : 0 < INR N) by (apply lt_0_INR; lia).
  assert (Hod : RegularWave.GetOmegaDelta w = Ok (INR N * delta / INR N)).
  { unfold RegularWave.GetOmegaDelta. rewrite Hw. cbn [vget_nat nth_error bind].
    rewrite (vget_back (RegularWave.freq_list info0) 0) by lia.
    cbn [bind]. rewrite Hfl, Hlast. reflexivity. }
  assert (Hidx : RegularWave.regular_wave_omega_ w / (INR N * delta / INR N) - 1
                 = IZR (Z.of_nat k)).
  { rewrite Homega, S_INR, <- INR_IZR_INZ. field. split; lra. }
  destruct (RegularWave_Initialize_entries w (INR N * delta / INR N) M P Hod)
    as [w' [E [_ Hentries]]].
  - intros b d Hb Hd. rewrite Hidx.
    destruct (Hbins b d Hb Hd) as [info [m' [p' [Hi [Hm [Hm' [Hp Hp']]]]]]].
    unfold RegularWave.GetExcitationMagInterp, RegularWave.GetExcitationPhaseInterp.
    rewrite floorZ_IZR, Hi. cbn [bind]. rewrite Hm, Hm', Hp, Hp'. cbn [bind].
    split; f_equal; lra.
  - exists w'. split; [exact E | exact Hentries].
Qed.

Lemma RegularWave_Initialize_at_tabulated_frequency_witness :
  exists w',
    RegularWave.Initialize (regular_example 2) = Ok w'
    /\ forall b d, (b < 1)%nat -> (d < 6)%nat ->
         nth_error (RegularWave.excitation_force_mag_ w') (6 * b + d) = Some 2
         /\ nth_error (RegularWave.excitation_force_phase_ w') (6 * b + d)
            = Some 0.5.
Proof.
  apply (RegularWave_Initialize_at_tabulated_frequency (regular_example 2) 3 1 1
           (fun _ _ => 2) (fun _ _ => 0.5)).
  - lra.
  - lia.
  - eexists; eexists. split; [reflexivity|]. split; [reflexivity|]. simpl. lra.
  - simpl. lra.
  - intros b d Hb Hd. simpl in Hb. assert (b = 0%nat) by lia. subst b.
    eexists; exists 4, 1. split; [reflexivity|].
    do 6 (destruct d as [|d]; [repeat split|]). lia.
Defined.

(** ** Loops that fail at a known pass *)

Lemma for_from_fails_at {St : Type} (P : nat -> St -> Prop)
  (body : nat -> St -> result St) (n start k : nat) (s : St) (e : failure) :
  (start <= k < start + n)%nat ->
  P start s ->
  (forall i s0, (start <= i < k)%nat -> P i s0 ->
                exists s1, body i s0 = Ok s1 /\ P (S i) s1) ->
  (forall s0, P k s0 -> body k s0 = Err e) ->
  for_from start n body s = Err e.
Proof.
  revert start s; induction n as [|n IH]; intros start s Hk H0 Hstep Hbad; [lia|].
  simpl. destruct (Nat.eq_dec start k) as [->|Hne].
  - rewrite (Hbad s H0). reflexivity.
  - destruct (Hstep start s) as [s1 [E1 P1]]; [lia | assumption |].
    rewrite E1. cbn [bind]. apply IH; [lia | assumption | | assumption].
    intros i s0 Hi. apply Hstep. lia.
Qed.

Lemma for_loop_fails_at {St : Type} (P : nat -> St -> Prop)
  (body : nat -> St -> result St) (n k : nat) (s : St) (e : failure) :
  (k < n)%nat ->
  P 0%nat s ->
  (forall i s0, (i < k)%nat -> P i s0 ->
                exists s1, body i s0 = Ok s1 /\ P (S i) s1) ->
  (forall s0, P k s0 -> body k s0 = Err e) ->
  for_loop n body s = Err e.
Proof.
  intros Hk H0 Hstep Hbad. unfold for_loop.
  apply (for_from_fails_at P body n 0 k); [lia | assumption | | assumption].
  intros i s0 Hi. apply Hstep. lia.
Qed.

(** ** Integration widths *)

Lemma sum_doubles_app (l1 l2 : list R) :
  sum_doubles (l1 ++ l2) = sum_doubles l1 + sum_doubles l2.
Proof. induction l1 as [|x l1 IH]; simpl; [lra | rewrite IH; lra]. Qed.

Lemma width_at_nonneg (grid : list R) (i : nat) : 0 <= width_at grid i.
Proof.
  unfold width_at.
  pose proof (Rabs_pos (nth (i + 1) grid 0 - nth i grid 0)).
  pose proof (Rabs_pos (nth i grid 0 - nth (i - 1) grid 0)).
  destruct (Z.of_nat i <? Z.of_nat (length grid) - 1)%Z, (0 <? i)%nat; lra.
Qed.

Lemma width_at_ascending (grid : list R) (i : nat) :
  Sorted Rle grid -> (i < length grid)%nat ->
  width_at grid i
  = (if (S i <? length grid)%nat
     then 0.5 * (nth (S i) grid 0 - nth i grid 0) else 0)
    + (if (0 <? i)%nat then 0.5 * (nth i grid 0 - nth (i - 1) grid 0) else 0).
Proof.
  intros HS Hi. unfold width_at.
  replace (i + 1)%nat with (S i) by lia.
  destruct (Z.ltb_spec (Z.of_nat i) (Z.of_nat (length grid) - 1)) as [Hz|Hz];
    destruct (Nat.ltb_spec (S i) (length grid)) as [Hn|Hn]; try lia;
    destruct (Nat.ltb_spec 0 i) as [Hp|Hp].
  - pose proof (Sorted_nth_le grid i (S i) HS ltac:(lia)).
    pose proof (Sorted_nth_le grid (i - 1) i HS ltac:(lia)).
    rewrite !Rabs_pos_eq by lra. lra.
  - pose proof (Sorted_nth_le grid i (S i) HS ltac:(lia)).
    rewrite !Rabs_pos_eq by lra. lra.
  - pose proof (Sorted_nth_le grid (i - 1) i HS ltac:(lia)).
    rewrite !Rabs_pos_eq by lra. lra.
  - lra.
Qed.

Lemma widths_partial_sum (grid : list R) (k : nat) :
  Sorted Rle grid -> (1 <= k < length grid)%nat ->
  sum_doubles (map (width_at grid) (seq 0 k))
  = 0.5 * (nth k grid 0 + nth (k - 1) grid 0) - nth 0 grid 0.
Proof.
  intros HS. induction k as [|k IH]; intros Hk; [lia|].
  rewrite seq_S, map_app, sum_doubles_app. cbn [Nat.add map sum_doubles].
  rewrite (width_at_ascending grid k HS) by lia.
  destruct (Nat.ltb_spec (S k) (length grid)); [|lia].
  replace (S k - 1)%nat with k by lia.
  destruct k as [|k].
  - simpl. lra.
  - rewrite IH by lia. cbn [Nat.ltb Nat.leb].
    replace (S k - 1)%nat with k by lia. lra.
Qed.

Lemma widths_of_sum (grid : list R) :
  Sorted Rle grid -> grid <> [] ->
  sum_doubles (widths_of grid) = nth (length grid - 1) grid 0 - nth 0 grid 0.
Proof.
  intros HS Hne. unfold widths_of.
  pose proof (nonempty_length grid Hne) as Hpos.
  destruct (length grid) as [|n] eqn:En; [lia|].
  rewrite seq_S, map_app, sum_doubles_app. cbn [Nat.add map sum_doubles].
  rewrite (width_at_ascending grid n HS) by lia.
  destruct (Nat.ltb_spec (S n) (length grid)); [lia|].
  replace (S n - 1)%nat with n by lia.
  destruct n as [|n].
  - simpl. lra.
  - rewrite widths_partial_sum by (assumption || lia).
    cbn [Nat.ltb Nat.leb]. replace (S n - 1)%nat with n by lia. lra.
Qed.

(** X6: [CalculateWidthIRF] gives every body one width per IRF sample, none of
    them negative; over an ascending time grid the widths add up to the span
    of the grid, last time minus first. *)
Theorem CalculateWidthIRF_widths_cover_the_grid (w : t) :
  (num_bodies_ w <= length (ex_irf_time_sampled_ w))%nat ->
  (num_bodies_ w <= length (ex_irf_width_sampled_ w))%nat ->
  exists w',
    CalculateWidthIRF w = Ok w'
    /\ ex_irf_time_sampled_ w' = ex_irf_time_sampled_ w
    /\ ex_irf_sampled_ w' = ex_irf_sampled_ w
    /\ forall b, (b < num_bodies_ w)%nat ->
         exists widths,
           nth_error (ex_irf_width_sampled_ w') b = Some widths
           /\ length widths = length (nth b (ex_irf_time_sampled_ w) [])
           /\ Forall (fun x => 0 <= x) widths
           /\ (Sorted Rle (nth b (ex_irf_time_sampled_ w) []) ->
               nth b (ex_irf_time_sampled_ w) [] <> [] ->
               sum_doubles widths
               = nth (length (nth b (ex_irf_time_sampled_ w) []) - 1)
                     (nth b (ex_irf_time_sampled_ w) []) 0
                 - nth 0 (nth b (ex_irf_time_sampled_ w) []) 0).
Proof.
  intros Ht Hw. unfold CalculateWidthIRF.
  destruct (CalculateWidthIRF_vectors_spec _ _ _ Ht Hw) as [ws [E [L [P Q]]]].
  rewrite E. cbn [bind]. eexists. split; [reflexivity|].
  split; [reflexivity|]. split; [reflexivity|].
  intros b Hb. exists (widths_of (nth b (ex_irf_time_sampled_ w) [])).
  cbn [set_irf ex_irf_width_sampled_]. split; [apply P, Hb|].
  split; [unfold widths_of; rewrite length_map, length_seq; reflexivity|].
  split.
  - rewrite Forall_forall. intros x Hx. unfold widths_of in Hx.
    apply in_map_iff in Hx. destruct Hx as [i [<- _]]. apply width_at_nonneg.
  - intros HS Hne. apply widths_of_sum; assumption.
Qed.

Lemma CalculateWidthIRF_widths_cover_the_grid_witness :
  exists w',
    CalculateWidthIRF sea_example = Ok w'
    /\ ex_irf_time_sampled_ w' = ex_irf_time_sampled_ sea_example
    /\ ex_irf_sampled_ w' = ex_irf_sampled_ sea_example
    /\ forall b, (b < num_bodies_ sea_example)%nat ->
         exists widths,
           nth_error (ex_irf_width_sampled_ w') b = Some widths
           /\ length widths = length (nth b (ex_irf_time_sampled_ sea_example) [])
           /\ Forall (fun x => 0 <= x) widths
           /\ (Sorted Rle (nth b (ex_irf_time_sampled_ sea_example) []) ->
               nth b (ex_irf_time_sampled_ sea_example) [] <> [] ->
               sum_doubles widths
               = nth (length (nth b (ex_irf_time_sampled_ sea_example) []) - 1)
                     (nth b (ex_irf_time_sampled_ sea_example) []) 0
                 - nth 0 (nth b (ex_irf_time_sampled_ sea_example) []) 0).
Proof.
  apply (CalculateWidthIRF_widths_cover_the_grid sea_example); simpl; lia.
Defined.

(** ** Bounds on the synthesized elevation *)

Lemma partial_sum_abs_le (term bound : nat -> R) (k : nat) :
  (forall i, (i < k)%nat -> Rabs (term i) <= bound i) ->
  Rabs (partial_sum term k) <= partial_sum bound k.
Proof.
  induction k as [|k IH]; intros H; cbn [partial_sum].
  - rewrite Rabs_pos_eq; lra.
  - eapply Rle_trans; [apply Rabs_triang|].
    apply Rplus_le_compat; [apply IH; intros; apply H; lia | apply H; lia].
Qed.

Lemma partial_sum_zero (term : nat -> R) (k : nat) :
  (forall i, (i < k)%nat -> term i = 0) -> partial_sum term k = 0.
Proof.
  induction k as [|k IH]; intros H; cbn [partial_sum]; [lra|].
  rewrite IH by (intros; apply H; lia). rewrite H by lia. lra.
Qed.

(** X7: The synthesized elevation has one sample per time stamp, and no sample
    exceeds, in absolute value, the sum of the component weights [sqrt(A_i)];
    a spectrum of zero densities gives still water. *)
Theorem FreeSurfaceElevation_bounded_by_envelope
  (mt19937 : Type) (mt19937_seed : Z -> mt19937)
  (uniform_real_distribution : R -> R -> mt19937 -> R * mt19937)
  (freqs_hz spectral_densities time_index : list R) (water_depth : R) (seed : Z) :
  freqs_hz <> [] ->
  (length spectral_densities <= length freqs_hz)%nat ->
  exists eta,
    FreeSurfaceElevation mt19937 mt19937_seed uniform_real_distribution
      freqs_hz spectral_densities time_index water_depth seed = Ok eta
    /\ length eta = length time_index
    /\ (forall j, (j < length time_index)%nat ->
          Rabs (nth j eta 0)
          <= partial_sum (envelope_at freqs_hz spectral_densities)
               (length spectral_densities))
    /\ (Forall (fun s => s = 0) spectral_densities ->
        forall j, (j < length time_index)%nat -> nth j eta 0 = 0).
Proof.
  intros Hne Hlen.
  destruct (FreeSurfaceElevation_closed_form mt19937 mt19937_seed
              uniform_real_distribution freqs_hz spectral_densities time_index
              water_depth seed Hne Hlen) as [eta [E [L Hsum]]].
  exists eta. split; [exact E|]. split; [exact L|]. split.
  - intros j Hj. rewrite (Hsum j Hj). apply partial_sum_abs_le. intros i _.
    rewrite Rabs_mult.
    assert (0 <= envelope_at freqs_hz spectral_densities i)
      by (unfold envelope_at; apply sqrt_pos).
    rewrite (Rabs_pos_eq (envelope_at _ _ _)) by assumption.
    match goal with |- _ * Rabs (cos ?a) <= _ =>
      pose proof (COS_bound a) as [Hc1 Hc2];
      assert (Rabs (cos a) <= 1) by (apply Rabs_le; lra)
    end.
    nra.
  - intros Hzero j Hj. rewrite (Hsum j Hj). apply partial_sum_zero.
    intros i Hi. unfold envelope_at.
    rewrite Forall_forall in Hzero.
    rewrite (Hzero (nth i spectral_densities 0)) by (apply nth_In; exact Hi).
    rewrite Rmult_0_r, Rmult_0_l, sqrt_0. lra.
Qed.

Lemma FreeSurfaceElevation_bounded_by_envelope_witness :
  exists eta,
    FreeSurfaceElevation nat counting_seed counting_draw
      [0.5; 1] [0; 0] [0; 1; 2] 1 7 = Ok eta
    /\ length eta = 3%nat
    /\ (forall j, (j < 3)%nat ->
          Rabs (nth j eta 0) <= partial_sum (envelope_at [0.5; 1] [0; 0]) 2)
    /\ (Forall (fun s => s = 0) [0; 0] ->
        forall j, (j < 3)%nat -> nth j eta 0 = 0).
Proof.
  apply (FreeSurfaceElevation_bounded_by_envelope nat counting_seed counting_draw
           [0.5; 1] [0; 0] [0; 1; 2] 1 7); [discriminate | simpl; lia].
Defined.

(** ** More densities than frequencies *)

(** X8: The synthesis reads its per-frequency vectors at the index of the
    density: with more densities than frequencies, and at least one time
    stamp, it reads them past their end at the first density without a
    frequency. *)
Theorem FreeSurfaceElevation_more_densities_than_frequencies
  (mt19937 : Type) (mt19937_seed : Z -> mt19937)
  (uniform_real_distribution : R -> R -> mt19937 -> R * mt19937)
  (freqs_hz spectral_densities time_index : list R) (water_depth : R) (seed : Z) :
  freqs_hz <> [] -> time_index <> [] ->
  (length freqs_hz < length spectral_densities)%nat ->
  FreeSurfaceElevation mt19937 mt19937_seed uniform_real_distribution
    freqs_hz spectral_densities time_index water_depth seed
  = Err (BadIndex (Z.of_nat (length freqs_hz))).
Proof.
  intros Hne Htime Hlen. unfold FreeSurfaceElevation.
  rewrite amplitude_envelope_spec by assumption. cbn [bind].
  rewrite length_map.
  fold (phases_of mt19937 mt19937_seed uniform_real_distribution seed (length freqs_hz)).
  set (phases := phases_of _ _ _ seed (length freqs_hz)).
  set (M := length spectral_densities) in *.
  set (T := length time_index).
  assert (HT : (0 < T)%nat) by (apply nonempty_length; exact Htime).
  assert (Hph : length phases = length freqs_hz) by apply draw_phases_length.
  assert (Hrow : forall j, (j < T)%nat ->
            nth_error (map (fun ti => map (fun w => ti * w)
                                        (map (fun f => 2 * PI * f) freqs_hz))
                           time_index) j
            = Some (map (fun w => nth j time_index 0 * w)
                        (map (fun f => 2 * PI * f) freqs_hz))).
  { intros j Hj.
    rewrite nth_error_map, (nth_error_nth' time_index 0) by (fold T; lia).
    reflexivity. }
  assert (Hsq : forall i, (i < M)%nat ->
            nth_error (map (envelope_at freqs_hz spectral_densities) (seq 0 M)) i
            = Some (envelope_at freqs_hz spectral_densities i)).
  { intros i Hi. rewrite nth_error_map, nth_error_seq.
    destruct (Nat.ltb_spec i M); [reflexivity | lia]. }
  apply (for_loop_fails_at (fun _ (eta : list R) => length eta = T)
           _ _ (length freqs_hz)).
  - exact Hlen.
  - apply repeat_length.
  - intros i eta0 Hi L0.
    apply (for_loop_inv (fun _ (eta : list R) => length eta = T)); [exact L0|].
    intros j eta1 Hj L1.
    rewrite (vget_nat_ok _ i _ (Hsq i ltac:(lia))). cbn [bind].
    rewrite (vget_nat_ok _ j _ (Hrow j Hj)). cbn [bind].
    rewrite (vget_nat_ok _ i (nth j time_index 0 * (2 * PI * nth i freqs_hz 0))).
    2:{ rewrite !nth_error_map, (nth_error_nth' freqs_hz 0) by lia. reflexivity. }
    cbn [bind].
    rewrite (vget_nat_ok _ i (nth i phases 0)) by (apply nth_error_nth'; lia).
    cbn [bind].
    rewrite (vget_nat_ok _ j (nth j eta1 0)) by (apply nth_error_nth'; lia).
    cbn [bind]. unfold vset. destruct (Nat.ltb_spec j (length eta1)); [|lia].
    eexists; split; [reflexivity|]. now rewrite upd_length.
  - intros eta0 L0. apply for_loop_first_fails; [exact HT|].
    rewrite (vget_nat_ok _ _ _ (Hsq (length freqs_hz) Hlen)). cbn [bind].
    rewrite (vget_nat_ok _ _ _ (Hrow 0%nat HT)). cbn [bind].
    unfold vget_nat at 1.
    rewrite (proj2 (nth_error_None _ (length freqs_hz)))
      by (rewrite !length_map; lia).
    reflexivity.
Qed.

Lemma FreeSurfaceElevation_more_densities_than_frequencies_witness :
  FreeSurfaceElevation nat counting_seed counting_draw
    [0.5; 1] [1; 1; 1] [0; 1] 1 7 = Err (BadIndex 2).
Proof.
  apply (FreeSurfaceElevation_more_densities_than_frequencies nat counting_seed
           counting_draw [0.5; 1] [1; 1; 1] [0; 1] 1 7);
    [discriminate | discriminate | simpl; lia].
Defined.

(** ** The ramp *)

Lemma nth_upd {A : Type} (v : list A) (i j : nat) (x d : A) :
  (i < length v)%nat ->
  nth j (upd v i x) d = if Nat.eqb j i then x else nth j v d.
Proof.
  revert i j; induction v as [|h rest IH]; intros i j Hi; simpl in Hi; [lia|].
  destruct i as [|i], j as [|j]; simpl; try reflexivity.
  apply IH. lia.
Qed.

(** X9: A ramp of [r >= 2] samples multiplies sample [i < r] of the elevation by
    [i / (r - 1)] and leaves the later samples as they are: the first sample
    becomes zero and sample [r - 1] keeps its value. *)
Theorem apply_ramp_scales_leading_samples (w : t) (eta : list R) :
  0 < ramp_duration_ w ->
  (2 <= trunc_int (ramp_duration_ w / simulation_dt_ w) + 1)%Z ->
  (Z.to_nat (trunc_int (ramp_duration_ w / simulation_dt_ w) + 1) <= length eta)%nat ->
  exists eta',
    apply_ramp w eta = Ok eta'
    /\ length eta' = length eta
    /\ (forall i,
          (i < Z.to_nat (trunc_int (ramp_duration_ w / simulation_dt_ w) + 1))%nat ->
          nth i eta' 0
          = nth i eta 0
            * (INR i / IZR (trunc_int (ramp_duration_ w / simulation_dt_ w))))
    /\ (forall i,
          (Z.to_nat (trunc_int (ramp_duration_ w / simulation_dt_ w) + 1) <= i)%nat ->
          nth i eta' 0 = nth i eta 0).
Proof.
  intros Hpos Hr Hlen. unfold apply_ramp.
  destruct (Rltb_spec 0.0 (ramp_duration_ w)) as [_|Hneg]; [|lra].
  set (r := (trunc_int (ramp_duration_ w / simulation_dt_ w) + 1)%Z) in *.
  set (ramp := LinSpaced r 0.0 1.0).
  assert (Hramp : forall i, (i < Z.to_nat r)%nat ->
            nth_error ramp i = Some (INR i / IZR (r - 1))).
  { intros i Hi. unfold ramp. rewrite LinSpaced_nth by assumption.
    f_equal. rewrite minus_IZR. lra. }
  replace (trunc_int (ramp_duration_ w / simulation_dt_ w)) with (r - 1)%Z
    by (unfold r; lia).
  rewrite (LinSpaced_length r 0.0 1.0 : length ramp = Z.to_nat r).
  match goal with |- exists eta', for_loop ?n ?body ?s = _ /\ _ =>
    destruct (for_loop_inv
      (fun k (e : list R) =>
         length e = length eta
         /\ (forall i, (i < k)%nat ->
               nth i e 0 = nth i eta 0 * (INR i / IZR (r - 1)))
         /\ (forall i, (k <= i)%nat -> nth i e 0 = nth i eta 0))
      body n s) as [eta' [E [L [P Q]]]]
  end.
  - split; [reflexivity|]. split; intros; [lia | reflexivity].
  - intros i e Hi [L [P Q]].
    rewrite (vget_nat_ok e i (nth i e 0)) by (apply nth_error_nth'; lia).
    cbn [bind]. rewrite (vget_nat_ok ramp i _ (Hramp i Hi)). cbn [bind].
    unfold vset. destruct (Nat.ltb_spec i (length e)); [|lia].
    eexists; split; [reflexivity|]. split; [now rewrite upd_length|]. split.
    + intros j Hj. rewrite nth_upd by lia.
      destruct (Nat.eqb_spec j i) as [->|Hne].
      * rewrite Q by lia. reflexivity.
      * apply P. lia.
    + intros j Hj. rewrite nth_upd by lia.
      destruct (Nat.eqb_spec j i); [lia | apply Q; lia].
  - exists eta'. repeat split; assumption.
Qed.

Lemma trunc_int_2 : trunc_int (2 / 1) = 2%Z.
Proof.
  replace (2 / 1) with (IZR 2) by (simpl; lra). apply trunc_int_IZR.
Qed.

Lemma apply_ramp_scales_leading_samples_witness :
  exists eta',
    apply_ramp ramped_example [5; 7; 9; 11] = Ok eta'
    /\ length eta' = 4%nat
    /\ (forall i, (i < Z.to_nat (trunc_int (2 / 1) + 1))%nat ->
          nth i eta' 0 = nth i [5; 7; 9; 11] 0 * (INR i / IZR (trunc_int (2 / 1))))
    /\ (forall i, (Z.to_nat (trunc_int (2 / 1) + 1) <= i)%nat ->
          nth i eta' 0 = nth i [5; 7; 9; 11] 0).
Proof.
  apply (apply_ramp_scales_leading_samples ramped_example [5; 7; 9; 11]).
  - simpl. lra.
  - change (2 <= trunc_int (2 / 1) + 1)%Z. rewrite trunc_int_2. lia.
  - change (Z.to_nat (trunc_int (2 / 1) + 1) <= 4)%nat. rewrite trunc_int_2. simpl. lia.
Defined.

(** X10: A ramp with more samples than the elevation series reads the series
    past its end. *)
Theorem apply_ramp_longer_than_series (w : t) (eta : list R) :
  0 < ramp_duration_ w ->
  (length eta < Z.to_nat (trunc_int (ramp_duration_ w / simulation_dt_ w) + 1))%nat ->
  apply_ramp w eta = Err (BadIndex (Z.of_nat (length eta))).
Proof.
  intros Hpos Hlen. unfold apply_ramp.
  destruct (Rltb_spec 0.0 (ramp_duration_ w)) as [_|Hneg]; [|lra].
  set (r := (trunc_int (ramp_duration_ w / simulation_dt_ w) + 1)%Z) in *.
  set (ramp := LinSpaced r 0.0 1.0).
  assert (Hrl : length ramp = Z.to_nat r) by apply LinSpaced_length.
  apply (for_loop_fails_at (fun _ (e : list R) => length e = length eta)
           _ _ (length eta)).
  - lia.
  - reflexivity.
  - intros i e Hi L.
    rewrite (vget_nat_ok e i (nth i e 0)) by (apply nth_error_nth'; lia).
    cbn [bind].
    rewrite (vget_nat_ok ramp i (nth i ramp 0)) by (apply nth_error_nth'; lia).
    cbn [bind]. unfold vset. destruct (Nat.ltb_spec i (length e)); [|lia].
    eexists; split; [reflexivity|]. now rewrite upd_length.
  - intros e L. unfold vget_nat.
    rewrite (proj2 (nth_error_None e (length eta))) by lia. reflexivity.
Qed.

Lemma apply_ramp_longer_than_series_witness :
  apply_ramp ramped_example [5; 7] = Err (BadIndex 2).
Proof.
  apply (apply_ramp_longer_than_series ramped_example [5; 7]).
  - simpl. lra.
  - change (2 < Z.to_nat (trunc_int (2 / 1) + 1))%nat. rewrite trunc_int_2. simpl. lia.
Defined.

(** ** Spectra *)

Lemma map_combine_self (g h : R -> R) (l : list R) :
  map (fun fs => snd fs * g (fst fs)) (combine l (map h l))
  = map (fun x => h x * g x) l.
Proof. induction l as [|x l IH]; simpl; [reflexivity | now rewrite IH]. Qed.

Lemma JONSWAPSpectrumHz_densities (f : list R) (Hs Tp gamma : R) :
  JONSWAPSpectrumHz f Hs Tp gamma
  = (sort_doubles f,
     map (fun x => pm_density Hs Tp x * jonswap_factor Tp gamma x) (sort_doubles f)).
Proof.
  unfold JONSWAPSpectrumHz, PiersonMoskowitzSpectrumHz.
  now rewrite map_combine_self.
Qed.

Lemma jonswap_exponent_range (Tp fi : R) :
  let sigma := if Rle_dec fi (1.0 / Tp) then 0.07 else 0.09 in
  0 < exp (- (1.0 / (2.0 * pow_int sigma 2)) * pow_int (fi * Tp - 1.0) 2) <= 1.
Proof.
  intros sigma. split; [apply exp_pos|].
  rewrite <- exp_0. 
  assert (Hs : 0 < pow_int sigma 2).
  { unfold pow_int, sigma. apply powerRZ_lt.
    destruct (Rle_dec fi (1.0 / Tp)); lra. }
  assert (Hq : 0 <= pow_int (fi * Tp - 1.0) 2).
  { unfold pow_int. change (0 <= (fi * Tp - 1.0) ^ 2). apply pow2_ge_0. }
  assert (Hc : 0 < 1.0 / (2.0 * pow_int sigma 2)).
  { apply Rdiv_lt_0_compat; lra. }
  destruct (Rle_lt_or_eq_dec _ _ Hq) as [Hlt|Heq].
  - left. apply exp_increasing. nra.
  - right. f_equal. rewrite <- Heq. lra.
Qed.

Lemma jonswap_factor_range (Tp gamma fi : R) :
  1 <= gamma -> 1 <= jonswap_factor Tp gamma fi <= gamma.
Proof.
  intros Hg. unfold jonswap_factor, Rpower.
  pose proof (jonswap_exponent_range Tp fi) as [Hlo Hhi]. cbv zeta in Hlo, Hhi.
  set (E := exp _) in *.
  assert (Hln : 0 <= ln gamma).
  { rewrite <- ln_1. destruct Hg as [Hg | <-]; [left; apply ln_increasing; lra | right; reflexivity]. }
  assert (Hle : forall a b, a <= b -> exp a <= exp b).
  { intros a b [Hab | ->]; [left; now apply exp_increasing | right; reflexivity]. }
  split.
  - rewrite <- exp_0. apply Hle. nra.
  - rewrite <- (exp_ln gamma) at 2 by lra. apply Hle. nra.
Qed.

(** X11: With a peak enhancement factor of 1 the JONSWAP spectrum is the
    Pierson-Moskowitz spectrum. *)
Theorem JONSWAP_with_unit_gamma_is_PiersonMoskowitz (f : list R) (Hs Tp : R) :
  JONSWAPSpectrumHz f Hs Tp 1 = PiersonMoskowitzSpectrumHz f Hs Tp.
Proof.
  rewrite JONSWAPSpectrumHz_densities. unfold PiersonMoskowitzSpectrumHz.
  f_equal. apply map_ext. intros x.
  unfold jonswap_factor, Rpower. rewrite ln_1, Rmult_0_r, exp_0. lra.
Qed.

(** X12: For [gamma >= 1] the JONSWAP density of every frequency lies between the
    Pierson-Moskowitz density and [gamma] times it, and is exactly [gamma]
    times it at the peak frequency [1 / Tp]. *)
Theorem JONSWAP_enhances_by_at_most_gamma (f : list R) (Hs Tp gamma : R) :
  Forall (fun x => 0 < x) f -> 0 < Hs -> 0 < Tp -> 1 <= gamma ->
  fst (JONSWAPSpectrumHz f Hs Tp gamma) = fst (PiersonMoskowitzSpectrumHz f Hs Tp)
  /\ length (snd (JONSWAPSpectrumHz f Hs Tp gamma)) = length f
  /\ forall i, (i < length f)%nat ->
       let fi := nth i (fst (JONSWAPSpectrumHz f Hs Tp gamma)) 0 in
       let pm := nth i (snd (PiersonMoskowitzSpectrumHz f Hs Tp)) 0 in
       let js := nth i (snd (JONSWAPSpectrumHz f Hs Tp gamma)) 0 in
       pm <= js <= gamma * pm /\ (fi * Tp = 1 -> js = gamma * pm).
Proof.
  intros Hf HHs HTp Hg. rewrite JONSWAPSpectrumHz_densities.
  unfold PiersonMoskowitzSpectrumHz. cbn [fst snd].
  split; [reflexivity|].
  split; [rewrite length_map; apply sort_doubles_length|].
  intros i Hi. cbv zeta.
  assert (Hi' : (i < length (sort_doubles f))%nat) by (rewrite sort_doubles_length; exact Hi).
  rewrite !(nth_map_lt _ _ _ 0) by exact Hi'.
  set (fi := nth i (sort_doubles f) 0).
  assert (Hfi : 0 < fi).
  { pose proof (sort_doubles_positive f Hf) as Hall. rewrite Forall_forall in Hall.
    apply Hall, nth_In, Hi'. }
  pose proof (pm_density_nonneg Hs Tp fi HHs HTp Hfi) as Hpm.
  pose proof (jonswap_factor_range Tp gamma fi Hg) as [H1 H2].
  split; [split; nra|].
  intros Hpeak.
  assert (Hpk : jonswap_factor Tp gamma fi = gamma).
  { unfold jonswap_factor. replace (fi * Tp - 1.0) with 0 by lra.
    replace (pow_int 0 2) with 0 by (unfold pow_int; simpl; lra).
    rewrite Rmult_0_r, exp_0, Rpower_1 by lra. reflexivity. }
  rewrite Hpk. lra.
Qed.

Lemma JONSWAP_enhances_by_at_most_gamma_witness :
  fst (JONSWAPSpectrumHz [0.5; 0.125] 2 8 3.3)
  = fst (PiersonMoskowitzSpectrumHz [0.5; 0.125] 2 8)
  /\ length (snd (JONSWAPSpectrumHz [0.5; 0.125] 2 8 3.3)) = 2%nat
  /\ forall i, (i < 2)%nat ->
       let fi := nth i (fst (JONSWAPSpectrumHz [0.5; 0.125] 2 8 3.3)) 0 in
       let pm := nth i (snd (PiersonMoskowitzSpectrumHz [0.5; 0.125] 2 8)) 0 in
       let js := nth i (snd (JONSWAPSpectrumHz [0.5; 0.125] 2 8 3.3)) 0 in
       pm <= js <= 3.3 * pm /\ (fi * 8 = 1 -> js = 3.3 * pm).
Proof.
  apply (JONSWAP_enhances_by_at_most_gamma [0.5; 0.125] 2 8 3.3); try lra.
  repeat constructor; lra.
Defined.

Lemma insert_sorted_head (x : R) (l : list R) :
  HdRel Rle x l -> insert_sorted x l = x :: l.
Proof.
  intros H. destruct l as [|y l]; [reflexivity|]. simpl.
  inversion H; subst. destruct (Rle_dec x y); [reflexivity | contradiction].
Qed.

Lemma sort_doubles_sorted (l : list R) : Sorted Rle l -> sort_doubles l = l.
Proof.
  induction 1 as [|x l HS IH Hd]; [reflexivity|].
  unfold sort_doubles in *. simpl. rewrite IH. now apply insert_sorted_head.
Qed.

Lemma Sorted_map_seq (g : nat -> R) (start n : nat) :
  (forall i, g i <= g (S i)) -> Sorted Rle (map g (seq start n)).
Proof.
  intros Hg. revert start; induction n as [|n IH]; intros start; simpl.
  - constructor.
  - constructor; [apply IH|]. destruct n; simpl; constructor. apply Hg.
Qed.

Lemma LinSpaced_sorted (size : Z) (low high : R) :
  low <= high -> Sorted Rle (LinSpaced size low high).
Proof.
  intros H. unfold LinSpaced. destruct (Z.eqb_spec size 1).
  - repeat constructor.
  - destruct (Z_lt_le_dec size 1) as [Hs|Hs].
    + replace (Z.to_nat size) with 0%nat by lia. constructor.
    + apply Sorted_map_seq. intros i. rewrite S_INR.
      assert (0 < IZR size - 1).
      { assert (H2 : (2 <= size)%Z) by lia. apply IZR_le in H2. lra. }
      assert (0 <= (high - low) / (IZR size - 1)).
      { apply Rmult_le_pos; [lra | left; now apply Rinv_0_lt_compat]. }
      lra.
Qed.

(** X13: [CreateSpectrum] tabulates the JONSWAP density on the 1000 frequencies
    0.001, 0.002, ..., 1 Hz, in that order: sorting leaves the grid as it is,
    and density [i] belongs to frequency [i]. *)
Theorem CreateSpectrum_tabulates_JONSWAP (w : t) (i : nat) :
  (i < 1000)%nat ->
  nth_error (spectrum_frequencies_ (CreateSpectrum w)) i = Some (0.001 * INR (S i))
  /\ nth_error (spectral_densities_ (CreateSpectrum w)) i
     = Some (pm_density (wave_height_ w) (wave_period_ w) (0.001 * INR (S i))
             * jonswap_factor (wave_period_ w) (peak_enhancement_factor_ w)
                 (0.001 * INR (S i))).
Proof.
  intros Hi. unfold CreateSpectrum. rewrite JONSWAPSpectrumHz_densities.
  cbn [set_spectrum spectrum_frequencies_ spectral_densities_].
  rewrite sort_doubles_sorted by (apply LinSpaced_sorted; lra).
  assert (Hf : nth_error (LinSpaced 1000 0.001 1.0) i = Some (0.001 * INR (S i))).
  { rewrite LinSpaced_nth by lia. f_equal. rewrite S_INR. lra. }
  split; [exact Hf|]. rewrite nth_error_map, Hf. reflexivity.
Qed.

Lemma CreateSpectrum_tabulates_JONSWAP_witness :
  nth_error (spectrum_frequencies_ (CreateSpectrum sea_example)) 124
  = Some (0.001 * INR 125)
  /\ nth_error (spectral_densities_ (CreateSpectrum sea_example)) 124
     = Some (pm_density 2 8 (0.001 * INR 125)
             * jonswap_factor 8 1 (0.001 * INR 125)).
Proof.
  apply (CreateSpectrum_tabulates_JONSWAP sea_example 124). lia.
Defined.

(** ** The wave mesh *)

Lemma column_triangles_indices (k : nat) (tri : triangle) :
  In tri (flat_map column_triangles (map Z.of_nat (seq 0 k))) ->
  let '(a, b, c) := tri in
  (0 <= a <= 2 * Z.of_nat k + 1 /\ 0 <= b <= 2 * Z.of_nat k + 1
   /\ 0 <= c <= 2 * Z.of_nat k + 1)%Z.
Proof.
  intros H. apply in_flat_map in H. destruct H as [x [Hx Htri]].
  apply in_map_iff in Hx. destruct Hx as [i [<- Hi]]. apply in_seq in Hi.
  destruct Htri as [<-|[<-|[]]]; lia.
Qed.

(** X14: When the elevation series has at least as many samples as the run has
    time steps, [SetUpWaveMesh] hands the mesh writer two points per time
    step and triangles whose three indices all name one of these points. *)
Theorem SetUpWaveMesh_triangles_name_points (w : t) :
  (2 <= trunc_int (simulation_duration_ w / simulation_dt_ w) + 1 < 2 ^ 31)%Z ->
  (Z.to_nat (trunc_int (simulation_duration_ w / simulation_dt_ w) + 1)
   <= length (free_surface_elevation_sampled_ w))%nat ->
  exists pts tris,
    SetUpWaveMesh w = Ok (pts, tris)
    /\ Z.of_nat (length pts)
       = (2 * (trunc_int (simulation_duration_ w / simulation_dt_ w) + 1))%Z
    /\ forall a b c, In (a, b, c) tris ->
         (0 <= a < Z.of_nat (length pts) /\ 0 <= b < Z.of_nat (length pts)
          /\ 0 <= c < Z.of_nat (length pts))%Z.
Proof.
  intros HN Hlen. unfold SetUpWaveMesh.
  set (N := (trunc_int (simulation_duration_ w / simulation_dt_ w) + 1)%Z) in *.
  set (time_index := LinSpaced N 0 (simulation_duration_ w)).
  assert (HL : length time_index = Z.to_nat N) by apply LinSpaced_length.
  destruct (CreateFreeSurface3DPts_spec (free_surface_elevation_sampled_ w) time_index)
    as [pts [E [Lp _]]]; [lia|].
  rewrite E. cbn [bind]. eexists; eexists. split; [reflexivity|].
  split; [lia|]. intros a b c Hin.
  rewrite CreateFreeSurfaceTriangles_columns in Hin by lia.
  apply column_triangles_indices in Hin.
  assert (1 <= Z.of_nat (length time_index) / 2)%Z
    by (apply Z.div_le_lower_bound; lia).
  pose proof (Z.mul_div_le (Z.of_nat (length time_index)) 2 ltac:(lia)).
  lia.
Qed.

Lemma trunc_int_3 : trunc_int (3 / 1) = 3%Z.
Proof.
  replace (3 / 1) with (IZR 3) by (simpl; lra). apply trunc_int_IZR.
Qed.

Lemma SetUpWaveMesh_triangles_name_points_witness :
  exists pts tris,
    SetUpWaveMesh sea_example = Ok (pts, tris)
    /\ Z.of_nat (length pts) = (2 * (trunc_int (3 / 1) + 1))%Z
    /\ forall a b c, In (a, b, c) tris ->
         (0 <= a < Z.of_nat (length pts) /\ 0 <= b < Z.of_nat (length pts)
          /\ 0 <= c < Z.of_nat (length pts))%Z.
Proof.
  apply (SetUpWaveMesh_triangles_name_points sea_example).
  - change (2 <= trunc_int (3 / 1) + 1 < 2 ^ 31)%Z. rewrite trunc_int_3. lia.
  - change (Z.to_nat (trunc_int (3 / 1) + 1) <= 4)%nat. rewrite trunc_int_3.
    simpl. lia.
Defined.

(** X15: With fewer elevation samples than time steps, as before the elevation
    has been synthesized or read, the mesh points read the elevation past
    its end and no mesh is made. *)
Theorem SetUpWaveMesh_needs_the_elevation (w : t) :
  (length (free_surface_elevation_sampled_ w)
   < Z.to_nat (trunc_int (simulation_duration_ w / simulation_dt_ w) + 1))%nat ->
  SetUpWaveMesh w
  = Err (BadIndex (Z.of_nat (length (free_surface_elevation_sampled_ w)))).
Proof.
  intros Hlen. unfold SetUpWaveMesh.
  set (N := (trunc_int (simulation_duration_ w / simulation_dt_ w) + 1)%Z) in *.
  set (time_index := LinSpaced N 0 (simulation_duration_ w)).
  set (eta := free_surface_elevation_sampled_ w) in *.
  assert (HL : length time_index = Z.to_nat N) by apply LinSpaced_length.
  assert (E : CreateFreeSurface3DPts eta time_index
              = Err (BadIndex (Z.of_nat (length eta)))).
  { unfold CreateFreeSurface3DPts.
    apply (for_loop_fails_at
             (fun _ (s : list point3) => length s = (length time_index * 2)%nat)
             _ _ (length eta)).
    - lia.
    - apply repeat_length.
    - intros i s Hi Ls.
      rewrite (vget_nat_ok time_index i (nth i time_index 0))
        by (apply nth_error_nth'; lia).
      cbn [bind].
      rewrite (vget_nat_ok eta i (nth i eta 0)) by (apply nth_error_nth'; lia).
      cbn [bind]. unfold vset.
      match goal with |- context [Nat.ltb ?a ?b] =>
        destruct (Nat.ltb_spec a b); [|unfold point3 in *; lia] end.
      cbn [bind]. rewrite upd_length.
      match goal with |- context [Nat.ltb ?a ?b] =>
        destruct (Nat.ltb_spec a b); [|unfold point3 in *; lia] end.
      eexists; split; [reflexivity|]. now rewrite !upd_length.
    - intros s Ls.
      rewrite (vget_nat_ok time_index (length eta) (nth (length eta) time_index 0))
        by (apply nth_error_nth'; lia).
      cbn [bind]. unfold vget_nat at 1.
      rewrite (proj2 (nth_error_None eta (length eta))) by lia. reflexivity. }
  rewrite E. reflexivity.
Qed.

Lemma SetUpWaveMesh_needs_the_elevation_witness :
  SetUpWaveMesh (set_free_surface sea_example [] []) = Err (BadIndex 0).
Proof.
  apply (SetUpWaveMesh_needs_the_elevation (set_free_surface sea_example [] [])).
  change (0 < Z.to_nat (trunc_int (3 / 1) + 1))%nat. rewrite trunc_int_3. simpl. lia.
Defined.

(** ** The force vector of irregular waves *)

Lemma GetForceAtTime_returns
  (get_lower_index : R -> list R -> result Z)
  (indeterminate : Z -> Z -> R -> nat -> R) (w : t) (time : R) :
  (forall b d, (b < num_bodies_ w)%nat -> (d < 6)%nat ->
     is_ok (ExcitationConvolution get_lower_index indeterminate w
              (Z.of_nat b) (Z.of_nat d) time)) ->
  exists f,
    GetForceAtTime get_lower_index indeterminate w time = Ok f
    /\ length f = (6 * num_bodies_ w)%nat.
Proof.
  intros Hconv. unfold GetForceAtTime.
  set (n := num_bodies_ w) in *.
  assert (Hfill : forall (body : nat -> list R -> result (list R)) k s,
            length s = (6 * n)%nat ->
            (forall i f, (i < k)%nat -> length f = (6 * n)%nat ->
               exists f', body i f = Ok f' /\ length f' = (6 * n)%nat) ->
            exists f, for_loop k body s = Ok f /\ length f = (6 * n)%nat).
  { intros body k s Ls Hbody.
    apply (for_loop_inv (fun _ (f : list R) => length f = (6 * n)%nat));
      [exact Ls | exact Hbody]. }
  destruct (Hfill (fun i f => vset f i 0.0) (n * 6)%nat (repeat 0 (n * 6)))
    as [f0 [E0 L0]].
  - rewrite repeat_length. lia.
  - intros i f Hi L. unfold vset. destruct (Nat.ltb_spec i (length f)); [|lia].
    eexists; split; [reflexivity|]. now rewrite upd_length.
  - rewrite E0. cbn [bind]. apply Hfill; [exact L0|].
    intros b f1 Hb L1. apply Hfill; [exact L1|].
    intros d f2 Hd L2. destruct (Hconv b d Hb Hd) as [v Ev]. rewrite Ev.
    cbn [bind]. unfold vset.
    destruct (Nat.ltb_spec (b * 6 + d) (length f2)); [|lia].
    eexists; split; [reflexivity|]. now rewrite upd_length.
Qed.

(** X16: [GetForceAtTime] returns exactly when every convolution returns; the
    vector then has six entries per body, entry [6 b + d] the convolution of
    body [b], degree of freedom [d]. *)
Theorem GetForceAtTime_collects_convolutions
  (get_lower_index : R -> list R -> result Z)
  (indeterminate : Z -> Z -> R -> nat -> R)
  (w : t) (time : R) (F : nat -> nat -> R) :
  (forall b d, (b < num_bodies_ w)%nat -> (d < 6)%nat ->
     ExcitationConvolution get_lower_index indeterminate w
       (Z.of_nat b) (Z.of_nat d) time = Ok (F b d)) ->
  exists f,
    GetForceAtTime get_lower_index indeterminate w time = Ok f
    /\ length f = (6 * num_bodies_ w)%nat
    /\ forall b d, (b < num_bodies_ w)%nat -> (d < 6)%nat ->
         nth_error f (6 * b + d) = Some (F b d).
Proof.
  intros HF. unfold GetForceAtTime.
  set (n := num_bodies_ w) in *.
  destruct (for_loop_inv (fun _ (f : list R) => length f = (6 * n)%nat)
              (fun i f => vset f i 0.0) (n * 6) (repeat 0 (n * 6)))
    as [f0 [E0 L0]].
  - rewrite repeat_length. lia.
  - intros i f Hi L. unfold vset. destruct (Nat.ltb_spec i (length f)); [|lia].
    eexists; split; [reflexivity|]. now rewrite upd_length.
  - rewrite E0. cbn [bind].
    match goal with |- exists f, for_loop n ?body ?init = _ /\ _ =>
      destruct (for_loop_inv
        (fun k (f : list R) =>
           length f = (6 * n)%nat
           /\ forall b d, (b < k)%nat -> (d < 6)%nat ->
                nth_error f (6 * b + d) = Some (F b d))
        body n init) as [f [E [L P]]]
    end.
    + split; [assumption | intros; lia].
    + intros b f1 Hb [L1 P1].
      match goal with |- exists s1, for_loop 6 ?body ?init = _ /\ _ =>
        destruct (for_loop_inv
          (fun k (f : list R) =>
             length f = (6 * n)%nat
             /\ (forall b' d, (b' < b)%nat -> (d < 6)%nat ->
                   nth_error f (6 * b' + d) = Some (F b' d))
             /\ forall d, (d < k)%nat -> nth_error f (6 * b + d) = Some (F b d))
          body 6%nat init) as [f2 [E2 [L2 [P2 Q2]]]]
      end.
      * repeat split; [assumption | assumption | intros; lia].
      * intros d f2 Hd [L2 [P2 Q2]].
        rewrite (HF b d Hb Hd). cbn [bind]. unfold vset.
        destruct (Nat.ltb_spec (b * 6 + d) (length f2)); [|lia].
        eexists; split; [reflexivity|]. split; [|split].
        -- now rewrite upd_length.
        -- intros b' d' Hb' Hd'. rewrite nth_error_upd_other by lia. now apply P2.
        -- intros d' Hd'. replace (b * 6 + d)%nat with (6 * b + d)%nat by lia.
           destruct (Nat.eq_dec d' d) as [->|Hne].
           ++ apply nth_error_upd_same; lia.
           ++ rewrite nth_error_upd_other by lia. apply Q2; lia.
      * exists f2; split; [assumption|]. split; [assumption|].
        intros b' d Hb' Hd. destruct (Nat.eq_dec b' b) as [->|Hne].
        -- now apply Q2.
        -- apply P2; [lia | assumption].
    + exists f; repeat split; assumption.
Qed.


Lemma GetForceAtTime_collects_convolutions_witness :
  exists f,
    GetForceAtTime get_lower_index_scan (fun _ _ _ _ => 0) sea_example 3 = Ok f
    /\ length f = 6%nat
    /\ forall b d, (b < 1)%nat -> (d < 6)%nat ->
         nth_error f (6 * b + d)
         = Some (match d with O => 2.5 | _ => 0 end).
Proof.
  apply (GetForceAtTime_collects_convolutions get_lower_index_scan
           (fun _ _ _ _ => 0) sea_example 3
           (fun _ d => match d with O => 2.5 | _ => 0 end)).
  intros b d Hb Hd. simpl in Hb. assert (b = 0%nat) by lia. subst b.
  unfold ExcitationConvolution, for_loop, convolution_step, cursor_walk_back,
    eta_at, mat_get.
  do 6 (destruct d as [|d]; [run_doubles; f_equal; lra|]). lia.
Defined.

(** ** The frequency grid of [SetSpectrumFrequencies] *)

(** X17: For at least two points the grid runs from [start] to [stop] exactly, in
    equal steps, and becomes the object's frequency vector. *)
Theorem SetSpectrumFrequencies_grid (w : t) (start stop : R) (num_points : Z) :
  (2 <= num_points)%Z ->
  exists r,
    SetSpectrumFrequencies w start stop num_points
    = Ok (r, set_spectrum w r (spectral_densities_ w))
    /\ length r = Z.to_nat num_points
    /\ (forall i, (i < Z.to_nat num_points)%nat ->
          nth_error r i
          = Some (start + INR i * ((stop - start) / (IZR num_points - 1))))
    /\ nth_error r 0 = Some start
    /\ nth_error r (Z.to_nat num_points - 1) = Some stop.
Proof.
  intros Hn. unfold SetSpectrumFrequencies.
  set (n := Z.to_nat num_points).
  set (step := (stop - start) / (IZR num_points - 1)).
  destruct (for_loop_inv
    (fun k (res : list R) =>
       length res = n
       /\ forall i, (i < k)%nat -> nth_error res i = Some (start + INR i * step))
    (fun i res => vset res i (start + INR i * step)) n (repeat 0 n))
    as [r [E [L P]]].
  - split; [apply repeat_length | intros; lia].
  - intros i res Hi [L P]. unfold vset.
    destruct (Nat.ltb_spec i (length res)); [|lia].
    eexists; split; [reflexivity|]. split; [now rewrite upd_length|].
    intros j Hj. rewrite nth_error_upd by lia.
    destruct (Nat.eqb_spec j i) as [->|Hne]; [reflexivity | apply P; lia].
  - rewrite E. cbn [bind]. exists r. split; [reflexivity|].
    split; [exact L|]. split; [exact P|].
    assert (Hden : IZR num_points - 1 <> 0).
    { apply IZR_le in Hn. lra. }
    split.
    + rewrite P by (unfold n; lia). simpl. f_equal. lra.
    + rewrite P by (unfold n; lia). f_equal. unfold step, n.
      rewrite minus_INR by lia. rewrite INR_IZR_INZ, Z2Nat.id by lia. simpl.
      field. exact Hden.
Qed.

Lemma SetSpectrumFrequencies_grid_witness :
  exists r,
    SetSpectrumFrequencies sea_example 0.5 2 4
    = Ok (r, set_spectrum sea_example r (spectral_densities_ sea_example))
    /\ length r = Z.to_nat 4
    /\ (forall i, (i < Z.to_nat 4)%nat ->
          nth_error r i = Some (0.5 + INR i * ((2 - 0.5) / (IZR 4 - 1))))
    /\ nth_error r 0 = Some 0.5
    /\ nth_error r (Z.to_nat 4 - 1) = Some 2.
Proof.
  apply (SetSpectrumFrequencies_grid sea_example 0.5 2 4). lia.
Defined.

(** ** Reading an elevation file *)

Section ElevationFile.

Variable extract : String.string -> option (R * Ascii.ascii * R).

Lemma read_eta_lines_parsed (lines : list String.string) (pairs : list (R * R)) :
  Forall2 (parses extract) lines pairs ->
  forall times etas,
    read_eta_lines extract lines times etas
    = Done (times ++ map fst pairs, etas ++ map snd pairs).
Proof.
  induction 1 as [|line p lines pairs Hp Hrest IH]; intros times etas; simpl.
  - now rewrite !app_nil_r.
  - unfold parses in Hp. rewrite Hp. cbv beta iota.
    rewrite (proj2 (Ascii.eqb_eq colon colon) eq_refl). cbn [negb].
    rewrite IH, <- !app_assoc. reflexivity.
Qed.

Lemma read_eta_lines_unreadable (good : list String.string) (pairs : list (R * R))
  (bad : String.string) (rest : list String.string) :
  Forall2 (parses extract) good pairs ->
  unreadable extract bad ->
  forall times etas,
    read_eta_lines extract (good ++ bad :: rest) times etas
    = Thrown (CannotParse bad).
Proof.
  intros Hgood Hbad.
  induction Hgood as [|line p lines pairs Hp Hrest IH]; intros times etas; simpl.
  - unfold unreadable in Hbad. destruct (extract bad) as [[[time c] eta]|];
      [|reflexivity].
    destruct (Ascii.eqb c colon) eqn:Ec; [|reflexivity].
    apply Ascii.eqb_eq in Ec. contradiction.
  - unfold parses in Hp. rewrite Hp. cbv beta iota.
    rewrite (proj2 (Ascii.eqb_eq colon colon) eq_refl). cbn [negb]. apply IH.
Qed.

End ElevationFile.

(** X18: When every line of the file reads as [time : eta], [ReadEtaFromFile]
    appends the times to [time_data_] and the elevations to the elevation
    history, in the order of the lines; the time stamps of the history, which
    the convolution searches, and the IRF tables stay as they were. *)
Theorem ReadEtaFromFile_appends_columns
  (open_file : String.string -> option (list String.string))
  (extract : String.string -> option (R * Ascii.ascii * R))
  (o : IrregularWavesObject) (lines : list String.string) (pairs : list (R * R)) :
  open_file (eta_file_path_ o) = Some lines ->
  Forall2 (parses extract) lines pairs ->
  exists o',
    ReadEtaFromFile open_file extract o = Done o'
    /\ GetEtaTimeData o' = GetEtaTimeData o ++ map fst pairs
    /\ GetFreeSurfaceElevation o'
       = GetFreeSurfaceElevation o ++ map snd pairs
    /\ free_surface_time_sampled_ (core o') = free_surface_time_sampled_ (core o)
    /\ ex_irf_sampled_ (core o') = ex_irf_sampled_ (core o)
    /\ ex_irf_time_sampled_ (core o') = ex_irf_time_sampled_ (core o)
    /\ ex_irf_width_sampled_ (core o') = ex_irf_width_sampled_ (core o).
Proof.
  intros Hopen Hlines. unfold ReadEtaFromFile. rewrite Hopen.
  rewrite (read_eta_lines_parsed extract lines pairs Hlines).
  eexists. split; [reflexivity|]. repeat split.
Qed.

Lemma ReadEtaFromFile_appends_columns_witness :
  exists o',
    ReadEtaFromFile two_line_file extract_example (fresh_example line_a 2)
    = Done o'
    /\ GetEtaTimeData o' = [] ++ map fst [(0, 5); (1, 7)]
    /\ GetFreeSurfaceElevation o' = [] ++ map snd [(0, 5); (1, 7)]
    /\ free_surface_time_sampled_ (core o') = []
    /\ ex_irf_sampled_ (core o') = []
    /\ ex_irf_time_sampled_ (core o') = []
    /\ ex_irf_width_sampled_ (core o') = [].
Proof.
  apply (ReadEtaFromFile_appends_columns two_line_file extract_example
           (fresh_example line_a 2) [line_a; line_b] [(0, 5); (1, 7)]).
  - reflexivity.
  - repeat constructor.
Defined.

(** X19: A file that cannot be opened, or a first line that does not read as
    [time : eta], ends the call with the matching error, and the error names
    that line. *)
Theorem ReadEtaFromFile_refuses_bad_input
  (open_file : String.string -> option (list String.string))
  (extract : String.string -> option (R * Ascii.ascii * R))
  (o : IrregularWavesObject) :
  (open_file (eta_file_path_ o) = None ->
   ReadEtaFromFile open_file extract o = Thrown CannotOpen)
  /\ (forall good pairs bad rest,
        open_file (eta_file_path_ o) = Some (good ++ bad :: rest) ->
        Forall2 (parses extract) good pairs ->
        unreadable extract bad ->
        ReadEtaFromFile open_file extract o = Thrown (CannotParse bad)).
Proof.
  split.
  - intros Hopen. unfold ReadEtaFromFile. now rewrite Hopen.
  - intros good pairs bad rest Hopen Hgood Hbad. unfold ReadEtaFromFile.
    rewrite Hopen.
    now rewrite (read_eta_lines_unreadable extract good pairs bad rest Hgood Hbad).
Qed.

Lemma ReadEtaFromFile_refuses_bad_input_witness :
  ReadEtaFromFile no_file extract_example (fresh_example line_a 2)
  = Thrown CannotOpen
  /\ ReadEtaFromFile two_line_file extract_nothing (fresh_example line_a 2)
     = Thrown (CannotParse line_a).
Proof.
  split.
  - apply (proj1 (ReadEtaFromFile_refuses_bad_input no_file extract_example
                    (fresh_example line_a 2))). reflexivity.
  - apply (proj2 (ReadEtaFromFile_refuses_bad_input two_line_file extract_nothing
                    (fresh_example line_a 2)) [] [] line_a [line_b]).
    + reflexivity.
    + constructor.
    + exact I.
Defined.

(** ** Initialization of the irregular-wave tables *)

Lemma for_loop_preserves {St : Type} (P : St -> Prop)
  (body : nat -> St -> result St) (n : nat) (s s' : St) :
  P s ->
  (forall i s0 s1, P s0 -> body i s0 = Ok s1 -> P s1) ->
  for_loop n body s = Ok s' -> P s'.
Proof.
  intros H0 Hstep E. unfold for_loop in E.
  pose proof (for_from_cases (fun _ => P) (fun _ => True) body n 0 s H0) as H.
  rewrite E in H. apply H. intros i s0 _ Hs0.
  destruct (body i s0) as [s1|e] eqn:Eb; [|exact I]. now apply (Hstep i s0).
Qed.

Ltac through_binds :=
  repeat match goal with
  | |- bind ?c _ = Ok _ -> _ =>
    let E := fresh "E" in destruct c eqn:E; cbn [bind]; [|discriminate]
  end.

Lemma CalculateWidthIRF_outside (w w' : t) :
  CalculateWidthIRF w = Ok w' -> outside_irf w' = outside_irf w.
Proof.
  unfold CalculateWidthIRF. through_binds. intros [= <-]. reflexivity.
Qed.

Lemma resample_body_outside spline (dt : R) (b : nat) (w w' : t) :
  resample_body spline dt b w = Ok w' -> outside_irf w' = outside_irf w.
Proof.
  unfold resample_body. through_binds. intros [= <-].
  match goal with H : CalculateWidthIRF _ = Ok _ |- _ =>
    apply CalculateWidthIRF_outside in H; exact H end.
Qed.

Lemma ResampleIRF_outside spline (dt : R) (w w' : t) :
  ResampleIRF spline w dt = Ok w' -> outside_irf w' = outside_irf w.
Proof.
  unfold ResampleIRF.
  apply (for_loop_preserves (fun s => outside_irf s = outside_irf w));
    [reflexivity|].
  intros i s0 s1 H0 E. apply resample_body_outside in E. congruence.
Qed.

Lemma initial_tables_outside (o : IrregularWavesObject) (w : t) :
  initial_tables o = Ok w -> outside_irf w = outside_irf (core o).
Proof.
  unfold initial_tables.
  apply (for_loop_preserves (fun s => outside_irf s = outside_irf (core o)));
    [reflexivity|].
  intros i s0 s1 H0. through_binds. intros Hw.
  apply CalculateWidthIRF_outside in Hw. rewrite <- H0. exact Hw.
Qed.

Lemma vresize_length {A : Type} (d : A) (v : list A) (n : nat) :
  length (vresize d v n) = n.
Proof.
  unfold vresize. rewrite length_app, length_firstn, repeat_length. lia.
Qed.

Lemma initial_tables_loop (o : IrregularWavesObject) :
  let n := num_bodies_ (core o) in
  (n <= length (wave_info_ o))%nat ->
  exists w, initial_tables o = Ok w
    /\ num_bodies_ w = n
    /\ length (ex_irf_sampled_ w) = n
    /\ length (ex_irf_time_sampled_ w) = n
    /\ length (ex_irf_width_sampled_ w) = n
    /\ (forall b info, (b < n)%nat -> nth_error (wave_info_ o) b = Some info ->
          nth_error (ex_irf_sampled_ w) b = Some (excitation_irf_matrix info)
          /\ nth_error (ex_irf_time_sampled_ w) b = Some (excitation_irf_time info))
    /\ ((0 < n)%nat -> forall b, (b < n)%nat ->
          nth_error (ex_irf_width_sampled_ w) b
          = Some (widths_of (nth b (ex_irf_time_sampled_ w) []))).
Proof.
  intros n Hinfo.
  unfold initial_tables. fold n.
  match goal with |- exists w, for_loop n ?body ?s = _ /\ _ =>
    destruct (for_loop_inv
      (fun k (w : t) =>
         num_bodies_ w = n
         /\ length (ex_irf_sampled_ w) = n
         /\ length (ex_irf_time_sampled_ w) = n
         /\ length (ex_irf_width_sampled_ w) = n
         /\ (forall b info, (b < k)%nat ->
               nth_error (wave_info_ o) b = Some info ->
               nth_error (ex_irf_sampled_ w) b = Some (excitation_irf_matrix info)
               /\ nth_error (ex_irf_time_sampled_ w) b
                  = Some (excitation_irf_time info))
         /\ ((0 < k)%nat -> forall b, (b < n)%nat ->
               nth_error (ex_irf_width_sampled_ w) b
               = Some (widths_of (nth b (ex_irf_time_sampled_ w) []))))
      body n s) as [w [E H]]
  end.
  - cbn [set_irf num_bodies_ ex_irf_sampled_ ex_irf_time_sampled_
         ex_irf_width_sampled_].
    rewrite !vresize_length. repeat split; intros; lia.
  - intros k w Hk [Hn [Lv [Lt [Lw [Hdone _]]]]].
    unfold GetExcitationIRF.
    rewrite (vget_Z_ok (wave_info_ o) k (nth k (wave_info_ o)
               {| excitation_irf_matrix := []; excitation_irf_time := [] |}))
      by (apply nth_error_nth'; lia).
    cbn [bind]. unfold vset at 1.
    destruct (Nat.ltb_spec k (length (ex_irf_sampled_ w))); [|lia].
    cbn [bind].
    rewrite (vget_nat_ok (wave_info_ o) k (nth k (wave_info_ o)
               {| excitation_irf_matrix := []; excitation_irf_time := [] |}))
      by (apply nth_error_nth'; lia).
    cbn [bind]. unfold vset.
    destruct (Nat.ltb_spec k (length (ex_irf_time_sampled_ w))); [|lia].
    cbn [bind]. unfold CalculateWidthIRF.
    cbn [set_irf num_bodies_ ex_irf_time_sampled_ ex_irf_width_sampled_
         ex_irf_sampled_].
    destruct (CalculateWidthIRF_vectors_spec (num_bodies_ w)
                (upd (ex_irf_time_sampled_ w) k
                   (excitation_irf_time (nth k (wave_info_ o)
                      {| excitation_irf_matrix := [];
                         excitation_irf_time := [] |})))
                (ex_irf_width_sampled_ w)) as [ws [Ews [Lws [Pws _]]]].
    { rewrite upd_length. lia. }
    { lia. }
    rewrite Ews. cbn [bind]. eexists; split; [reflexivity|].
    cbn [set_irf num_bodies_ ex_irf_time_sampled_ ex_irf_width_sampled_
         ex_irf_sampled_].
    rewrite !upd_length.
    split; [exact Hn|]. split; [exact Lv|]. split; [exact Lt|].
    split; [lia|]. split.
    + intros b info Hb Hinfo_b. rewrite !nth_error_upd by lia.
      destruct (Nat.eqb_spec b k) as [->|Hne].
      * rewrite (nth_error_nth _ _ _ Hinfo_b). split; reflexivity.
      * apply Hdone; [lia | assumption].
    + intros _ b Hb. apply Pws. lia.
  - exists w. split; [exact E|]. exact H.
Qed.

(** X20: The first loop of [InitializeIRFVectors] gives every body a table: the
    matrix and the time grid of its H5 data, and the widths of that grid. *)
Theorem initial_tables_copy_the_h5_data (o : IrregularWavesObject) :
  (num_bodies_ (core o) <= length (wave_info_ o))%nat ->
  exists w,
    initial_tables o = Ok w
    /\ outside_irf w = outside_irf (core o)
    /\ length (ex_irf_sampled_ w) = num_bodies_ (core o)
    /\ length (ex_irf_time_sampled_ w) = num_bodies_ (core o)
    /\ length (ex_irf_width_sampled_ w) = num_bodies_ (core o)
    /\ forall b info, (b < num_bodies_ (core o))%nat ->
         nth_error (wave_info_ o) b = Some info ->
         nth_error (ex_irf_sampled_ w) b = Some (excitation_irf_matrix info)
         /\ nth_error (ex_irf_time_sampled_ w) b = Some (excitation_irf_time info)
         /\ nth_error (ex_irf_width_sampled_ w) b
            = Some (widths_of (excitation_irf_time info)).
Proof.
  intros Hinfo.
  destruct (initial_tables_loop o Hinfo) as [w [E [Hn [Lv [Lt [Lw [Hdone Hwid]]]]]]].
  exists w. split; [exact E|]. split; [now apply initial_tables_outside|].
  split; [exact Lv|]. split; [exact Lt|]. split; [exact Lw|].
  intros b info Hb Hinfo_b. destruct (Hdone b info Hb Hinfo_b) as [Hv Ht].
  split; [exact Hv|]. split; [exact Ht|].
  rewrite (Hwid ltac:(lia) b Hb). now rewrite (nth_error_nth _ _ _ Ht).
Qed.

Lemma initial_tables_copy_the_h5_data_witness :
  exists w,
    initial_tables (fresh_example line_a 2) = Ok w
    /\ outside_irf w = outside_irf (core (fresh_example line_a 2))
    /\ length (ex_irf_sampled_ w) = 1%nat
    /\ length (ex_irf_time_sampled_ w) = 1%nat
    /\ length (ex_irf_width_sampled_ w) = 1%nat
    /\ forall b info, (b < 1)%nat ->
         nth_error (wave_info_ (fresh_example line_a 2)) b = Some info ->
         nth_error (ex_irf_sampled_ w) b = Some (excitation_irf_matrix info)
         /\ nth_error (ex_irf_time_sampled_ w) b = Some (excitation_irf_time info)
         /\ nth_error (ex_irf_width_sampled_ w) b
            = Some (widths_of (excitation_irf_time info)).
Proof.
  apply (initial_tables_copy_the_h5_data (fresh_example line_a 2)). simpl. lia.
Defined.

Lemma outside_irf_fields (w w' : t) :
  outside_irf w' = outside_irf w ->
  num_bodies_ w' = num_bodies_ w
  /\ wave_height_ w' = wave_height_ w
  /\ wave_period_ w' = wave_period_ w
  /\ simulation_dt_ w' = simulation_dt_ w
  /\ simulation_duration_ w' = simulation_duration_ w
  /\ ramp_duration_ w' = ramp_duration_ w
  /\ free_surface_time_sampled_ w' = free_surface_time_sampled_ w
  /\ free_surface_elevation_sampled_ w' = free_surface_elevation_sampled_ w.
Proof.
  unfold outside_irf. intros H. injection H. intros. repeat split; assumption.
Qed.

Section InitializationFacts.

Variable mt19937 : Type.
Variable mt19937_seed : Z -> mt19937.
Variable uniform_real_distribution : R -> R -> mt19937 -> R * mt19937.
Variable SplineInterpolate : matrix -> Z -> list R -> R -> list R.
Variable open_file : String.string -> option (list String.string).
Variable extract : String.string -> option (R * Ascii.ascii * R).

Let Initialize :=
  InitializeIRFVectors mt19937 mt19937_seed uniform_real_distribution
    SplineInterpolate open_file extract.

Lemma tables_stage_outside (o : IrregularWavesObject) (w2 : t) :
  tables_stage SplineInterpolate o = Ok w2 -> outside_irf w2 = outside_irf (core o).
Proof.
  unfold tables_stage. destruct (initial_tables o) as [w1|e] eqn:E1; cbn [bind];
    [|discriminate].
  apply initial_tables_outside in E1.
  destruct (Rltb 0.0 (simulation_dt_ w1)).
  - intros E2. apply ResampleIRF_outside in E2. congruence.
  - intros [= <-]. exact E1.
Qed.

(** The three ways [InitializeIRFVectors] returns. *)
Lemma InitializeIRFVectors_Done (o o' : IrregularWavesObject) :
  Initialize o = Done o' ->
  exists w2,
    tables_stage SplineInterpolate o = Ok w2
    /\ ((path_is_empty (eta_file_path_ o) = false
         /\ exists o1, ReadEtaFromFile open_file extract (with_core o w2) = Done o1
                       /\ o' = with_spectrumCreated o1 false)
        \/ (path_is_empty (eta_file_path_ o) = true
            /\ wave_height_ (core o) <> 0 /\ wave_period_ (core o) <> 0
            /\ exists w3,
                 synthesize_free_surface mt19937 mt19937_seed
                   uniform_real_distribution w2 = Ok w3
                 /\ o' = with_spectrumCreated (with_core o w3) true)
        \/ (path_is_empty (eta_file_path_ o) = true
            /\ (wave_height_ (core o) = 0 \/ wave_period_ (core o) = 0)
            /\ o' = with_core o w2)).
Proof.
  unfold Initialize, InitializeIRFVectors, tables_stage.
  destruct (initial_tables o) as [w1|e] eqn:E1; cbn [bind]; [|discriminate].
  destruct (if Rltb 0.0 (simulation_dt_ w1) then _ else _) as [w2|e] eqn:E2;
    [|discriminate].
  assert (Hout : outside_irf w2 = outside_irf (core o)).
  { apply tables_stage_outside. unfold tables_stage. rewrite E1. exact E2. }
  apply outside_irf_fields in Hout.
  destruct Hout as [_ [HH [HT _]]]. rewrite HH, HT.
  intros H. exists w2. split; [reflexivity|].
  destruct (path_is_empty (eta_file_path_ o)); cbn [negb] in H.
  - right.
    destruct (Reqb_spec (wave_height_ (core o)) 0.0) as [Hh|Hh];
      destruct (Reqb_spec (wave_period_ (core o)) 0.0) as [Hp|Hp];
      cbn [negb andb] in H.
    + right. split; [reflexivity|]. split; [left; lra | congruence].
    + right. split; [reflexivity|]. split; [left; lra | congruence].
    + right. split; [reflexivity|]. split; [right; lra | congruence].
    + left. split; [reflexivity|]. split; [lra|]. split; [lra|].
      destruct (synthesize_free_surface _ _ _ w2) as [w3|e]; [|discriminate].
      exists w3. split; [reflexivity | congruence].
  - left. split; [reflexivity|].
    destruct (ReadEtaFromFile open_file extract (with_core o w2)) as [o1|e];
      [|discriminate].
    exists o1. split; [reflexivity | congruence].
Qed.

Lemma ReadEtaFromFile_Done (o o1 : IrregularWavesObject) :
  ReadEtaFromFile open_file extract o = Done o1 ->
  free_surface_time_sampled_ (core o1) = free_surface_time_sampled_ (core o)
  /\ num_bodies_ (core o1) = num_bodies_ (core o)
  /\ spectrum_ o1 = spectrum_ o.
Proof.
  unfold ReadEtaFromFile. destruct (open_file (eta_file_path_ o)); [|discriminate].
  destruct (read_eta_lines _ _ _ _) as [[times etas]|e]; [|discriminate].
  intros [= <-]. repeat split.
Qed.

Lemma tables_stage_ok (o : IrregularWavesObject) :
  (num_bodies_ (core o) <= length (wave_info_ o))%nat ->
  (forall b info, (b < num_bodies_ (core o))%nat ->
     nth_error (wave_info_ o) b = Some info -> excitation_irf_time info <> []) ->
  exists w2,
    tables_stage SplineInterpolate o = Ok w2
    /\ outside_irf w2 = outside_irf (core o)
    /\ length (ex_irf_time_sampled_ w2) = num_bodies_ (core o)
    /\ (0 < simulation_dt_ (core o) ->
        forall b info, (b < num_bodies_ (core o))%nat ->
          nth_error (wave_info_ o) b = Some info ->
          nth_error (ex_irf_time_sampled_ w2) b
          = Some (resampled_grid (simulation_dt_ (core o)) (excitation_irf_time info))
          /\ nth_error (ex_irf_sampled_ w2) b
             = Some (resampled_values SplineInterpolate (simulation_dt_ (core o))
                       (excitation_irf_time info) (excitation_irf_matrix info))
          /\ nth_error (ex_irf_width_sampled_ w2) b
             = Some (widths_of (resampled_grid (simulation_dt_ (core o))
                                  (excitation_irf_time info)))).
Proof.
  intros Hinfo Hgrids. set (n := num_bodies_ (core o)) in *.
  destruct (initial_tables_loop o Hinfo) as [w1 [E1 [_ [Lv [Lt [Lw [Htab _]]]]]]].
  pose proof (initial_tables_outside o w1 E1) as Hout.
  fold n in Lv, Lt, Lw, Htab.
  pose proof (outside_irf_fields _ _ Hout) as [Hn [_ [_ [Hdt _]]]]. fold n in Hn.
  unfold tables_stage. rewrite E1. cbn [bind]. rewrite Hdt.
  destruct (Rltb_spec 0.0 (simulation_dt_ (core o))) as [Hpos|Hneg].
  - destruct (ResampleIRF_spec SplineInterpolate (simulation_dt_ (core o)) w1)
      as [w2 [E2 [Hn2 [Lt2 [Lw2 [Lv2 [Hdone [_ Hwid]]]]]]]].
    + rewrite Hn. lia.
    + rewrite Hn. intros b Hb.
      destruct (nth_error (wave_info_ o) b) as [info|] eqn:Ei.
      * destruct (Htab b info Hb Ei) as [_ Ht].
        rewrite (nth_error_nth _ _ _ Ht). now apply (Hgrids b info).
      * apply nth_error_None in Ei. lia.
    + exists w2. split; [exact E2|].
      split; [apply ResampleIRF_outside in E2; congruence|].
      split; [lia|]. intros _ b info Hb Ei.
      destruct (Htab b info Hb Ei) as [Hv Ht].
      rewrite Hn in Hdone, Hwid.
      destruct (Hdone b Hb) as [Ht2 Hv2].
      rewrite (nth_error_nth _ _ _ Ht) in Ht2, Hv2.
      rewrite (nth_error_nth _ _ _ Hv) in Hv2.
      split; [exact Ht2|]. split; [exact Hv2|].
      rewrite (Hwid ltac:(lia) b Hb). now rewrite (nth_error_nth _ _ _ Ht2).
  - exists w1. split; [reflexivity|]. split; [exact Hout|]. split; [exact Lt|].
    intros Hpos. lra.
Qed.

Lemma InitializeIRFVectors_file_spec (o : IrregularWavesObject)
  (lines : list String.string) (pairs : list (R * R)) :
  (num_bodies_ (core o) <= length (wave_info_ o))%nat ->
  (forall b info, (b < num_bodies_ (core o))%nat ->
     nth_error (wave_info_ o) b = Some info -> excitation_irf_time info <> []) ->
  path_is_empty (eta_file_path_ o) = false ->
  open_file (eta_file_path_ o) = Some lines ->
  Forall2 (parses extract) lines pairs ->
  exists o',
    Initialize o = Done o'
    /\ time_data_ o' = time_data_ o ++ map fst pairs
    /\ free_surface_elevation_sampled_ (core o')
       = free_surface_elevation_sampled_ (core o) ++ map snd pairs
    /\ free_surface_time_sampled_ (core o') = free_surface_time_sampled_ (core o)
    /\ spectrumCreated_ o' = false.
Proof.
  intros Hinfo Hgrids Hpath Hopen Hlines.
  destruct (tables_stage_ok o Hinfo Hgrids) as [w2 [E2 [Hout _]]].
  pose proof (outside_irf_fields _ _ Hout) as [_ [_ [_ [_ [_ [_ [Hts Hel]]]]]]].
  unfold Initialize, InitializeIRFVectors. unfold tables_stage in E2.
  destruct (initial_tables o) as [w1|e]; cbn [bind] in E2; [|discriminate].
  rewrite E2, Hpath. cbn [negb].
  unfold ReadEtaFromFile. cbn [with_core eta_file_path_ time_data_ core].
  rewrite Hopen, (read_eta_lines_parsed extract lines pairs Hlines).
  eexists. split; [reflexivity|].
  cbn [with_spectrumCreated time_data_ core set_free_surface
       free_surface_elevation_sampled_ free_surface_time_sampled_ spectrumCreated_].
  rewrite Hts, Hel. repeat split.
Qed.

End InitializationFacts.

(** X21: With an elevation file whose lines all read as [time : eta], and H5 data
    with a nonempty time grid for every body, [InitializeIRFVectors] returns:
    the file's times are appended to what [GetEtaTimeData] returns and its
    elevations to the elevation history, the time stamps of the history are
    left as they were, and [GetSpectrum] then refuses to answer. *)
Theorem InitializeIRFVectors_reads_the_elevation_file
  (mt19937 : Type) (mt19937_seed : Z -> mt19937)
  (uniform_real_distribution : R -> R -> mt19937 -> R * mt19937)
  (SplineInterpolate : matrix -> Z -> list R -> R -> list R)
  (open_file : String.string -> option (list String.string))
  (extract : String.string -> option (R * Ascii.ascii * R))
  (o : IrregularWavesObject) (lines : list String.string) (pairs : list (R * R)) :
  (num_bodies_ (core o) <= length (wave_info_ o))%nat ->
  (forall b info, (b < num_bodies_ (core o))%nat ->
     nth_error (wave_info_ o) b = Some info -> excitation_irf_time info <> []) ->
  path_is_empty (eta_file_path_ o) = false ->
  open_file (eta_file_path_ o) = Some lines ->
  Forall2 (parses extract) lines pairs ->
  exists o',
    InitializeIRFVectors mt19937 mt19937_seed uniform_real_distribution
      SplineInterpolate open_file extract o = Done o'
    /\ GetEtaTimeData o' = GetEtaTimeData o ++ map fst pairs
    /\ GetFreeSurfaceElevation o' = GetFreeSurfaceElevation o ++ map snd pairs
    /\ free_surface_time_sampled_ (core o') = free_surface_time_sampled_ (core o)
    /\ GetSpectrum o' = Thrown SpectrumNotCreated.
Proof.
  intros Hinfo Hgrids Hpath Hopen Hlines.
  destruct (InitializeIRFVectors_file_spec mt19937 mt19937_seed
              uniform_real_distribution SplineInterpolate open_file extract
              o lines pairs Hinfo Hgrids Hpath Hopen Hlines)
    as [o' [E [Ht [He [Hts Hflag]]]]].
  exists o'. split; [exact E|]. split; [exact Ht|]. split; [exact He|].
  split; [exact Hts|]. unfold GetSpectrum. rewrite Hflag. reflexivity.
Qed.

Lemma fresh_example_grids (path : String.string) (height : R) :
  forall b info, (b < num_bodies_ (core (fresh_example path height)))%nat ->
    nth_error (wave_info_ (fresh_example path height)) b = Some info ->
    excitation_irf_time info <> [].
Proof.
  intros b info Hb. simpl in Hb. assert (b = 0%nat) by lia. subst b.
  intros [= <-]. discriminate.
Qed.

Lemma InitializeIRFVectors_reads_the_elevation_file_witness :
  exists o',
    InitializeIRFVectors nat counting_seed counting_draw flat_spline
      two_line_file extract_example (fresh_example line_a 2) = Done o'
    /\ GetEtaTimeData o' = [] ++ map fst [(0, 5); (1, 7)]
    /\ GetFreeSurfaceElevation o' = [] ++ map snd [(0, 5); (1, 7)]
    /\ free_surface_time_sampled_ (core o') = []
    /\ GetSpectrum o' = Thrown SpectrumNotCreated.
Proof.
  apply (InitializeIRFVectors_reads_the_elevation_file nat counting_seed
           counting_draw flat_spline two_line_file extract_example
           (fresh_example line_a 2) [line_a; line_b] [(0, 5); (1, 7)]).
  - simpl. lia.
  - apply fresh_example_grids.
  - reflexivity.
  - reflexivity.
  - repeat constructor.
Defined.

Lemma ExcitationConvolution_without_history g u (w : t) (b d : Z) (time : R) :
  free_surface_time_sampled_ w = [] ->
  is_err (ExcitationConvolution g u w b d time).
Proof.
  intros Hts. unfold ExcitationConvolution. rewrite Hts.
  destruct (vget (ex_irf_time_sampled_ w) b) as [x|e]; cbn [bind];
    [|exists e; reflexivity].
  destruct (vget (ex_irf_sampled_ w) b) as [y|e]; cbn [bind];
    [|exists e; reflexivity].
  destruct (vget (ex_irf_width_sampled_ w) b) as [z|e]; cbn [bind];
    [|exists e; reflexivity].
  eexists. reflexivity.
Qed.

(** X22: Only the synthesis fills the time stamps of the history.  After an
    initialization from an elevation file, or with a zero wave height or
    period, they are what they were before; on an object that had none,
    every convolution and every force query then fails. *)
Theorem InitializeIRFVectors_history_only_from_synthesis
  (mt19937 : Type) (mt19937_seed : Z -> mt19937)
  (uniform_real_distribution : R -> R -> mt19937 -> R * mt19937)
  (SplineInterpolate : matrix -> Z -> list R -> R -> list R)
  (open_file : String.string -> option (list String.string))
  (extract : String.string -> option (R * Ascii.ascii * R))
  (o o' : IrregularWavesObject) :
  InitializeIRFVectors mt19937 mt19937_seed uniform_real_distribution
    SplineInterpolate open_file extract o = Done o' ->
  path_is_empty (eta_file_path_ o) = false
  \/ wave_height_ (core o) = 0 \/ wave_period_ (core o) = 0 ->
  free_surface_time_sampled_ (core o') = free_surface_time_sampled_ (core o)
  /\ (free_surface_time_sampled_ (core o) = [] ->
      (forall g u b d time,
         is_err (ExcitationConvolution g u (core o') b d time))
      /\ ((0 < num_bodies_ (core o))%nat ->
          forall g u time, is_err (GetForceAtTime g u (core o') time))).
Proof.
  intros HDone Hbranch.
  destruct (InitializeIRFVectors_Done _ _ _ _ _ _ _ _ HDone)
    as [w2 [E2 Hcases]].
  apply tables_stage_outside, outside_irf_fields in E2.
  destruct E2 as [Hn [_ [_ [_ [_ [_ [Hts _]]]]]]].
  assert (Hsame : free_surface_time_sampled_ (core o')
                  = free_surface_time_sampled_ (core o)
                  /\ num_bodies_ (core o') = num_bodies_ (core o)).
  { destruct Hcases as [[Hp [o1 [E1 ->]]] | [[Hp [HH [HT _]]] | [Hp [_ ->]]]].
    - apply ReadEtaFromFile_Done in E1. destruct E1 as [E1 [En _]].
      cbn [with_spectrumCreated core with_core] in *. split; congruence.
    - destruct Hbranch as [Hb|[Hb|Hb]]; [congruence | contradiction | contradiction].
    - cbn [with_core core]. split; assumption. }
  destruct Hsame as [Hsame Hnum]. split; [exact Hsame|].
  intros Hfresh. rewrite Hfresh in Hsame.
  split.
  - intros g u b d time. now apply ExcitationConvolution_without_history.
  - intros Hpos g u time.
    apply (GetForceAtTime_propagates g u (core o') time 0 0); [lia | lia |].
    now apply ExcitationConvolution_without_history.
Qed.

Lemma InitializeIRFVectors_history_only_from_synthesis_witness :
  exists o',
    InitializeIRFVectors nat counting_seed counting_draw flat_spline
      two_line_file extract_example (fresh_example line_a 2) = Done o'
    /\ free_surface_time_sampled_ (core o') = []
    /\ (forall g u b d time,
          is_err (ExcitationConvolution g u (core o') b d time))
    /\ (forall g u time, is_err (GetForceAtTime g u (core o') time)).
Proof.
  destruct (InitializeIRFVectors_file_spec nat counting_seed counting_draw
              flat_spline two_line_file extract_example (fresh_example line_a 2)
              [line_a; line_b] [(0, 5); (1, 7)]) as [o' [E _]].
  - simpl. lia.
  - apply fresh_example_grids.
  - reflexivity.
  - reflexivity.
  - repeat constructor.
  - exists o'. split; [exact E|].
    destruct (InitializeIRFVectors_history_only_from_synthesis nat counting_seed
                counting_draw flat_spline two_line_file extract_example
                (fresh_example line_a 2) o' E) as [Hts Hfail].
    + left. reflexivity.
    + split; [exact Hts|]. destruct (Hfail eq_refl) as [Hc Hf].
      split; [exact Hc|]. apply Hf. simpl. lia.
Defined.

Lemma synthesize_free_surface_Ok
  (mt19937 : Type) (mt19937_seed : Z -> mt19937)
  (uniform_real_distribution : R -> R -> mt19937 -> R * mt19937) (w w' : t) :
  synthesize_free_surface mt19937 mt19937_seed uniform_real_distribution w = Ok w' ->
  spectrum_frequencies_ w' = spectrum_frequencies_ (CreateSpectrum w)
  /\ spectral_densities_ w' = spectral_densities_ (CreateSpectrum w).
Proof.
  unfold synthesize_free_surface, CreateFreeSurfaceElevation.
  through_binds. intros [= <-]. split; reflexivity.
Qed.

(** X23: [InitializeIRFVectors] never writes the vector that [GetSpectrum]
    returns.  After reading an elevation file [GetSpectrum] refuses; after a
    synthesis it returns the vector the object held before, while the 1000
    densities just created sit in another member; otherwise it answers as
    before. *)
Theorem GetSpectrum_after_initialization
  (mt19937 : Type) (mt19937_seed : Z -> mt19937)
  (uniform_real_distribution : R -> R -> mt19937 -> R * mt19937)
  (SplineInterpolate : matrix -> Z -> list R -> R -> list R)
  (open_file : String.string -> option (list String.string))
  (extract : String.string -> option (R * Ascii.ascii * R))
  (o o' : IrregularWavesObject) :
  InitializeIRFVectors mt19937 mt19937_seed uniform_real_distribution
    SplineInterpolate open_file extract o = Done o' ->
  (path_is_empty (eta_file_path_ o) = false ->
   GetSpectrum o' = Thrown SpectrumNotCreated)
  /\ (path_is_empty (eta_file_path_ o) = true ->
      wave_height_ (core o) <> 0 -> wave_period_ (core o) <> 0 ->
      GetSpectrum o' = Done (spectrum_ o)
      /\ length (spectral_densities_ (core o')) = 1000%nat)
  /\ (path_is_empty (eta_file_path_ o) = true ->
      wave_height_ (core o) = 0 \/ wave_period_ (core o) = 0 ->
      GetSpectrum o' = GetSpectrum o).
Proof.
  intros HDone.
  destruct (InitializeIRFVectors_Done _ _ _ _ _ _ _ _ HDone)
    as [w2 [E2 Hcases]].
  destruct Hcases as [[Hp [o1 [E1 ->]]]
                     | [[Hp [HH [HT [w3 [E3 ->]]]]] | [Hp [Hzero ->]]]].
  - split; [reflexivity|]. split; intros; congruence.
  - split; [intros; congruence|]. split.
    + intros _ _ _. split; [reflexivity|].
      cbn [with_spectrumCreated with_core core].
      apply synthesize_free_surface_Ok in E3. destruct E3 as [_ ->].
      apply CreateSpectrum_fields.
    + intros _ [Hz|Hz]; contradiction.
  - split; [intros; congruence|]. split.
    + intros _ HH HT. destruct Hzero; contradiction.
    + intros _ _. reflexivity.
Qed.

Lemma GetSpectrum_after_initialization_witness :
  exists o',
    InitializeIRFVectors nat counting_seed counting_draw flat_spline
      two_line_file extract_example (fresh_example line_a 2) = Done o'
    /\ GetSpectrum o' = Thrown SpectrumNotCreated.
Proof.
  destruct (InitializeIRFVectors_file_spec nat counting_seed counting_draw
              flat_spline two_line_file extract_example (fresh_example line_a 2)
              [line_a; line_b] [(0, 5); (1, 7)]) as [o' [E _]].
  - simpl. lia.
  - apply fresh_example_grids.
  - reflexivity.
  - reflexivity.
  - repeat constructor.
  - exists o'. split; [exact E|].
    apply (proj1 (GetSpectrum_after_initialization nat counting_seed
                    counting_draw flat_spline two_line_file extract_example
                    (fresh_example line_a 2) o' E)).
    reflexivity.
Defined.

(** ** From the H5 data to the forces of a run *)

Lemma ceilZ_pos (x : R) : 0 < x -> (1 <= ceilZ x)%Z.
Proof.
  intros Hx. unfold ceilZ. destruct (base_Int_part (- x)) as [Hlo _].
  assert (Int_part (- x) < 0)%Z by (apply lt_IZR; lra). lia.
Qed.

Lemma resampled_grid_ok (dt : R) (grid : list R) :
  0 < dt -> nth 0 grid 0 < nth (length grid - 1) grid 0 ->
  resampled_grid dt grid <> [] /\ Sorted Rle (resampled_grid dt grid).
Proof.
  intros Hdt Hspan. split.
  - intros Hnil. apply (f_equal (@length R)) in Hnil.
    unfold resampled_grid in Hnil. rewrite LinSpaced_length in Hnil.
    assert (1 <= resampled_count dt grid)%Z.
    { unfold resampled_count. apply ceilZ_pos. apply Rdiv_lt_0_compat; lra. }
    simpl in Hnil. lia.
  - unfold resampled_grid. apply LinSpaced_sorted. lra.
Qed.

Lemma Sorted_map_monotone (g : R -> R) (l : list R) :
  (forall x y, x <= y -> g x <= g y) -> Sorted Rle l -> Sorted Rle (map g l).
Proof.
  intros Hg. induction 1 as [|x l HS IH Hd]; simpl; constructor.
  - exact IH.
  - destruct Hd; simpl; constructor. now apply Hg.
Qed.

Lemma free_surface_times_sorted (w : t) (time_array times : list R) (mn mx : R) :
  free_surface_times w = Ok (time_array, times) ->
  irf_bounds (ex_irf_time_sampled_ w) (0.0, 0.0) = Ok (mn, mx) ->
  0 <= simulation_duration_ w + 2 * (mx - mn) ->
  Sorted Rle times.
Proof.
  unfold free_surface_times. intros E Eb Hhi. rewrite Eb in E.
  cbn [bind fst snd] in E. injection E as _ <-.
  apply Sorted_map_monotone; [intros; lra|]. now apply LinSpaced_sorted.
Qed.

Lemma CreateSpectrum_tables (w : t) :
  num_bodies_ (CreateSpectrum w) = num_bodies_ w
  /\ ex_irf_sampled_ (CreateSpectrum w) = ex_irf_sampled_ w
  /\ ex_irf_time_sampled_ (CreateSpectrum w) = ex_irf_time_sampled_ w
  /\ ex_irf_width_sampled_ (CreateSpectrum w) = ex_irf_width_sampled_ w.
Proof.
  unfold CreateSpectrum. rewrite JONSWAPSpectrumHz_densities.
  repeat split.
Qed.

Section RunFacts.

Variable mt19937 : Type.
Variable mt19937_seed : Z -> mt19937.
Variable uniform_real_distribution : R -> R -> mt19937 -> R * mt19937.

(** The history that the synthesis leaves: one elevation per time stamp,
    ascending time stamps, and a window that holds every lag of the run. *)
Lemma synthesize_free_surface_spec (w : t) :
  0 < simulation_dt_ w <= simulation_duration_ w ->
  ramp_duration_ w <= simulation_duration_ w ->
  Forall (fun grid => grid <> [] /\ Sorted Rle grid) (ex_irf_time_sampled_ w) ->
  exists w',
    synthesize_free_surface mt19937 mt19937_seed uniform_real_distribution w = Ok w'
    /\ num_bodies_ w' = num_bodies_ w
    /\ ex_irf_sampled_ w' = ex_irf_sampled_ w
    /\ ex_irf_time_sampled_ w' = ex_irf_time_sampled_ w
    /\ ex_irf_width_sampled_ w' = ex_irf_width_sampled_ w
    /\ length (free_surface_elevation_sampled_ w')
       = length (free_surface_time_sampled_ w')
    /\ Z.of_nat (length (free_surface_time_sampled_ w'))
       = (trunc_int (simulation_duration_ w / simulation_dt_ w) + 1)%Z
    /\ Sorted Rle (free_surface_time_sampled_ w')
    /\ Forall (fun grid => forall tau time, In tau grid ->
                 0 <= time <= simulation_duration_ w ->
                 inside_window w' (time - tau))
         (ex_irf_time_sampled_ w).
Proof.
  intros Hdt Hramp Hgrids.
  destruct (CreateSpectrum_fields w) as [Fdt [Fdur [Framp [Fgrid [Ffreq Fden]]]]].
  destruct (CreateSpectrum_tables w) as [Tn [Tv [_ Tw]]].
  set (w1 := CreateSpectrum w) in *.
  destruct (free_surface_times_window w1) as
    [time_array [times [mn [mx [E [Eb [L1 [L2 [Hfirst [Hlast [Hzero Hall]]]]]]]]]]].
  { rewrite Fdt, Fdur; exact Hdt. }
  { rewrite Fgrid; exact Hgrids. }
  assert (HS : Sorted Rle times).
  { apply (free_surface_times_sorted w1 time_array times mn mx E Eb).
    rewrite Fdur. lra. }
  unfold synthesize_free_surface, CreateFreeSurfaceElevation. fold w1.
  rewrite E. cbn [bind fst snd].
  destruct (FreeSurfaceElevation_closed_form mt19937 mt19937_seed
              uniform_real_distribution (spectrum_frequencies_ w1)
              (spectral_densities_ w1) time_array (water_depth w1) (seed_ w1))
    as [eta [Eeta [Leta _]]].
  { intros Hnil. rewrite Hnil in Ffreq. discriminate. }
  { rewrite Ffreq, Fden. lia. }
  rewrite Eeta. cbn [bind].
  destruct (apply_ramp_ok w1 eta) as [eta' [Er Lr]].
  { destruct (Rle_dec (ramp_duration_ w) 0) as [Hr0|Hr0];
      [left; rewrite Framp; exact Hr0 | right].
    rewrite Leta, L1, Framp, Fdt.
    apply Nat2Z.inj_le. rewrite L2, Fdur, Fdt.
    assert (trunc_int (ramp_duration_ w / simulation_dt_ w)
            <= trunc_int (simulation_duration_ w / simulation_dt_ w))%Z.
    { apply trunc_int_le. split.
      - apply Rmult_le_pos; [lra | left; apply Rinv_0_lt_compat; lra].
      - apply Rmult_le_compat_r; [left; apply Rinv_0_lt_compat; lra | lra]. }
    pose proof (num_timesteps_ge_2 w Hdt). lia. }
  rewrite Er. cbn [bind].
  rewrite Fgrid in Hall. rewrite Fdur in Hlast. rewrite Fdur, Fdt in L2.
  eexists. split; [reflexivity|].
  cbn [set_free_surface num_bodies_ ex_irf_sampled_ ex_irf_time_sampled_
       ex_irf_width_sampled_ free_surface_time_sampled_
       free_surface_elevation_sampled_].
  split; [exact Tn|]. split; [exact Tv|]. split; [exact Fgrid|].
  split; [exact Tw|]. split; [lia|]. split; [exact L2|]. split; [exact HS|].
  eapply Forall_impl; [|exact Hall]. cbn beta. intros grid Hg tau time Htau Ht.
  specialize (Hg tau Htau).
  unfold inside_window, window_min, window_max.
  cbn [set_free_surface free_surface_time_sampled_].
  rewrite Hfirst, Hlast. lra.
Qed.

End RunFacts.

Lemma resampled_values_columns spline (dt : R) (grid : list R) (vals : matrix)
  (j : nat) :
  (forall m knots u, length (spline m 3%Z knots u) = 6%nat) ->
  (j < length (resampled_grid dt grid))%nat ->
  exists col, nth_error (resampled_values spline dt grid vals) j = Some col
              /\ length col = 6%nat.
Proof.
  intros Hsix Hj. unfold resampled_values.
  set (knots := LinSpaced (Z.of_nat (length (resampled_grid dt grid))) 0 1).
  assert (Hk : (j < length knots)%nat).
  { unfold knots. rewrite LinSpaced_length. lia. }
  exists (spline vals 3%Z (LinSpaced (Z.of_nat (length grid)) 0 1) (nth j knots 0)).
  split; [|apply Hsix].
  rewrite nth_error_map, (nth_error_nth' knots 0 Hk). reflexivity.
Qed.

(** X24: The whole synthesis path.  From H5 data whose time grids end after they
    start, with no elevation file, a wave height and period that are not
    zero, a time step [0 < dt <= duration], a ramp no longer than the run and
    fewer than 2^31 time steps, [InitializeIRFVectors] returns, and on the
    object it leaves every convolution and every force query of a time
    [0 <= time <= duration] returns a value, the force with six entries per
    body. *)
Theorem InitializeIRFVectors_synthesis_serves_the_run
  (mt19937 : Type) (mt19937_seed : Z -> mt19937)
  (uniform_real_distribution : R -> R -> mt19937 -> R * mt19937)
  (SplineInterpolate : matrix -> Z -> list R -> R -> list R)
  (open_file : String.string -> option (list String.string))
  (extract : String.string -> option (R * Ascii.ascii * R))
  (get_lower_index : R -> list R -> result Z)
  (indeterminate : Z -> Z -> R -> nat -> R)
  (o : IrregularWavesObject) :
  (num_bodies_ (core o) <= length (wave_info_ o))%nat ->
  (forall b info, (b < num_bodies_ (core o))%nat ->
     nth_error (wave_info_ o) b = Some info ->
     nth 0 (excitation_irf_time info) 0
     < nth (length (excitation_irf_time info) - 1) (excitation_irf_time info) 0) ->
  (forall m knots u, length (SplineInterpolate m 3%Z knots u) = 6%nat) ->
  lower_index_contract get_lower_index ->
  path_is_empty (eta_file_path_ o) = true ->
  wave_height_ (core o) <> 0 -> wave_period_ (core o) <> 0 ->
  0 < simulation_dt_ (core o) <= simulation_duration_ (core o) ->
  ramp_duration_ (core o) <= simulation_duration_ (core o) ->
  (trunc_int (simulation_duration_ (core o) / simulation_dt_ (core o)) + 1
   < 2 ^ 31)%Z ->
  exists o',
    InitializeIRFVectors mt19937 mt19937_seed uniform_real_distribution
      SplineInterpolate open_file extract o = Done o'
    /\ spectrumCreated_ o' = true
    /\ Z.of_nat (length (GetFreeSurfaceElevation o'))
       = (trunc_int (simulation_duration_ (core o) / simulation_dt_ (core o)) + 1)%Z
    /\ forall time, 0 <= time <= simulation_duration_ (core o) ->
         (forall b d, (b < num_bodies_ (core o))%nat -> (d < 6)%nat ->
            is_ok (ExcitationConvolution get_lower_index indeterminate (core o')
                     (Z.of_nat b) (Z.of_nat d) time))
         /\ exists f,
              GetForceAtTime get_lower_index indeterminate (core o') time = Ok f
              /\ length f = (6 * num_bodies_ (core o))%nat.
Proof.
  intros Hinfo Hspan Hsix Hcontract Hpath HH HT Hdt Hramp H31.
  set (n := num_bodies_ (core o)) in *.
  set (dt := simulation_dt_ (core o)) in *.
  destruct (tables_stage_ok SplineInterpolate o Hinfo) as [w2 [E2 [Hout [Lt Htab]]]].
  { intros b info Hb Ei Hnil. specialize (Hspan b info Hb Ei).
    rewrite Hnil in Hspan. simpl in Hspan. lra. }
  fold n in Lt, Htab. fold dt in Htab. specialize (Htab (proj1 Hdt)).
  pose proof (outside_irf_fields _ _ Hout)
    as [Hn [FH [FT [Fdt [Fdur [Framp _]]]]]].
  fold n in Hn. fold dt in Fdt.
  (* every table of [w2] is a resampled grid *)
  assert (Hgrid_of : forall b, (b < n)%nat ->
            exists info, nth_error (wave_info_ o) b = Some info
              /\ nth_error (ex_irf_time_sampled_ w2) b
                 = Some (resampled_grid dt (excitation_irf_time info))).
  { intros b Hb.
    destruct (nth_error (wave_info_ o) b) as [info|] eqn:Ei.
    - exists info. split; [reflexivity|]. now apply (Htab b info Hb Ei).
    - apply nth_error_None in Ei. lia. }
  assert (Hgrids : Forall (fun grid => grid <> [] /\ Sorted Rle grid)
                     (ex_irf_time_sampled_ w2)).
  { rewrite Forall_forall. intros grid Hin.
    apply In_nth_error in Hin. destruct Hin as [b Eb].
    assert (Hb : (b < n)%nat).
    { rewrite <- Lt. apply nth_error_Some. congruence. }
    destruct (Hgrid_of b Hb) as [info [Ei Eg]].
    rewrite Eb in Eg. injection Eg as ->.
    apply resampled_grid_ok; [exact (proj1 Hdt) | now apply (Hspan b info)]. }
  destruct (synthesize_free_surface_spec mt19937 mt19937_seed
              uniform_real_distribution w2)
    as [w3 [E3 [Hn3 [Tv [Tt [Tw [Lel [LN [HS Hlags]]]]]]]]].
  { rewrite Fdt, Fdur. exact Hdt. }
  { rewrite Framp, Fdur. exact Hramp. }
  { exact Hgrids. }
  rewrite Fdur, Fdt in LN. rewrite Fdur in Hlags.
  exists (with_spectrumCreated (with_core o w3) true).
  split.
  { unfold InitializeIRFVectors. unfold tables_stage in E2.
    destruct (initial_tables o) as [w1|e]; cbn [bind] in E2; [|discriminate].
    rewrite E2, Hpath. cbn [negb]. rewrite FH, FT.
    destruct (Reqb_spec (wave_height_ (core o)) 0.0) as [Hh|_]; [lra|].
    destruct (Reqb_spec (wave_period_ (core o)) 0.0) as [Hp|_]; [lra|].
    cbn [negb andb]. rewrite E3. reflexivity. }
  split; [reflexivity|].
  unfold GetFreeSurfaceElevation. cbn [with_spectrumCreated with_core core].
  split; [rewrite Lel; exact LN|].
  intros time Htime.
  assert (Hconv : forall b d, (b < n)%nat -> (d < 6)%nat ->
            is_ok (ExcitationConvolution get_lower_index indeterminate w3
                     (Z.of_nat b) (Z.of_nat d) time)).
  { intros b d Hb Hd.
    destruct (Hgrid_of b Hb) as [info [Ei Eg]].
    destruct (Htab b info Hb Ei) as [_ [Ev Ew]].
    set (grid := resampled_grid dt (excitation_irf_time info)) in *.
    assert (Hok : table_ok w3 b d grid).
    { pose proof (num_timesteps_ge_2 w2) as HN2.
      rewrite Fdt, Fdur in HN2. specialize (HN2 Hdt).
      assert (Hg : grid <> [] /\ Sorted Rle grid).
      { rewrite Forall_forall in Hgrids. apply Hgrids.
        apply (nth_error_In _ b). exact Eg. }
      constructor.
      - rewrite Tt. exact Eg.
      - exact (proj1 Hg).
      - exact (proj2 Hg).
      - rewrite Tv. eexists. split; [exact Ev|]. intros j Hj.
        destruct (resampled_values_columns SplineInterpolate dt
                    (excitation_irf_time info) (excitation_irf_matrix info) j
                    Hsix Hj) as [col [Ec Lc]].
        exists col. split; [exact Ec | lia].
      - rewrite Tw. eexists. split; [exact Ew|].
        unfold widths_of. rewrite length_map, length_seq. lia.
      - fold dt in HN2. lia.
      - exact HS.
      - lia. }
    apply (proj1 (ExcitationConvolution_window get_lower_index indeterminate
                    w3 b d grid time Hok Hcontract)).
    unfold lags_inside. rewrite Forall_forall. intros tau Htau.
    rewrite Forall_forall in Hlags.
    apply (Hlags grid); [apply (nth_error_In _ b); exact Eg | exact Htau | exact Htime]. }
  split; [exact Hconv|].
  destruct (GetForceAtTime_returns get_lower_index indeterminate w3 time)
    as [f [Ef Lf]].
  - rewrite Hn3, Hn. exact Hconv.
  - exists f. split; [exact Ef|]. rewrite Lf, Hn3, Hn. reflexivity.
Qed.

Lemma InitializeIRFVectors_synthesis_serves_the_run_witness :
  exists o',
    InitializeIRFVectors nat counting_seed counting_draw flat_spline
      no_file extract_nothing (fresh_example String.EmptyString 2) = Done o'
    /\ spectrumCreated_ o' = true
    /\ Z.of_nat (length (GetFreeSurfaceElevation o')) = (trunc_int (3 / 1) + 1)%Z
    /\ forall time, 0 <= time <= 3 ->
         (forall b d, (b < 1)%nat -> (d < 6)%nat ->
            is_ok (ExcitationConvolution get_lower_index_scan (fun _ _ _ _ => 0)
                     (core o') (Z.of_nat b) (Z.of_nat d) time))
         /\ exists f,
              GetForceAtTime get_lower_index_scan (fun _ _ _ _ => 0) (core o') time
              = Ok f
              /\ length f = 6%nat.
Proof.
  apply (InitializeIRFVectors_synthesis_serves_the_run nat counting_seed
           counting_draw flat_spline no_file extract_nothing
           get_lower_index_scan (fun _ _ _ _ => 0)
           (fresh_example String.EmptyString 2)).
  - simpl. lia.
  - intros b info Hb. simpl in Hb. assert (b = 0%nat) by lia. subst b.
    intros [= <-]. simpl. lra.
  - intros m knots u. reflexivity.
  - exact get_lower_index_scan_contract.
  - reflexivity.
  - simpl. lra.
  - simpl. lra.
  - simpl. lra.
  - simpl. lra.
  - change (trunc_int (3 / 1) + 1 < 2 ^ 31)%Z. rewrite trunc_int_3. lia.
Defined.

(** ** The sampling step of the history *)

(** X25: The time stamps that [CreateFreeSurfaceElevation] stores are equally
    spaced, the duration plus twice the IRF support divided by the whole
    number of simulation steps in the duration: never less than the
    simulation step, and more as soon as the IRF support is not zero. *)
Theorem CreateFreeSurfaceElevation_history_step
  (mt19937 : Type) (mt19937_seed : Z -> mt19937)
  (uniform_real_distribution : R -> R -> mt19937 -> R * mt19937) (w w' : t) :
  CreateFreeSurfaceElevation mt19937 mt19937_seed uniform_real_distribution w
  = Ok w' ->
  0 < simulation_dt_ w <= simulation_duration_ w ->
  Forall (fun grid => grid <> [] /\ Sorted Rle grid) (ex_irf_time_sampled_ w) ->
  exists t_irf_min t_irf_max,
    irf_bounds (ex_irf_time_sampled_ w) (0.0, 0.0) = Ok (t_irf_min, t_irf_max)
    /\ (forall i, (S i < length (free_surface_time_sampled_ w'))%nat ->
          nth (S i) (free_surface_time_sampled_ w') 0
          - nth i (free_surface_time_sampled_ w') 0
          = (simulation_duration_ w + 2 * (t_irf_max - t_irf_min))
            / IZR (trunc_int (simulation_duration_ w / simulation_dt_ w)))
    /\ simulation_dt_ w
       <= (simulation_duration_ w + 2 * (t_irf_max - t_irf_min))
          / IZR (trunc_int (simulation_duration_ w / simulation_dt_ w))
    /\ (t_irf_min < t_irf_max ->
        simulation_dt_ w
        < (simulation_duration_ w + 2 * (t_irf_max - t_irf_min))
          / IZR (trunc_int (simulation_duration_ w / simulation_dt_ w))).
Proof.
  intros HOk Hdt Hgrids.
  destruct (free_surface_times_window w Hdt Hgrids) as
    [time_array [times [mn [mx [E [Eb [L1 [L2 [_ [_ [Hzero _]]]]]]]]]]].
  pose proof (num_timesteps_ge_2 w Hdt) as HN.
  set (D := simulation_duration_ w) in *. set (dt := simulation_dt_ w) in *.
  set (k := trunc_int (D / dt)) in *.
  assert (Hts : free_surface_time_sampled_ w' = times).
  { unfold CreateFreeSurfaceElevation in HOk. rewrite E in HOk.
    cbn [bind fst snd] in HOk. revert HOk. through_binds. intros [= <-].
    reflexivity. }
  assert (Htimes : times = map (fun x => x + - mx)
                             (LinSpaced (k + 1) 0 (D + 2 * (mx - mn)))).
  { unfold free_surface_times in E. rewrite Eb in E. cbn [bind fst snd] in E.
    fold D dt k in E. injection E as _ <-. reflexivity. }
  assert (Hk : 1 <= IZR k) by (apply IZR_le; lia).
  assert (HkD : IZR k * dt <= D).
  { unfold k, trunc_int. destruct (Rle_dec 0 (D / dt)) as [Hq|Hq].
    - destruct (base_Int_part (D / dt)) as [Hlo _].
      apply (Rmult_le_compat_r dt) in Hlo; [|lra].
      unfold Rdiv in Hlo at 2. rewrite Rmult_assoc, Rinv_l, Rmult_1_r in Hlo by lra.
      exact Hlo.
    - exfalso. apply Hq. apply Rmult_le_pos; [lra | left; apply Rinv_0_lt_compat; lra]. }
  exists mn, mx. split; [exact Eb|]. rewrite Hts.
  split; [|split].
  - intros i Hi. rewrite Htimes in Hi |- *.
    rewrite length_map, LinSpaced_length in Hi.
    rewrite !(nth_map_lt _ _ _ 0) by (rewrite LinSpaced_length; lia).
    rewrite (nth_error_nth _ _ 0 (LinSpaced_nth (k + 1) 0 _ (S i) HN ltac:(lia))).
    rewrite (nth_error_nth _ _ 0 (LinSpaced_nth (k + 1) 0 _ i HN ltac:(lia))).
    rewrite S_INR, plus_IZR. unfold Rdiv.
    replace (IZR k + 1 - 1) with (IZR k) by lra. lra.
  - apply (Rmult_le_reg_r (IZR k)); [lra|].
    unfold Rdiv. rewrite Rmult_assoc, Rinv_l by lra. lra.
  - intros Hsupport. apply (Rmult_lt_reg_r (IZR k)); [lra|].
    unfold Rdiv. rewrite Rmult_assoc, Rinv_l by lra. lra.
Qed.

Lemma CreateFreeSurfaceElevation_history_step_witness :
  exists w',
    CreateFreeSurfaceElevation nat counting_seed counting_draw
      (CreateSpectrum sea_example) = Ok w'
    /\ exists t_irf_min t_irf_max,
         irf_bounds (ex_irf_time_sampled_ (CreateSpectrum sea_example)) (0.0, 0.0)
         = Ok (t_irf_min, t_irf_max)
         /\ (forall i, (S i < length (free_surface_time_sampled_ w'))%nat ->
               nth (S i) (free_surface_time_sampled_ w') 0
               - nth i (free_surface_time_sampled_ w') 0
               = (simulation_duration_ (CreateSpectrum sea_example)
                  + 2 * (t_irf_max - t_irf_min))
                 / IZR (trunc_int (simulation_duration_ (CreateSpectrum sea_example)
                                   / simulation_dt_ (CreateSpectrum sea_example))))
         /\ simulation_dt_ (CreateSpectrum sea_example)
            <= (simulation_duration_ (CreateSpectrum sea_example)
                + 2 * (t_irf_max - t_irf_min))
               / IZR (trunc_int (simulation_duration_ (CreateSpectrum sea_example)
                                 / simulation_dt_ (CreateSpectrum sea_example)))
         /\ (t_irf_min < t_irf_max ->
             simulation_dt_ (CreateSpectrum sea_example)
             < (simulation_duration_ (CreateSpectrum sea_example)
                + 2 * (t_irf_max - t_irf_min))
               / IZR (trunc_int (simulation_duration_ (CreateSpectrum sea_example)
                                 / simulation_dt_ (CreateSpectrum sea_example)))).
Proof.
  assert (Hgrids : Forall (fun grid => grid <> [] /\ Sorted Rle grid)
                     (ex_irf_time_sampled_ sea_example)).
  { repeat constructor; try discriminate; lra. }
  destruct (synthesize_free_surface_spec nat counting_seed counting_draw sea_example)
    as [w' [E _]]; [simpl; lra | simpl; lra | exact Hgrids |].
  exists w'. split; [exact E|].
  destruct (CreateSpectrum_fields sea_example) as [Fdt [Fdur [_ [Fgrid _]]]].
  apply (CreateFreeSurfaceElevation_history_step nat counting_seed counting_draw
           (CreateSpectrum sea_example) w' E).
  - rewrite Fdt, Fdur. simpl. lra.
  - rewrite Fgrid. exact Hgrids.
Defined.
